(** * The message compliance-and-dispatch pipeline of custom-mms-platform

    A shallow embedding of
    - [server/services/mmsService.js]   (provider adapter, phone numbers),
    - [server/services/complianceService.js] (the compliance evaluator),
    - [server/models/Message.js]        (the message document and its hooks),
    - [server/models/Client.js]         (the tenant's configuration),
    - [server/routes/messages.js]       (send / retry / cancel / webhook),
    followed by the properties of the specification that concern them.

    Conventions of the embedding.
    - A JavaScript string is a [string]; [toLowerCase] acts on the ASCII
      letters, every other code unit is left as it is.
    - A JavaScript number that counts something (retry counter, byte size,
      clock hour, epoch milliseconds) is a [Z].
    - A property that can be [undefined] is an [option]; truthiness is
      written out ([truthy_str], [js_or]).
    - A thrown [Error] is the [Err] constructor of [Result], carrying
      [error.message].
    - Everything the code obtains from outside (the clock, the provider's
      network answer, the template collaborator, the fresh ObjectId) is a
      field of [Env]. *)

From Stdlib Require Import ZArith Ascii DecimalString.
From stdpp Require Import gmap strings list.

Local Open Scope Z_scope.

(** ** Results of fallible code *)

Inductive Result (A : Type) : Type :=
| Ok (a : A)
| Err (message : string).
Arguments Ok {A} a.
Arguments Err {A} message.

Definition isOk {A} (r : Result A) : bool :=
  match r with Ok _ => true | Err _ => false end.

(** ** JavaScript strings *)

Module Js.

(** [c.toLowerCase()] on one code unit: [A-Z] is moved to [a-z]. *)
Definition lowerChar (c : ascii) : ascii :=
  let n := nat_of_ascii c in
  if ((65 <=? n) && (n <=? 90))%nat then ascii_of_nat (n + 32) else c.

Fixpoint toLowerCase (s : string) : string :=
  match s with
  | EmptyString => EmptyString
  | String c r => String (lowerChar c) (toLowerCase r)
  end.

(** [s.startsWith(p)] *)
Fixpoint startsWith (p s : string) : bool :=
  match p, s with
  | EmptyString, _ => true
  | String a p', String b s' => if Ascii.eqb a b then startsWith p' s' else false
  | String _ _, EmptyString => false
  end.

(** [s.includes(sub)]: [sub] occurs in [s] at some position. *)
Fixpoint includes (s sub : string) : bool :=
  startsWith sub s ||
  match s with
  | EmptyString => false
  | String _ r => includes r sub
  end.

(** [l.join(sep)] *)
Fixpoint join (sep : string) (l : list string) : string :=
  match l with
  | [] => ""
  | [x] => x
  | x :: r => x +:+ sep +:+ join sep r
  end.

(** [String(n)] for an integral number (decimal, with a sign). *)
Definition ofNumber (n : Z) : string :=
  NilZero.string_of_int (Z.to_int n).

(** Truthiness of a possibly undefined string: [undefined] and [""] are
    falsy. *)
Definition truthy_str (o : option string) : bool :=
  match o with
  | Some s => negb (String.eqb s "")
  | None => false
  end.

(** [a || b] where [a] is an array or [undefined]/[null]: every array,
    the empty one included, is an object and therefore truthy. *)
Definition js_or {A} (a : option (list A)) (b : list A) : list A :=
  match a with
  | Some l => l
  | None => b
  end.

(** [a || b] on possibly undefined strings with a string default. *)
Definition str_or (a : option string) (b : string) : string :=
  if truthy_str a then default "" a else b.

End Js.

(** ** Phone numbers: [server/services/mmsService.js], lines 235-257 *)

Definition isDigit (c : ascii) : bool :=
  let n := nat_of_ascii c in ((48 <=? n) && (n <=? 57))%nat.

Definition isDigit19 (c : ascii) : bool :=
  let n := nat_of_ascii c in ((49 <=? n) && (n <=? 57))%nat.

Fixpoint allDigits (s : string) : bool :=
  match s with
  | EmptyString => true
  | String c r => isDigit c && allDigits r
  end.

(** [[1-9]\d{1,14}$] matched at the start of [s]. *)
Definition matchNational (s : string) : bool :=
  match s with
  | String c r =>
      isDigit19 c && allDigits r &&
      ((1 <=? String.length r) && (String.length r <=? 14))%nat
  | EmptyString => false
  end.

(** [/^\+?[1-9]\d{1,14}$/.test(phoneNumber)] *)
Definition validatePhoneNumber (phoneNumber : string) : bool :=
  match phoneNumber with
  | String "+" r => matchNational r
  | _ => matchNational phoneNumber
  end.

Definition formatPhoneNumber (phoneNumber provider : string) : Result string :=
  if negb (validatePhoneNumber phoneNumber) then
    Err "Invalid phone number format"
  else if negb (Js.startsWith "+" phoneNumber) then
    if (String.length phoneNumber =? 10)%nat then Ok ("+1" +:+ phoneNumber)
    else Ok ("+" +:+ phoneNumber)
  else Ok phoneNumber.

(** ** The tenant: [server/models/Client.js] *)

Module Client.

(** [complianceSettings].  The two lists are [option]s so that the
    [||] fall-backs of the compliance service can be written as they
    are; a document read through the schema ([[String]]) always holds
    an array there, that is [Some l]. *)
Record ComplianceSettings := {
  ageVerificationRequired : bool;
  consentRequired : bool;
  maxMessagesPerDay : Z;
  restrictedKeywords : option (list string);
  requiredDisclaimers : option (list string)
}.

Record ApiCredentials := {
  accountSid : option string;
  authToken : option string;
  fromNumber : option string;
  accountId : option string;
  username : option string;
  password : option string;
  apiKey : option string
}.

Record MmsSettings := {
  provider : option string;
  apiCredentials : ApiCredentials
}.

Record Subscription := {
  status : string;
  messagesUsed : Z;
  messagesLimit : Z
}.

Record t := {
  complianceSettings : ComplianceSettings;
  mmsSettings : MmsSettings;
  subscription : Subscription;
  isActive : bool;
  complianceStatus : string
}.

Definition canSendMessage (this : t) : bool :=
  let isActive := isActive this && String.eqb (status (subscription this)) "active" in
  let withinLimits := messagesUsed (subscription this) <? messagesLimit (subscription this) in
  let compliant := String.eqb (complianceStatus this) "compliant" in
  isActive && withinLimits && compliant.

(** [this.subscription.messagesUsed += 1] (the document is then saved) *)
Definition incrementMessageCount (this : t) : t :=
  {| complianceSettings := complianceSettings this;
     mmsSettings := mmsSettings this;
     subscription :=
       {| status := status (subscription this);
          messagesUsed := messagesUsed (subscription this) + 1;
          messagesLimit := messagesLimit (subscription this) |};
     isActive := isActive this;
     complianceStatus := complianceStatus this |}.

End Client.

(** ** Recipient and content of a send request *)

Record Recipient := {
  phoneNumber : string;
  name : option string;
  ageVerified : bool;
  consentGiven : bool;
  consentDate : option Z;
  optOutStatus : bool
}.

Record MediaItem := {
  kind : string;
  url : string;
  filename : string;
  size : Z;
  mimeType : string
}.

(** [content.media] absent and [content.media] empty are treated alike by
    every use in the modelled code, so a plain list is kept. *)
Record Content := {
  text : option string;
  media : list MediaItem;
  templateId : option string
}.

(** ** The compliance evaluator: [server/services/complianceService.js] *)

Module ComplianceService.

Definition restrictedKeywords : list string :=
  [ "marijuana"; "cannabis"; "weed"; "pot"; "smoke"; "smoking"; "vape";
    "vaping"; "e-cigarette"; "nicotine"; "tobacco"; "high"; "stoned";
    "baked"; "blazed"; "dank"; "kush"; "thc"; "cbd"; "hemp"; "edibles";
    "concentrates"; "bong"; "pipe"; "joint"; "blunt"; "dab"; "wax";
    "sativa"; "indica"; "hybrid"; "strain" ].

Definition requiredDisclaimers : list string :=
  [ "For adults 21+ only"; "Consume responsibly"; "Not for sale to minors";
    "Check local laws"; "This product is not approved by the FDA" ].

(** *** Checks 1 and 2 *)

Record Verification := { verified : bool; method : option string }.

Definition verifyAge (recipient : Recipient) (client : Client.t) : Verification :=
  if negb (Client.ageVerificationRequired (Client.complianceSettings client)) then
    {| verified := true; method := None |}
  else if ageVerified recipient then
    {| verified := true; method := None |}
  else
    let ageVerified := ageVerified recipient || false in
    {| verified := ageVerified; method := Some "self_declaration" |}.

Definition verifyConsent (recipient : Recipient) (client : Client.t) : Verification :=
  if negb (Client.consentRequired (Client.complianceSettings client)) then
    {| verified := true; method := None |}
  else if consentGiven recipient then
    {| verified := true; method := None |}
  else
    let consentGiven := consentGiven recipient || false in
    {| verified := consentGiven; method := Some "explicit_consent" |}.

(** *** Check 3: content screening *)

Record Approval := { approved : bool; reason : string }.

(** A pattern [/a|b|c/gi] is the list of its alternatives, all of them
    literal lower-case words; the literal is built anew at each call,
    so [test] always starts at index 0. *)
Definition regexTest (pattern : list string) (text : string) : bool :=
  existsb (fun alt => Js.includes (Js.toLowerCase text) alt) pattern.

Definition inappropriatePatterns : list (list string) :=
  [ ["underage"; "minor"; "child"];
    ["illegal"; "unlawful"];
    ["addiction"; "addict"] ].

Fixpoint checkInappropriateLoop (patterns : list (list string)) (text : string) : Approval :=
  match patterns with
  | [] => {| approved := true; reason := "" |}
  | pattern :: rest =>
      if regexTest pattern text then
        {| approved := false; reason := "Content contains inappropriate language" |}
      else checkInappropriateLoop rest text
  end.

Definition checkInappropriateContent (text : string) : Approval :=
  checkInappropriateLoop inappropriatePatterns text.

Definition allowedTypes : list string :=
  [ "image/jpeg"; "image/png"; "image/gif"; "video/mp4"; "audio/mp3" ].

Definition maxSize : Z := 5 * 1024 * 1024.

Definition arrayIncludes (l : list string) (x : string) : bool :=
  existsb (String.eqb x) l.

Fixpoint checkMediaContent (media : list MediaItem) : Approval :=
  match media with
  | [] => {| approved := true; reason := "" |}
  | mediaItem :: rest =>
      if negb (arrayIncludes allowedTypes (mimeType mediaItem)) then
        {| approved := false;
           reason := "Unsupported media type: " +:+ mimeType mediaItem |}
      else if maxSize <? size mediaItem then
        {| approved := false;
           reason := "Media file too large: " +:+ Js.ofNumber (size mediaItem) +:+ " bytes" |}
      else checkMediaContent rest
  end.

Record Screening := {
  screened : bool;
  s_approved : bool;
  s_reason : string;
  flaggedKeywords : list string;
  suggestedChanges : list string
}.

Definition flagKeywords (results : Screening) (found : list string) : Screening :=
  {| screened := screened results;
     s_approved := false;
     s_reason := "Content contains restricted keywords: " +:+ Js.join ", " found;
     flaggedKeywords := found;
     suggestedChanges := suggestedChanges results |}.

Definition reject (results : Screening) (why : string) : Screening :=
  {| screened := screened results;
     s_approved := false;
     s_reason := why;
     flaggedKeywords := flaggedKeywords results;
     suggestedChanges := suggestedChanges results |}.

(** [content.text?.toLowerCase() || ""] *)
Definition loweredText (content : Content) : string :=
  match text content with
  | Some t => Js.toLowerCase t
  | None => ""
  end.

(** The keywords of [restrictedKeywords] found in the text. *)
Definition foundKeywords (content : Content) (client : Client.t) : list string :=
  let restrictedKeywords :=
    Js.js_or (Client.restrictedKeywords (Client.complianceSettings client))
             restrictedKeywords in
  List.filter (fun keyword => Js.includes (loweredText content) (Js.toLowerCase keyword))
              restrictedKeywords.

(** The body of the [try] block; none of its statements throws on
    values of the types above, so the [catch] block (the only place
    that yields [screened = false]) has no counterpart here. *)
Definition screenContent (content : Content) (client : Client.t) : Screening :=
  let results :=
    {| screened := true; s_approved := true; s_reason := "";
       flaggedKeywords := []; suggestedChanges := [] |} in
  let text := loweredText content in
  let foundKeywords := foundKeywords content client in
  let results :=
    if (0 <? length foundKeywords)%nat then flagKeywords results foundKeywords
    else results in
  let inappropriateCheck := checkInappropriateContent text in
  let results :=
    if negb (approved inappropriateCheck) then reject results (reason inappropriateCheck)
    else results in
  let results :=
    if (0 <? length (media content))%nat then
      let mediaCheck := checkMediaContent (media content) in
      if negb (approved mediaCheck) then reject results (reason mediaCheck)
      else results
    else results in
  let results :=
    if (1600 <? String.length text)%nat then reject results "Message exceeds character limit"
    else results in
  results.

(** *** Check 4: disclaimers *)

Record DisclaimerCheck := {
  included : bool;
  found : list string;
  missing : list string
}.

Definition checkDisclaimers (content : Content) (client : Client.t) : DisclaimerCheck :=
  let requiredDisclaimers :=
    Js.js_or (Client.requiredDisclaimers (Client.complianceSettings client))
             requiredDisclaimers in
  let text := loweredText content in
  let includedDisclaimers :=
    List.filter (fun disclaimer => Js.includes text (Js.toLowerCase disclaimer))
                requiredDisclaimers in
  {| included := (0 <? length includedDisclaimers)%nat;
     found := includedDisclaimers;
     missing := List.filter (fun d => negb (arrayIncludes includedDisclaimers d))
                            requiredDisclaimers |}.

(** *** Checks 5 and 6 *)

Definition businessStart : Z := 9.
Definition businessEnd : Z := 21.

(** [hour] is [new Date().getHours()]. *)
Definition checkBusinessHours (hour : Z) (client : Client.t) : bool :=
  (businessStart <=? hour) && (hour <? businessEnd).

Record RateLimit := { allowed : bool; limit : Z; used : Z; remaining : Z }.

Definition checkRateLimit (recipient : Recipient) (client : Client.t) : RateLimit :=
  let maxMessagesPerDay :=
    let m := Client.maxMessagesPerDay (Client.complianceSettings client) in
    if m =? 0 then 5 else m in
  {| allowed := true; limit := maxMessagesPerDay; used := 0;
     remaining := maxMessagesPerDay |}.

(** *** The verdict *)

Record Verdict := {
  passed : bool;
  ageVerified : bool;
  consentVerified : bool;
  contentScreened : bool;
  disclaimersIncluded : bool;
  details : list string;
  (** [Some None] is [{}], [None] is [undefined] *)
  screeningResults : option (option Screening)
}.

(** [results.passed = false; results.details.push(why)] *)
Definition fail (results : Verdict) (why : string) : Verdict :=
  {| passed := false;
     ageVerified := ageVerified results;
     consentVerified := consentVerified results;
     contentScreened := contentScreened results;
     disclaimersIncluded := disclaimersIncluded results;
     details := details results ++ [why];
     screeningResults := screeningResults results |}.

Definition setAgeVerified (results : Verdict) (b : bool) : Verdict :=
  {| passed := passed results; ageVerified := b;
     consentVerified := consentVerified results;
     contentScreened := contentScreened results;
     disclaimersIncluded := disclaimersIncluded results;
     details := details results; screeningResults := screeningResults results |}.

Definition setConsentVerified (results : Verdict) (b : bool) : Verdict :=
  {| passed := passed results; ageVerified := ageVerified results;
     consentVerified := b;
     contentScreened := contentScreened results;
     disclaimersIncluded := disclaimersIncluded results;
     details := details results; screeningResults := screeningResults results |}.

(** [results.contentScreened = contentCheck.screened;
     results.screeningResults = contentCheck.results]: the object returned
    by [screenContent] has no property [results], so the second
    assignment stores [undefined]. *)
Definition setContentScreened (results : Verdict) (b : bool) : Verdict :=
  {| passed := passed results; ageVerified := ageVerified results;
     consentVerified := consentVerified results;
     contentScreened := b;
     disclaimersIncluded := disclaimersIncluded results;
     details := details results; screeningResults := None |}.

Definition setDisclaimersIncluded (results : Verdict) (b : bool) : Verdict :=
  {| passed := passed results; ageVerified := ageVerified results;
     consentVerified := consentVerified results;
     contentScreened := contentScreened results;
     disclaimersIncluded := b;
     details := details results; screeningResults := screeningResults results |}.

(** [error.message] of the [TypeError] raised by reading [.length] of
    [undefined] (the text is the engine's). *)
Definition lengthOfUndefined : string :=
  "Cannot read properties of undefined (reading 'length')".

(** The [try] block, lines 67-121.  The one statement that can throw
    is [client.complianceSettings.requiredDisclaimers.length], reached
    only when no disclaimer was found ([&&] evaluates its right operand
    only then). *)
Definition checkMessageComplianceTry
    (hour : Z) (client : Client.t) (recipient : Recipient) (content : Content)
    : Result Verdict :=
  let results :=
    {| passed := true; ageVerified := false; consentVerified := false;
       contentScreened := false; disclaimersIncluded := false;
       details := []; screeningResults := Some None |} in
  (* 1 *)
  let ageCheck := verifyAge recipient client in
  let results := setAgeVerified results (verified ageCheck) in
  let results :=
    if negb (verified ageCheck) then fail results "Age verification required"
    else results in
  (* 2 *)
  let consentCheck := verifyConsent recipient client in
  let results := setConsentVerified results (verified consentCheck) in
  let results :=
    if negb (verified consentCheck) then fail results "Consent verification required"
    else results in
  (* 3 *)
  let contentCheck := screenContent content client in
  let results := setContentScreened results (screened contentCheck) in
  let results :=
    if negb (s_approved contentCheck) then
      fail results ("Content failed screening: " +:+ s_reason contentCheck)
    else results in
  (* 4 *)
  let disclaimerCheck := checkDisclaimers content client in
  let results := setDisclaimersIncluded results (included disclaimerCheck) in
  let afterDisclaimers : Result Verdict :=
    if negb (included disclaimerCheck) then
      match Client.requiredDisclaimers (Client.complianceSettings client) with
      | None => Err lengthOfUndefined
      | Some tenantDisclaimers =>
          if (0 <? length tenantDisclaimers)%nat then
            Ok (fail results "Required disclaimers missing")
          else Ok results
      end
    else Ok results in
  match afterDisclaimers with
  | Err e => Err e
  | Ok results =>
      (* 5 *)
      let businessHoursCheck := checkBusinessHours hour client in
      let results :=
        if negb businessHoursCheck then
          fail results "Messages not allowed outside business hours"
        else results in
      (* 6 *)
      let rateLimitCheck := checkRateLimit recipient client in
      let results :=
        if negb (allowed rateLimitCheck) then
          fail results "Rate limit exceeded for recipient"
        else results in
      Ok results
  end.

Definition checkMessageCompliance
    (hour : Z) (client : Client.t) (recipient : Recipient) (content : Content)
    : Verdict :=
  match checkMessageComplianceTry hour client recipient content with
  | Ok results => results
  | Err message =>
      {| passed := false; ageVerified := false; consentVerified := false;
         contentScreened := false; disclaimersIncluded := false;
         details := ["Compliance check failed: " +:+ message];
         screeningResults := Some None |}
  end.

End ComplianceService.

(** ** The message document: [server/models/Message.js] *)

Module Message.

Record Delivery := {
  status : string;
  providerMessageId : option string;
  providerResponse : option string;
  sentAt : option Z;
  deliveredAt : option Z;
  failureReason : option string;
  retryCount : Z;
  maxRetries : Z
}.

Record Compliance := {
  ageVerificationPassed : bool;
  consentVerified : bool;
  contentScreened : bool;
  disclaimersIncluded : bool
}.

Record Scheduling := {
  scheduledFor : option Z;
  isScheduled : bool
}.

(** The document without its [_id], which is the key it is stored
    under.  [campaign], [cost], [metadata] and the [createdAt] /
    [updatedAt] stamps are read by none of the modelled operations and
    are left out. *)
Record t := {
  clientId : string;
  userId : string;
  recipient : Recipient;
  content : Content;
  delivery : Delivery;
  compliance : Compliance;
  scheduling : Scheduling
}.

Definition statusEnum : list string :=
  [ "pending"; "sent"; "delivered"; "failed"; "undelivered" ].

(** Schema defaults of the [delivery] sub-document. *)
Definition defaultDelivery : Delivery :=
  {| status := "pending"; providerMessageId := None; providerResponse := None;
     sentAt := None; deliveredAt := None; failureReason := None;
     retryCount := 0; maxRetries := 3 |}.

Definition withDelivery (this : t) (d : Delivery) : t :=
  {| clientId := clientId this; userId := userId this;
     recipient := recipient this; content := content this;
     delivery := d;
     compliance := compliance this; scheduling := scheduling this |}.

(** One own property of the [additionalData] argument. *)
Inductive DeliveryProp :=
| PStatus (v : string)
| PProviderMessageId (v : option string)
| PProviderResponse (v : option string)
| PSentAt (v : option Z)
| PDeliveredAt (v : option Z)
| PFailureReason (v : option string)
| PRetryCount (v : Z)
| PMaxRetries (v : Z).

Definition assignProp (d : Delivery) (p : DeliveryProp) : Delivery :=
  let '{| status := s; providerMessageId := pid; providerResponse := pr;
          sentAt := sa; deliveredAt := da; failureReason := fr;
          retryCount := rc; maxRetries := mr |} := d in
  match p with
  | PStatus v => Build_Delivery v pid pr sa da fr rc mr
  | PProviderMessageId v => Build_Delivery s v pr sa da fr rc mr
  | PProviderResponse v => Build_Delivery s pid v sa da fr rc mr
  | PSentAt v => Build_Delivery s pid pr v da fr rc mr
  | PDeliveredAt v => Build_Delivery s pid pr sa v fr rc mr
  | PFailureReason v => Build_Delivery s pid pr sa da v rc mr
  | PRetryCount v => Build_Delivery s pid pr sa da fr v mr
  | PMaxRetries v => Build_Delivery s pid pr sa da fr rc v
  end.

(** [Object.assign(this.delivery, additionalData)] *)
Definition objectAssign (d : Delivery) (additionalData : list DeliveryProp) : Delivery :=
  fold_left assignProp additionalData d.

(** *** Saving *)

(** The schema validators that run before the [pre("save")] hook: the
    enumeration of [delivery.status] and the pattern of
    [recipient.phoneNumber] (the required paths are always present in
    this model; the enumerations of media kinds and recurrence patterns
    are not modelled).  A new document has every path checked; on a
    document read from the store only the modified paths are, and the
    modelled methods modify paths below [delivery] only. *)
Definition validate (isNew : bool) (this : t) : Result unit :=
  if negb (ComplianceService.arrayIncludes statusEnum (status (delivery this))) then
    Err ("Message validation failed: delivery.status: `" +:+ status (delivery this)
         +:+ "` is not a valid enum value for path `delivery.status`.")
  else if isNew && negb (validatePhoneNumber (phoneNumber (recipient this))) then
    Err "Message validation failed: recipient.phoneNumber: Invalid phone number format"
  else Ok ().

(** [messageSchema.pre("save", ...)], lines 156-172 *)
Definition preSave (this : t) : Result unit :=
  if String.eqb (status (delivery this)) "pending"
     && negb (ageVerificationPassed (compliance this)) then
    Err "Age verification required before sending message"
  else if String.eqb (status (delivery this)) "pending"
          && negb (consentVerified (compliance this)) then
    Err "Consent verification required before sending message"
  else Ok ().

(** [this.save()] for the document stored under [id]: validation, the
    hook, then the write.  Inserting a new document under a key that is
    taken is refused by the store. *)
Definition save (isNew : bool) (id : string) (this : t) (db : gmap string t)
    : Result (gmap string t) :=
  match validate isNew this with
  | Err e => Err e
  | Ok _ =>
      match preSave this with
      | Err e => Err e
      | Ok _ =>
          if isNew && bool_decide (is_Some (db !! id)) then
            Err "E11000 duplicate key error"
          else Ok (<[id := this]> db)
      end
  end.

(** *** Methods *)

(** Lines 127-136 of [updateDeliveryStatus]: the changes made to the
    document in memory. *)
Definition setDeliveryStatus (status : string) (additionalData : list DeliveryProp)
    (now : Z) (this : t) : t :=
  let d := delivery this in
  let d := assignProp d (PStatus status) in
  let d :=
    if String.eqb status "sent" then assignProp d (PSentAt (Some now))
    else if String.eqb status "delivered" then assignProp d (PDeliveredAt (Some now))
    else d in
  withDelivery this (objectAssign d additionalData).

(** [updateDeliveryStatus]: the document after the assignments and the
    outcome of [this.save()]. *)
Definition updateDeliveryStatus (status : string) (additionalData : list DeliveryProp)
    (now : Z) (id : string) (this : t) (db : gmap string t)
    : t * Result (gmap string t) :=
  let this := setDeliveryStatus status additionalData now this in
  (this, save false id this db).

Definition canRetry (this : t) : bool :=
  (retryCount (delivery this) <? maxRetries (delivery this))
  && String.eqb (status (delivery this)) "failed".

Definition incrementRetry (id : string) (this : t) (db : gmap string t)
    : t * Result (gmap string t) :=
  let this :=
    withDelivery this
      (assignProp (delivery this) (PRetryCount (retryCount (delivery this) + 1))) in
  (this, save false id this db).

Definition isDelivered (this : t) : bool :=
  String.eqb (status (delivery this)) "delivered".

Definition isFailed (this : t) : bool :=
  ComplianceService.arrayIncludes ["failed"; "undelivered"] (status (delivery this)).

End Message.

(** ** The provider adapter: [server/services/mmsService.js] *)

Module MMSService.

(** What is handed to the provider's client library or HTTP endpoint. *)
Record ProviderRequest := {
  via : string;
  sender : string;
  to : string;
  body : option string;
  mediaUrls : list string
}.

(** The provider's answer: accepted with its id and raw response, or an
    error with its message. *)
Inductive NetResult :=
| Accepted (id : string) (response : string)
| Refused (message : string).

Record SendResult := {
  messageId : string;
  response : string;
  provider : string
}.

Definition mediaOf (message : Message.t) : list string :=
  map url (media (Message.content message)).

Definition requestOf (name : string) (fromNumber : option string) (message : Message.t)
    : ProviderRequest :=
  {| via := name;
     sender := default "" fromNumber;
     to := phoneNumber (Message.recipient message);
     body := text (Message.content message);
     mediaUrls := mediaOf message |}.

Definition call (net : ProviderRequest -> NetResult) (label : string)
    (req : ProviderRequest) : Result SendResult :=
  match net req with
  | Accepted id resp => Ok {| messageId := id; response := resp; provider := via req |}
  | Refused e => Err (label +:+ " error: " +:+ e)
  end.

Definition twilioProvider (net : ProviderRequest -> NetResult)
    (message : Message.t) (client : Client.t) : Result SendResult :=
  let c := Client.apiCredentials (Client.mmsSettings client) in
  if negb (Js.truthy_str (Client.accountSid c))
     || negb (Js.truthy_str (Client.authToken c))
     || negb (Js.truthy_str (Client.fromNumber c)) then
    Err "Twilio credentials not configured"
  else call net "Twilio" (requestOf "twilio" (Client.fromNumber c) message).

Definition bandwidthProvider (net : ProviderRequest -> NetResult)
    (message : Message.t) (client : Client.t) : Result SendResult :=
  let c := Client.apiCredentials (Client.mmsSettings client) in
  if negb (Js.truthy_str (Client.accountId c))
     || negb (Js.truthy_str (Client.username c))
     || negb (Js.truthy_str (Client.password c))
     || negb (Js.truthy_str (Client.fromNumber c)) then
    Err "Bandwidth credentials not configured"
  else call net "Bandwidth" (requestOf "bandwidth" (Client.fromNumber c) message).

Definition messagebirdProvider (net : ProviderRequest -> NetResult)
    (message : Message.t) (client : Client.t) : Result SendResult :=
  let c := Client.apiCredentials (Client.mmsSettings client) in
  if negb (Js.truthy_str (Client.apiKey c))
     || negb (Js.truthy_str (Client.fromNumber c)) then
    Err "MessageBird credentials not configured"
  else call net "MessageBird" (requestOf "messagebird" (Client.fromNumber c) message).

(** [this.providers[provider]] for the provider names of the Client
    schema. *)
Definition providers (name : string)
    : option ((ProviderRequest -> NetResult) -> Message.t -> Client.t -> Result SendResult) :=
  if String.eqb name "twilio" then Some twilioProvider
  else if String.eqb name "bandwidth" then Some bandwidthProvider
  else if String.eqb name "messagebird" then Some messagebirdProvider
  else None.

Definition sendMessage (net : ProviderRequest -> NetResult)
    (message : Message.t) (client : Client.t) : Result SendResult :=
  let provider := Js.str_or (Client.provider (Client.mmsSettings client)) "twilio" in
  match providers provider with
  | None => Err ("Unsupported MMS provider: " +:+ provider)
  | Some providerFunction => providerFunction net message client
  end.

End MMSService.

(** ** The routes: [server/routes/messages.js] *)

Module Routes.

Inductive Json :=
| JStr (s : string)
| JOpt (s : option string)
| JDate (d : option Z)
| JList (l : list string).

(** [res.status(code).json(body)] *)
Record Response := { code : Z; json : list (string * Json) }.

Record State := {
  messages : gmap string Message.t;
  clients : gmap string Client.t
}.

(** What the template branch of the send route (lines 62-87) comes to;
    the template store is a collaborator of the pipeline. *)
Inductive TemplateOutcome :=
| TemplateNotFound
| TemplateInvalid (errors : list string)
| TemplateRendered (text : string) (media : list MediaItem)
| TemplateUsageNotSaved.

Record Env := {
  now : Z;
  hour : Z;
  freshId : string;
  template : TemplateOutcome;
  net : MMSService.ProviderRequest -> MMSService.NetResult
}.

Definition serverError : Response :=
  {| code := 500; json := [("message", JStr "Server error")] |}.

Definition withMessages (st : State) (db : gmap string Message.t) : State :=
  {| messages := db; clients := clients st |}.

(** [Message.findOne({"recipient.phoneNumber": p, "recipient.optOutStatus": true})]
    finds something. *)
Definition optedOut (db : gmap string Message.t) (p : string) : bool :=
  existsb
    (fun '(_, m) => String.eqb (phoneNumber (Message.recipient m)) p
                    && optOutStatus (Message.recipient m))
    (map_to_list db).

(** *** POST /send *)

Record SendRequest := {
  validationErrors : list string;
  userId : string;
  clientId : string;
  recipient : Recipient;
  content : Content;
  scheduling : option Message.Scheduling
}.

(** Lines 126-173: dispatch of the message just saved under [id].  The
    save of the client document and the socket notification that follow a
    successful send are taken to succeed. *)
Definition sendNow (env : Env) (req : SendRequest) (client : Client.t)
    (id : string) (message : Message.t) (st : State) : State * Response :=
  let sendFailed (message : Message.t) (st : State) (error : string) :=
    match Message.updateDeliveryStatus "failed" [Message.PFailureReason (Some error)]
            (now env) id message (messages st) with
    | (_, Ok db) =>
        (withMessages st db,
         {| code := 500;
            json := [("message", JStr "Failed to send message"); ("error", JStr error)] |})
    | (_, Err _) => (st, serverError)
    end in
  match MMSService.sendMessage (net env) message client with
  | Ok sendResult =>
      match Message.updateDeliveryStatus "sent"
              [Message.PProviderMessageId (Some (MMSService.messageId sendResult));
               Message.PProviderResponse (Some (MMSService.response sendResult))]
              (now env) id message (messages st) with
      | (_, Ok db) =>
          ({| messages := db;
              clients := <[clientId req := Client.incrementMessageCount client]> (clients st) |},
           {| code := 200;
              json := [("message", JStr "Message sent successfully");
                       ("messageId", JStr id);
                       ("status", JStr "sent");
                       ("providerMessageId", JStr (MMSService.messageId sendResult))] |})
      | (message, Err e) => sendFailed message st e
      end
  | Err e => sendFailed message st e
  end.

(** Lines 59-87: the content the message is built from, or the
    response that ends the request. *)
Definition resolveContent (env : Env) (req : SendRequest) : Response + Content :=
  if Js.truthy_str (templateId (content req)) then
    match template env with
    | TemplateNotFound =>
        inl {| code := 404; json := [("message", JStr "Template not found")] |}
    | TemplateInvalid errors =>
        inl {| code := 400;
               json := [("message", JStr "Template validation failed");
                        ("errors", JList errors)] |}
    | TemplateRendered t m =>
        inr {| text := Some t; media := m; templateId := templateId (content req) |}
    | TemplateUsageNotSaved => inl serverError
    end
  else inr (content req).

Definition send (env : Env) (req : SendRequest) (st : State) : State * Response :=
  if negb (bool_decide (validationErrors req = [])) then
    (st, {| code := 400; json := [("errors", JList (validationErrors req))] |})
  else
  match clients st !! clientId req with
  | None => (st, {| code := 404; json := [("message", JStr "Client not found")] |})
  | Some client =>
  if negb (Client.canSendMessage client) then
    (st, {| code := 403;
            json := [("message",
                      JStr "Client cannot send messages. Check subscription status and compliance.")] |})
  else if optedOut (messages st) (phoneNumber (recipient req)) then
    (st, {| code := 400; json := [("message", JStr "Recipient has opted out of messages")] |})
  else
  match resolveContent env req with
  | inl response => (st, response)
  | inr messageContent =>
  let complianceResult :=
    ComplianceService.checkMessageCompliance (hour env) client (recipient req) messageContent in
  if negb (ComplianceService.passed complianceResult) then
    (st, {| code := 400;
            json := [("message", JStr "Message failed compliance check");
                     ("details", JList (ComplianceService.details complianceResult))] |})
  else
  let message : Message.t :=
    {| Message.clientId := clientId req;
       Message.userId := userId req;
       Message.recipient :=
         {| phoneNumber := phoneNumber (recipient req);
            name := name (recipient req);
            ageVerified := ComplianceService.ageVerified complianceResult;
            consentGiven := ComplianceService.consentVerified complianceResult;
            consentDate := consentDate (recipient req);
            optOutStatus := optOutStatus (recipient req) |};
       Message.content := messageContent;
       Message.delivery := Message.defaultDelivery;
       Message.compliance :=
         {| Message.ageVerificationPassed := ComplianceService.ageVerified complianceResult;
            Message.consentVerified := ComplianceService.consentVerified complianceResult;
            Message.contentScreened := ComplianceService.contentScreened complianceResult;
            Message.disclaimersIncluded := ComplianceService.disclaimersIncluded complianceResult |};
       Message.scheduling :=
         default {| Message.scheduledFor := None; Message.isScheduled := false |}
                 (scheduling req) |} in
  match Message.save true (freshId env) message (messages st) with
  | Err _ => (st, serverError)
  | Ok db =>
      let st := withMessages st db in
      if negb (from_option Message.isScheduled false (scheduling req)) then
        sendNow env req client (freshId env) message st
      else
        (st, {| code := 200;
                json := [("message", JStr "Message scheduled successfully");
                         ("messageId", JStr (freshId env));
                         ("status", JStr "scheduled");
                         ("scheduledFor",
                          JDate (from_option Message.scheduledFor None (scheduling req)))] |})
  end
  end
  end.

(** *** POST /:messageId/retry *)

Record MessageRequest := { messageId : string; forClient : string }.

(** [Message.findOne({ _id: messageId, clientId })] *)
Definition findOwned (db : gmap string Message.t) (req : MessageRequest) : option Message.t :=
  match db !! messageId req with
  | Some m => if String.eqb (Message.clientId m) (forClient req) then Some m else None
  | None => None
  end.

Definition retry (env : Env) (req : MessageRequest) (st : State) : State * Response :=
  match findOwned (messages st) req with
  | None => (st, {| code := 404; json := [("message", JStr "Message not found")] |})
  | Some message =>
  if negb (Message.canRetry message) then
    (st, {| code := 400;
            json := [("message",
                      JStr "Message cannot be retried. Max retries exceeded or not in failed status.")] |})
  else
  match clients st !! forClient req with
  | None => (st, serverError)
  | Some client =>
  if negb (Client.canSendMessage client) then
    (st, {| code := 403; json := [("message", JStr "Client cannot send messages")] |})
  else
  match Message.incrementRetry (messageId req) message (messages st) with
  | (_, Err _) => (st, serverError)
  | (message, Ok db) =>
      let st := withMessages st db in
      let retryFailed (message : Message.t) (error : string) :=
        match Message.updateDeliveryStatus "failed" [Message.PFailureReason (Some error)]
                (now env) (messageId req) message (messages st) with
        | (_, Ok db) =>
            (withMessages st db,
             {| code := 500;
                json := [("message", JStr "Retry failed"); ("error", JStr error)] |})
        | (_, Err _) => (st, serverError)
        end in
      match MMSService.sendMessage (net env) message client with
      | Ok sendResult =>
          match Message.updateDeliveryStatus "sent"
                  [Message.PProviderMessageId (Some (MMSService.messageId sendResult));
                   Message.PProviderResponse (Some (MMSService.response sendResult))]
                  (now env) (messageId req) message (messages st) with
          | (_, Ok db) =>
              ({| messages := db;
                  clients := <[forClient req := Client.incrementMessageCount client]> (clients st) |},
               {| code := 200;
                  json := [("message", JStr "Message retry successful");
                           ("status", JStr "sent");
                           ("providerMessageId", JStr (MMSService.messageId sendResult))] |})
          | (message, Err e) => retryFailed message e
          end
      | Err e => retryFailed message e
      end
  end
  end
  end.

(** *** DELETE /:messageId *)

Definition cancel (req : MessageRequest) (st : State) : State * Response :=
  match findOwned (messages st) req with
  | Some message =>
      if Message.isScheduled (Message.scheduling message)
         && String.eqb (Message.status (Message.delivery message)) "pending" then
        (withMessages st (delete (messageId req) (messages st)),
         {| code := 200; json := [("message", JStr "Scheduled message cancelled successfully")] |})
      else (st, {| code := 404; json := [("message", JStr "Scheduled message not found")] |})
  | None => (st, {| code := 404; json := [("message", JStr "Scheduled message not found")] |})
  end.

(** *** POST /webhook *)

Record WebhookRequest := {
  wh_messageId : option string;
  wh_status : string;
  wh_error : option string
}.

Definition webhook (env : Env) (req : WebhookRequest) (st : State) : State * Response :=
  if negb (Js.truthy_str (wh_messageId req)) then
    (st, {| code := 400; json := [("message", JStr "Message ID required")] |})
  else
  let messageId := default "" (wh_messageId req) in
  match messages st !! messageId with
  | None => (st, {| code := 404; json := [("message", JStr "Message not found")] |})
  | Some message =>
      match Message.updateDeliveryStatus (wh_status req)
              [Message.PFailureReason (wh_error req)]
              (now env) messageId message (messages st) with
      | (_, Ok db) =>
          (withMessages st db,
           {| code := 200; json := [("message", JStr "Status updated successfully")] |})
      | (_, Err _) => (st, serverError)
      end
  end.

(** *** Runs of the service *)

Inductive Action :=
| Send (env : Env) (req : SendRequest)
| Retry (env : Env) (req : MessageRequest)
| Cancel (req : MessageRequest)
| Webhook (env : Env) (req : WebhookRequest).

Definition step (st : State) (a : Action) : State * Response :=
  match a with
  | Send env req => send env req st
  | Retry env req => retry env req st
  | Cancel req => cancel req st
  | Webhook env req => webhook env req st
  end.

Definition run (st : State) (actions : list Action) : State :=
  fold_left (fun st a => fst (step st a)) actions st.

(** The service before any message was sent. *)
Definition start (tenants : gmap string Client.t) : State :=
  {| messages := ∅; clients := tenants |}.

End Routes.

(** ** Concrete tenants, requests and messages used by the examples *)

Module Sample.

Definition credentials : Client.ApiCredentials :=
  {| Client.accountSid := Some "AC1"; Client.authToken := Some "tok";
     Client.fromNumber := Some "+15550001111"; Client.accountId := None;
     Client.username := None; Client.password := None; Client.apiKey := None |}.

(** A tenant as the Client schema creates it (both lists empty), with
    an active subscription. *)
Definition tenantWith (keywords disclaimers : option (list string)) : Client.t :=
  {| Client.complianceSettings :=
       {| Client.ageVerificationRequired := true;
          Client.consentRequired := true;
          Client.maxMessagesPerDay := 5;
          Client.restrictedKeywords := keywords;
          Client.requiredDisclaimers := disclaimers |};
     Client.mmsSettings :=
       {| Client.provider := Some "twilio"; Client.apiCredentials := credentials |};
     Client.subscription :=
       {| Client.status := "active"; Client.messagesUsed := 0; Client.messagesLimit := 1000 |};
     Client.isActive := true;
     Client.complianceStatus := "compliant" |}.

Definition tenant : Client.t := tenantWith (Some []) (Some []).

Definition person (age consent : bool) : Recipient :=
  {| phoneNumber := "5551234567"; name := None; ageVerified := age;
     consentGiven := consent; consentDate := None; optOutStatus := false |}.

Definition say (t : string) : Content :=
  {| text := Some t; media := []; templateId := None |}.

Definition accept : MMSService.ProviderRequest -> MMSService.NetResult :=
  fun _ => MMSService.Accepted "SM1" "queued".

Definition refuse : MMSService.ProviderRequest -> MMSService.NetResult :=
  fun _ => MMSService.Refused "timeout".

Definition env (t : Z) (id : string) net : Routes.Env :=
  {| Routes.now := t; Routes.hour := 12; Routes.freshId := id;
     Routes.template := Routes.TemplateNotFound; Routes.net := net |}.

Definition request (r : Recipient) (c : Content) : Routes.SendRequest :=
  {| Routes.validationErrors := []; Routes.userId := "u1"; Routes.clientId := "c1";
     Routes.recipient := r; Routes.content := c; Routes.scheduling := None |}.

Definition service : Routes.State := Routes.start {[ "c1" := tenant ]}.

(** A document as [new Message({...})] makes it when no compliance
    sub-record is given: the schema defaults. *)
Definition draft : Message.t :=
  {| Message.clientId := "c1"; Message.userId := "u1";
     Message.recipient := person false false;
     Message.content := say "hello";
     Message.delivery := Message.defaultDelivery;
     Message.compliance :=
       {| Message.ageVerificationPassed := false; Message.consentVerified := false;
          Message.contentScreened := false; Message.disclaimersIncluded := false |};
     Message.scheduling := {| Message.scheduledFor := None; Message.isScheduled := false |} |}.

(** A message as the send route stores it, in the given status. *)
Definition stored (status : string) : Message.t :=
  {| Message.clientId := "c1"; Message.userId := "u1";
     Message.recipient := person true true;
     Message.content := say "hello";
     Message.delivery :=
       {| Message.status := status; Message.providerMessageId := Some "SM1";
          Message.providerResponse := Some "queued"; Message.sentAt := Some 100;
          Message.deliveredAt := None; Message.failureReason := None;
          Message.retryCount := 0; Message.maxRetries := 3 |};
     Message.compliance :=
       {| Message.ageVerificationPassed := true; Message.consentVerified := true;
          Message.contentScreened := true; Message.disclaimersIncluded := false |};
     Message.scheduling := {| Message.scheduledFor := None; Message.isScheduled := false |} |}.

(** The service holding one message, under the id "m1". *)
Definition holding (m : Message.t) : Routes.State :=
  {| Routes.messages := {[ "m1" := m ]}; Routes.clients := {[ "c1" := tenant ]} |}.

Definition report (status : string) : Routes.WebhookRequest :=
  {| Routes.wh_messageId := Some "m1"; Routes.wh_status := status;
     Routes.wh_error := None |}.

End Sample.


(** * Properties *)

(** ** Strings *)

Lemma eqb_true (a b : string) : String.eqb a b = true ↔ a = b.
Proof. apply String.eqb_eq. Qed.

Lemma eqb_false (a b : string) : String.eqb a b = false ↔ a ≠ b.
Proof. apply String.eqb_neq. Qed.

Lemma app_cons (c : ascii) (a b : string) : String c a +:+ b = String c (a +:+ b).
Proof. reflexivity. Qed.

Lemma app_empty (b : string) : "" +:+ b = b.
Proof. reflexivity. Qed.

Lemma arrayIncludes_elem (l : list string) (x : string) :
  ComplianceService.arrayIncludes l x = true ↔ x ∈ l.
Proof.
  unfold ComplianceService.arrayIncludes. rewrite existsb_exists. split.
  - intros (y & Hy & Heq). apply eqb_true in Heq. subst. by apply list_elem_of_In.
  - intros Hx. exists x. split; [by apply list_elem_of_In | by apply eqb_true].
Qed.

(** ** Phone numbers *)

Section Phone.

Lemma isDigit19_isDigit (c : ascii) : isDigit19 c = true → isDigit c = true.
Proof.
  unfold isDigit19, isDigit. cbv zeta.
  rewrite !andb_true_iff, !Nat.leb_le. lia.
Qed.

Lemma matchNational_digits (s : string) :
  matchNational s = true →
  allDigits s = true ∧ (2 <= String.length s <= 15)%nat.
Proof.
  destruct s as [|c r]; [done|]. unfold matchNational.
  rewrite !andb_true_iff, !Nat.leb_le. intros [[Hc Hr] [Hlo Hhi]].
  split; [|simpl; lia].
  simpl. by rewrite (isDigit19_isDigit _ Hc), Hr.
Qed.

Lemma validate_bare (p : string) :
  Js.startsWith "+" p = false → validatePhoneNumber p = matchNational p.
Proof.
  destruct p as [|c r]; [done|].
  destruct c as [[] [] [] [] [] [] [] []]; done.
Qed.

(** Without a leading plus sign a valid number is made of digits only,
    so "its length is 10" and "it is exactly ten digits" coincide. *)
Lemma valid_bare_digits (p : string) :
  validatePhoneNumber p = true → Js.startsWith "+" p = false →
  allDigits p = true.
Proof.
  intros Hv Hp. rewrite (validate_bare _ Hp) in Hv.
  by apply matchNational_digits in Hv as [? _].
Qed.

(** What [formatPhoneNumber] returns is again a valid number, now with
    its plus sign. *)
Lemma formatPhoneNumber_valid (p provider q : string) :
  formatPhoneNumber p provider = Ok q →
  Js.startsWith "+" q = true ∧ validatePhoneNumber q = true.
Proof.
  unfold formatPhoneNumber.
  destruct (validatePhoneNumber p) eqn:Hv; [|done]. cbn [negb].
  destruct (Js.startsWith "+" p) eqn:Hp; cbn [negb].
  - intros [= <-]. done.
  - assert (matchNational p = true) as Hm by (by rewrite <- (validate_bare _ Hp)).
    pose proof (matchNational_digits _ Hm) as [Hd Hl].
    destruct (String.length p =? 10)%nat eqn:Hlen; intros [= <-].
    + apply Nat.eqb_eq in Hlen. split; [done|].
      change (validatePhoneNumber ("+1" +:+ p)) with (matchNational (String "1" p)).
      unfold matchNational. rewrite Hd, Hlen. done.
    + split; [done|].
      change (validatePhoneNumber ("+" +:+ p)) with (matchNational p).
      done.
Qed.

End Phone.

(** C9 (amended).  [formatPhoneNumber] rejects a value that does not match
    the E.164-like pattern; a valid value without a leading plus that is
    exactly ten digits gets "+1" prepended, any other valid value without a
    leading plus gets "+" prepended, and a valid value with a leading plus
    is returned as it is.  [sendMessage] does not call it: whatever request
    the provider accepted carries [message.recipient.phoneNumber] as it
    stands. *)
Theorem C9_formatPhoneNumber_cases (p provider : string) :
  (validatePhoneNumber p = false →
     formatPhoneNumber p provider = Err "Invalid phone number format") ∧
  (validatePhoneNumber p = true → Js.startsWith "+" p = true →
     formatPhoneNumber p provider = Ok p) ∧
  (validatePhoneNumber p = true → Js.startsWith "+" p = false →
     (String.length p = 10%nat ∧ allDigits p = true) →
     formatPhoneNumber p provider = Ok ("+1" +:+ p)) ∧
  (validatePhoneNumber p = true → Js.startsWith "+" p = false →
     ¬ (String.length p = 10%nat ∧ allDigits p = true) →
     formatPhoneNumber p provider = Ok ("+" +:+ p)) ∧
  (∀ net message client r,
     MMSService.sendMessage net message client = Ok r →
     ∃ req, net req = MMSService.Accepted (MMSService.messageId r) (MMSService.response r)
            ∧ MMSService.to req = phoneNumber (Message.recipient message)).
Proof.
  unfold formatPhoneNumber. repeat split.
  - by intros ->.
  - by intros -> ->.
  - intros -> -> [Hl _]. cbn [negb]. apply Nat.eqb_eq in Hl. by rewrite Hl.
  - intros Hv Hp Hn. rewrite Hv, Hp. cbn [negb].
    destruct (String.length p =? 10)%nat eqn:Hl; [|done].
    apply Nat.eqb_eq in Hl. destruct Hn. split; [done|].
    by apply valid_bare_digits.
  - intros net message client r. unfold MMSService.sendMessage.
    destruct (MMSService.providers _) as [f|] eqn:Hf; [|done].
    unfold MMSService.providers in Hf.
    repeat (destruct (String.eqb _ _) in Hf; [injection Hf as <-|]); try done.
    all: unfold MMSService.twilioProvider, MMSService.bandwidthProvider,
           MMSService.messagebirdProvider.
    all: destruct (_ || _); [done|].
    all: match goal with
         | |- MMSService.call ?n _ ?q = _ → _ =>
             unfold MMSService.call; destruct (n q) eqn:Hnet; [|done];
             intros [= <-]; exists q
         end.
    all: by rewrite Hnet.
Qed.

Lemma C9_formatPhoneNumber_cases_witness :
  formatPhoneNumber "5551234567" "twilio" = Ok "+15551234567".
Proof.
  apply (C9_formatPhoneNumber_cases "5551234567" "twilio"); [reflexivity | reflexivity |].
  split; reflexivity.
Defined.

(** C9, as stated, fails: the ten-digit number [5551234567] reaches the
    provider without its country code, and a value that is no phone number
    at all is passed on instead of being rejected. *)
Lemma C9_send_skips_normalization :
  let echo := fun req => MMSService.Accepted (MMSService.to req) "" in
  let message := Sample.draft in
  let garbled :=
    Message.Build_t "c1" "u1"
      {| phoneNumber := "not-a-number"; name := None; ageVerified := true;
         consentGiven := true; consentDate := None; optOutStatus := false |}
      (Sample.say "hello") Message.defaultDelivery (Message.compliance Sample.draft)
      (Message.scheduling Sample.draft) in
  formatPhoneNumber (phoneNumber (Message.recipient message)) "twilio" = Ok "+15551234567"
  ∧ MMSService.sendMessage echo message Sample.tenant
    = Ok {| MMSService.messageId := "5551234567"; MMSService.response := "";
            MMSService.provider := "twilio" |}
  ∧ isOk (formatPhoneNumber "not-a-number" "twilio") = false
  ∧ MMSService.sendMessage echo garbled Sample.tenant
    = Ok {| MMSService.messageId := "not-a-number"; MMSService.response := "";
            MMSService.provider := "twilio" |}.
Proof. repeat split; reflexivity. Qed.

(** ** The compliance evaluator *)

(** The reason a check contributes to the verdict: one entry when it
    failed, none when it passed. *)
Definition reasonIf (failed : bool) (why : string) : list string :=
  if failed then [why] else [].

Section Verdict.

Variables (hour : Z) (client : Client.t) (recipient : Recipient) (content : Content).

Let ageOk := ComplianceService.verified (ComplianceService.verifyAge recipient client).
Let consentOk := ComplianceService.verified (ComplianceService.verifyConsent recipient client).
Let screening := ComplianceService.screenContent content client.
Let disclaimers := ComplianceService.checkDisclaimers content client.
Let hoursOk := ComplianceService.checkBusinessHours hour client.

(** The evaluator on a tenant whose disclaimer list is an array: the
    [try] block runs to its end, and every check leaves its own reason. *)
Lemma verdict_of_array (tenantList : list string) :
  Client.requiredDisclaimers (Client.complianceSettings client) = Some tenantList →
  ComplianceService.checkMessageCompliance hour client recipient content =
  {| ComplianceService.passed :=
       ageOk && consentOk && ComplianceService.s_approved screening
       && negb (negb (ComplianceService.included disclaimers) && (0 <? length tenantList)%nat)
       && hoursOk;
     ComplianceService.ageVerified := ageOk;
     ComplianceService.consentVerified := consentOk;
     ComplianceService.contentScreened := ComplianceService.screened screening;
     ComplianceService.disclaimersIncluded := ComplianceService.included disclaimers;
     ComplianceService.details :=
       reasonIf (negb ageOk) "Age verification required"
       ++ reasonIf (negb consentOk) "Consent verification required"
       ++ reasonIf (negb (ComplianceService.s_approved screening))
            ("Content failed screening: " +:+ ComplianceService.s_reason screening)
       ++ reasonIf (negb (ComplianceService.included disclaimers) && (0 <? length tenantList)%nat)
            "Required disclaimers missing"
       ++ reasonIf (negb hoursOk) "Messages not allowed outside business hours";
     ComplianceService.screeningResults := None |}.
Proof.
  intros Hlist.
  unfold ComplianceService.checkMessageCompliance, ComplianceService.checkMessageComplianceTry.
  rewrite Hlist.
  fold ageOk consentOk screening disclaimers hoursOk.
  destruct ageOk, consentOk, (ComplianceService.s_approved screening),
    (ComplianceService.included disclaimers), (0 <? length tenantList)%nat, hoursOk;
    reflexivity.
Qed.

(** A verdict passes exactly when it lists no reason. *)
Lemma passed_iff_no_reason (tenantList : list string) :
  Client.requiredDisclaimers (Client.complianceSettings client) = Some tenantList →
  let v := ComplianceService.checkMessageCompliance hour client recipient content in
  ComplianceService.passed v = true ↔ ComplianceService.details v = [].
Proof.
  intros Hlist. rewrite (verdict_of_array _ Hlist). cbn [ComplianceService.passed ComplianceService.details].
  destruct ageOk, consentOk, (ComplianceService.s_approved screening),
    (ComplianceService.included disclaimers), (0 <? length tenantList)%nat, hoursOk;
    cbn; split; done.
Qed.

End Verdict.

(** The reason of the screening check differs from the other five. *)
Lemma screening_reason_fresh (why : string) :
  let r := "Content failed screening: " +:+ why in
  r ≠ "Age verification required" ∧ r ≠ "Consent verification required" ∧
  r ≠ "Required disclaimers missing" ∧
  r ≠ "Messages not allowed outside business hours" ∧
  r ≠ "Rate limit exceeded for recipient".
Proof. cbv zeta. rewrite !app_cons, app_empty. repeat split; discriminate. Qed.

(** Membership in a short explicit list of reasons, by comparison of the
    texts. *)
Ltac absent Hin :=
  repeat (apply elem_of_cons in Hin as [Hin | Hin];
          [first [discriminate Hin | congruence] |]);
  by apply elem_of_nil in Hin.

Ltac member_iff :=
  split;
  [ let Hin := fresh "Hin" in intros Hin; first [reflexivity | absent Hin]
  | let Hb := fresh "Hb" in
    intros Hb; first [discriminate Hb | (rewrite ?elem_of_cons; auto 10)] ].

Ltac distinct :=
  repeat (apply NoDup_cons; split;
          [ rewrite ?not_elem_of_cons; repeat split;
            first [discriminate | congruence | apply not_elem_of_nil] |]);
  apply NoDup_nil_2.

(** C5.  On a tenant read through the Client schema (its disclaimer list
    is an array) the evaluator runs every check and the verdict's details
    hold, in the order of the checks, exactly one reason for each check
    that failed: age, consent, content screening, disclaimers (when the
    tenant lists some), business hours; the rate limit check runs and
    always allows.  Each reason is there if and only if its own check
    failed, whatever the other checks found; in particular a message that
    fails age verification and content screening gets both reasons. *)
Theorem C5_verdict_lists_every_failure
    (hour : Z) (client : Client.t) (recipient : Recipient) (content : Content)
    (tenantList : list string)
    (Hschema : Client.requiredDisclaimers (Client.complianceSettings client) = Some tenantList) :
  let v := ComplianceService.checkMessageCompliance hour client recipient content in
  let ageOk := ComplianceService.verified (ComplianceService.verifyAge recipient client) in
  let consentOk := ComplianceService.verified (ComplianceService.verifyConsent recipient client) in
  let screening := ComplianceService.screenContent content client in
  let disclaimersOk :=
    ComplianceService.included (ComplianceService.checkDisclaimers content client)
    || negb (0 <? length tenantList)%nat in
  let hoursOk := ComplianceService.checkBusinessHours hour client in
  let rateOk := ComplianceService.allowed (ComplianceService.checkRateLimit recipient client) in
  ComplianceService.details v =
    reasonIf (negb ageOk) "Age verification required"
    ++ reasonIf (negb consentOk) "Consent verification required"
    ++ reasonIf (negb (ComplianceService.s_approved screening))
         ("Content failed screening: " +:+ ComplianceService.s_reason screening)
    ++ reasonIf (negb disclaimersOk) "Required disclaimers missing"
    ++ reasonIf (negb hoursOk) "Messages not allowed outside business hours"
    ++ reasonIf (negb rateOk) "Rate limit exceeded for recipient"
  ∧ ("Age verification required" ∈ ComplianceService.details v ↔ ageOk = false)
  ∧ ("Consent verification required" ∈ ComplianceService.details v ↔ consentOk = false)
  ∧ ("Content failed screening: " +:+ ComplianceService.s_reason screening
       ∈ ComplianceService.details v ↔ ComplianceService.s_approved screening = false)
  ∧ ("Required disclaimers missing" ∈ ComplianceService.details v ↔ disclaimersOk = false)
  ∧ ("Messages not allowed outside business hours" ∈ ComplianceService.details v
       ↔ hoursOk = false)
  ∧ ("Rate limit exceeded for recipient" ∈ ComplianceService.details v ↔ rateOk = false)
  ∧ (ComplianceService.passed v = true ↔ ComplianceService.details v = [])
  ∧ NoDup (ComplianceService.details v).
Proof.
  intros v ageOk consentOk screening disclaimersOk hoursOk rateOk.
  pose proof (screening_reason_fresh (ComplianceService.s_reason screening))
    as (Hf1 & Hf2 & Hf3 & Hf4 & Hf5).
  subst v. rewrite (verdict_of_array hour client recipient content _ Hschema).
  cbn [ComplianceService.details ComplianceService.passed].
  fold ageOk consentOk screening hoursOk.
  assert (negb (ComplianceService.included (ComplianceService.checkDisclaimers content client))
          && (0 <? length tenantList)%nat = negb disclaimersOk) as ->.
  { subst disclaimersOk. by destruct (ComplianceService.included _), (0 <? _)%nat. }
  assert (rateOk = true) as -> by reflexivity.
  revert Hf1 Hf2 Hf3 Hf4 Hf5.
  generalize ("Content failed screening: " +:+ ComplianceService.s_reason screening).
  intros why Hf1 Hf2 Hf3 Hf4 Hf5.
  destruct ageOk, consentOk, (ComplianceService.s_approved screening),
    disclaimersOk, hoursOk; cbn [reasonIf negb app].
  all: split; [reflexivity|].
  all: do 6 (split; [member_iff|]).
  all: split; [split; done | distinct].
Qed.

Lemma C5_verdict_lists_every_failure_witness :
  let v := ComplianceService.checkMessageCompliance 12 (Sample.tenantWith (Some ["weed"]) (Some []))
             (Sample.person false true) (Sample.say "Fresh weed today") in
  "Age verification required" ∈ ComplianceService.details v
  ∧ "Content failed screening: Content contains restricted keywords: weed"
      ∈ ComplianceService.details v.
Proof.
  pose proof (C5_verdict_lists_every_failure 12 (Sample.tenantWith (Some ["weed"]) (Some []))
                (Sample.person false true) (Sample.say "Fresh weed today") [] eq_refl)
    as (_ & Hage & _ & Hcontent & _).
  split; [apply Hage | apply Hcontent]; reflexivity.
Defined.

(** *** Content screening *)

Lemma loweredText_spec (content : Content) :
  ComplianceService.loweredText content = Js.toLowerCase (default "" (text content)).
Proof. unfold ComplianceService.loweredText. by destruct (text content). Qed.

Lemma inappropriate_reason (patterns : list (list string)) (t : string) :
  ComplianceService.approved (ComplianceService.checkInappropriateLoop patterns t) = false →
  ComplianceService.reason (ComplianceService.checkInappropriateLoop patterns t)
  = "Content contains inappropriate language".
Proof.
  induction patterns as [|pattern rest IH]; [done|]. simpl.
  destruct (ComplianceService.regexTest pattern t); [done | exact IH].
Qed.

(** C6 (amended).  Screening always reports [screened = true]; the content
    is approved exactly when none of the four checks (keywords, patterns,
    media, length) failed; and when several failed, the recorded reason is
    that of the LAST failing check in the order keywords, patterns, media,
    length, each later failure overwriting the reason of the earlier ones
    (the flagged keywords are kept). *)
Theorem C6_last_failure_is_recorded (content : Content) (client : Client.t) :
  let r := ComplianceService.screenContent content client in
  let keywords := ComplianceService.foundKeywords content client in
  let keywordHit := (0 <? length keywords)%nat in
  let patternCheck :=
    ComplianceService.checkInappropriateContent (ComplianceService.loweredText content) in
  let mediaCheck := ComplianceService.checkMediaContent (media content) in
  let tooLong := (1600 <? String.length (ComplianceService.loweredText content))%nat in
  ComplianceService.screened r = true
  ∧ ComplianceService.s_approved r =
      negb keywordHit && ComplianceService.approved patternCheck
      && ComplianceService.approved mediaCheck && negb tooLong
  ∧ ComplianceService.flaggedKeywords r = keywords
  ∧ ComplianceService.s_reason r =
      if tooLong then "Message exceeds character limit"
      else if negb (ComplianceService.approved mediaCheck) then
        ComplianceService.reason mediaCheck
      else if negb (ComplianceService.approved patternCheck) then
        "Content contains inappropriate language"
      else if keywordHit then
        "Content contains restricted keywords: " +:+ Js.join ", " keywords
      else "".
Proof.
  intros r keywords keywordHit patternCheck mediaCheck tooLong.
  pose proof (inappropriate_reason ComplianceService.inappropriatePatterns
                (ComplianceService.loweredText content)) as Hwhy.
  fold (ComplianceService.checkInappropriateContent (ComplianceService.loweredText content)) in Hwhy.
  fold patternCheck in Hwhy.
  assert (∀ R, (if (0 <? length (media content))%nat
                then if negb (ComplianceService.approved mediaCheck)
                     then ComplianceService.reject R (ComplianceService.reason mediaCheck)
                     else R
                else R)
               = if negb (ComplianceService.approved mediaCheck)
                 then ComplianceService.reject R (ComplianceService.reason mediaCheck)
                 else R) as Hmedia.
  { intros R. subst mediaCheck. by destruct (media content). }
  assert (keywordHit = false → keywords = []) as Hnone.
  { subst keywordHit. by destruct keywords. }
  subst r. unfold ComplianceService.screenContent.
  fold keywords. fold keywordHit. fold patternCheck. fold mediaCheck. fold tooLong.
  rewrite Hmedia. clear Hmedia.
  destruct keywordHit; [clear Hnone | rewrite (Hnone eq_refl)].
  all: destruct (ComplianceService.approved patternCheck);
    [clear Hwhy | rewrite (Hwhy eq_refl)].
  all: destruct (ComplianceService.approved mediaCheck), tooLong.
  all: repeat split; reflexivity.
Qed.

(** C6, as stated, fails: a text with a restricted keyword and an
    inappropriate word fails the keyword check first, yet the reason that
    is recorded is the one of the pattern check. *)
Lemma C6_first_reason_is_overwritten :
  let client := Sample.tenantWith (Some ["weed"]) (Some []) in
  let content := Sample.say "Weed for a minor" in
  let r := ComplianceService.screenContent content client in
  ComplianceService.foundKeywords content client = ["weed"]
  ∧ ComplianceService.approved
      (ComplianceService.checkInappropriateContent (ComplianceService.loweredText content)) = false
  ∧ ComplianceService.s_reason r = "Content contains inappropriate language"
  ∧ ComplianceService.s_reason r ≠ "Content contains restricted keywords: weed".
Proof. repeat split; try reflexivity. discriminate. Qed.

(** The [||] fall-backs take the built-in list only when the tenant's
    property is absent; an empty array is used as it is. *)
Lemma keyword_list_used (content : Content) (client : Client.t) :
  ComplianceService.foundKeywords content client =
  List.filter
    (fun keyword => Js.includes (ComplianceService.loweredText content) (Js.toLowerCase keyword))
    match Client.restrictedKeywords (Client.complianceSettings client) with
    | Some tenantList => tenantList
    | None => ComplianceService.restrictedKeywords
    end.
Proof. reflexivity. Qed.

(** C7: the code at the failing input.  For a tenant whose two lists are
    empty (what the Client schema creates) the text
    "Cannabis sale, for adults 21+ only" has no keyword flagged and no
    disclaimer found; only for a tenant whose lists are absent are the
    built-in lists consulted, which flag "cannabis" and find the
    disclaimer. *)
Theorem C7_empty_lists_are_used_as_they_are :
  let content := Sample.say "Cannabis sale, for adults 21+ only" in
  let emptyLists := Sample.tenantWith (Some []) (Some []) in
  let noLists := Sample.tenantWith None None in
  ComplianceService.flaggedKeywords (ComplianceService.screenContent content emptyLists) = []
  ∧ ComplianceService.s_approved (ComplianceService.screenContent content emptyLists) = true
  ∧ ComplianceService.included (ComplianceService.checkDisclaimers content emptyLists) = false
  ∧ ComplianceService.flaggedKeywords (ComplianceService.screenContent content noLists)
    = ["cannabis"]
  ∧ ComplianceService.found (ComplianceService.checkDisclaimers content noLists)
    = ["For adults 21+ only"].
Proof. repeat split; reflexivity. Qed.

(** *** Disclaimers *)

Lemma filter_nil_iff {A} (f : A → bool) (l : list A) :
  List.filter f l = [] ↔ ∀ x, x ∈ l → f x = false.
Proof.
  induction l as [|a l IH]; simpl.
  - split; [intros _ x Hx; by apply elem_of_nil in Hx | done].
  - destruct (f a) eqn:Hfa; split.
    + discriminate.
    + intros Hall. specialize (Hall a (list_elem_of_here _ _)). congruence.
    + intros Hnil x Hx. apply elem_of_cons in Hx as [-> | Hx]; [done|].
      by apply IH.
    + intros Hall. apply IH. intros x Hx. apply Hall. by apply list_elem_of_further.
Qed.

(** A disclaimer of the list in force was found exactly when one of them
    occurs in the text, letter case aside. *)
Lemma included_iff (content : Content) (client : Client.t) (tenantList : list string) :
  Client.requiredDisclaimers (Client.complianceSettings client) = Some tenantList →
  (ComplianceService.included (ComplianceService.checkDisclaimers content client) = false)
  ↔ (∀ d, d ∈ tenantList →
          Js.includes (Js.toLowerCase (default "" (text content))) (Js.toLowerCase d) = false).
Proof.
  intros Hlist. unfold ComplianceService.checkDisclaimers. rewrite Hlist.
  cbn [Js.js_or ComplianceService.included]. rewrite loweredText_spec.
  rewrite <- filter_nil_iff.
  destruct (List.filter _ tenantList); by split.
Qed.

(** The disclaimer reason is given exactly when the tenant lists some
    disclaimers and none was found. *)
Lemma disclaimer_reason_iff
    (hour : Z) (client : Client.t) (recipient : Recipient) (content : Content)
    (tenantList : list string) :
  Client.requiredDisclaimers (Client.complianceSettings client) = Some tenantList →
  "Required disclaimers missing"
    ∈ ComplianceService.details
        (ComplianceService.checkMessageCompliance hour client recipient content)
  ↔ ComplianceService.included (ComplianceService.checkDisclaimers content client) = false
    ∧ tenantList ≠ [].
Proof.
  intros Hschema.
  pose proof (screening_reason_fresh
                (ComplianceService.s_reason (ComplianceService.screenContent content client)))
    as (_ & _ & Hf & _).
  rewrite (verdict_of_array hour client recipient content _ Hschema).
  cbn [ComplianceService.details].
  revert Hf. cbv zeta.
  generalize ("Content failed screening: "
              +:+ ComplianceService.s_reason (ComplianceService.screenContent content client)).
  intros why Hf.
  assert ((0 <? length tenantList)%nat = true ↔ tenantList ≠ []) as Hlen.
  { destruct tenantList; cbn; split; done. }
  destruct (ComplianceService.verified (ComplianceService.verifyAge recipient client)),
    (ComplianceService.verified (ComplianceService.verifyConsent recipient client)),
    (ComplianceService.s_approved (ComplianceService.screenContent content client)),
    (ComplianceService.included (ComplianceService.checkDisclaimers content client)),
    (0 <? length tenantList)%nat,
    (ComplianceService.checkBusinessHours hour client); cbn [reasonIf negb andb app].
  all: split;
    [ intros Hin; first [ split; [reflexivity | by apply Hlen] | absent Hin ]
    | intros [Hi Hl]; first [ discriminate Hi
                            | (apply Hlen in Hl; discriminate Hl)
                            | (rewrite ?elem_of_cons; auto 10) ] ].
Qed.

(** C8.  On a tenant whose required-disclaimer list is an array: if the
    list is non-empty and none of its entries occurs in the text as a
    case-insensitive substring, the verdict fails and carries the reason
    "Required disclaimers missing"; if the list is empty, that reason is
    never given and the verdict passes exactly when the other checks
    pass. *)
Theorem C8_disclaimer_gate
    (hour : Z) (client : Client.t) (recipient : Recipient) (content : Content)
    (tenantList : list string)
    (Hschema : Client.requiredDisclaimers (Client.complianceSettings client) = Some tenantList) :
  let v := ComplianceService.checkMessageCompliance hour client recipient content in
  (tenantList ≠ [] →
   (∀ d, d ∈ tenantList →
         Js.includes (Js.toLowerCase (default "" (text content))) (Js.toLowerCase d) = false) →
   ComplianceService.passed v = false
   ∧ "Required disclaimers missing" ∈ ComplianceService.details v)
  ∧ (tenantList = [] →
     ("Required disclaimers missing" ∉ ComplianceService.details v)
     ∧ ComplianceService.passed v =
         (ComplianceService.verified (ComplianceService.verifyAge recipient client)
          && ComplianceService.verified (ComplianceService.verifyConsent recipient client)
          && ComplianceService.s_approved (ComplianceService.screenContent content client)
          && ComplianceService.checkBusinessHours hour client)).
Proof.
  intros v.
  pose proof (disclaimer_reason_iff hour client recipient content _ Hschema) as Hreason.
  fold v in Hreason.
  pose proof (verdict_of_array hour client recipient content _ Hschema) as Hv.
  fold v in Hv.
  split.
  - intros Hne Hnone.
    apply (included_iff content client _ Hschema) in Hnone.
    assert ((0 <? length tenantList)%nat = true) as Hlen by (by destruct tenantList).
    split.
    + rewrite Hv. cbn [ComplianceService.passed]. rewrite Hnone, Hlen.
      cbn [negb andb]. by rewrite andb_false_r.
    + by apply Hreason.
  - intros ->. split.
    + intros Hin. apply Hreason in Hin as [_ Hne]. by apply Hne.
    + rewrite Hv. cbn [ComplianceService.passed length Nat.ltb Nat.leb].
      by rewrite andb_false_r, andb_true_r.
Qed.

Lemma C8_disclaimer_gate_witness :
  let strict := Sample.tenantWith (Some []) (Some ["21+"]) in
  let lax := Sample.tenantWith (Some []) (Some []) in
  let content := Sample.say "Buy now" in
  ComplianceService.passed
    (ComplianceService.checkMessageCompliance 12 strict (Sample.person true true) content) = false
  ∧ ComplianceService.passed
      (ComplianceService.checkMessageCompliance 12 lax (Sample.person true true) content) = true.
Proof.
  split.
  - apply (C8_disclaimer_gate 12 (Sample.tenantWith (Some []) (Some ["21+"]))
             (Sample.person true true) (Sample.say "Buy now") ["21+"] eq_refl).
    + discriminate.
    + intros d Hd. apply list_elem_of_singleton in Hd as ->. reflexivity.
  - destruct (C8_disclaimer_gate 12 (Sample.tenantWith (Some []) (Some []))
                (Sample.person true true) (Sample.say "Buy now") [] eq_refl) as [_ Hlax].
    destruct (Hlax eq_refl) as [_ ->]. reflexivity.
Defined.

(** ** The message document *)

Section MessageFacts.

Implicit Types (this : Message.t) (d : Message.Delivery) (db : gmap string Message.t).

(** The hook lets a save through exactly when the status is not
    "pending" or both compliance flags are set. *)
Lemma preSave_Ok this :
  Message.preSave this = Ok () ↔
  (Message.status (Message.delivery this) = "pending" →
   Message.ageVerificationPassed (Message.compliance this) = true
   ∧ Message.consentVerified (Message.compliance this) = true).
Proof.
  unfold Message.preSave.
  destruct (String.eqb _ "pending") eqn:Hs;
    [apply eqb_true in Hs | apply eqb_false in Hs];
    destruct (Message.ageVerificationPassed _), (Message.consentVerified _);
    cbn; split; try done; intros H; by destruct (H Hs).
Qed.

Lemma save_Ok isNew id this db db' :
  Message.save isNew id this db = Ok db' →
  db' = <[id := this]> db ∧ Message.preSave this = Ok () ∧
  (isNew = true → db !! id = None).
Proof.
  unfold Message.save.
  destruct (Message.validate isNew this); [|done].
  destruct (Message.preSave this) as [[]|]; [|done].
  destruct isNew; cbn [andb].
  - case_bool_decide as Hid; [done|]. intros [= <-]. repeat split.
    intros _. by apply eq_None_not_Some.
  - intros [= <-]. done.
Qed.

(** A document read from the store is saved again whenever its status
    is one of the enumeration other than "pending". *)
Lemma save_existing id this db :
  Message.status (Message.delivery this) ∈ Message.statusEnum →
  Message.status (Message.delivery this) ≠ "pending" →
  Message.save false id this db = Ok (<[id := this]> db).
Proof.
  intros Henum Hs. unfold Message.save, Message.validate.
  apply arrayIncludes_elem in Henum. rewrite Henum. cbn [negb andb].
  assert (Message.preSave this = Ok ()) as -> by (by apply preSave_Ok).
  done.
Qed.

(** Properties of [additionalData] that touch neither the status nor the
    retry counters. *)
Definition plain (p : Message.DeliveryProp) : bool :=
  match p with
  | Message.PStatus _ | Message.PRetryCount _ | Message.PMaxRetries _ => false
  | _ => true
  end.

Lemma objectAssign_plain d additionalData :
  forallb plain additionalData = true →
  Message.status (Message.objectAssign d additionalData) = Message.status d
  ∧ Message.retryCount (Message.objectAssign d additionalData) = Message.retryCount d
  ∧ Message.maxRetries (Message.objectAssign d additionalData) = Message.maxRetries d.
Proof.
  unfold Message.objectAssign. revert d.
  induction additionalData as [|p rest IH]; intros d Hplain; [done|].
  cbn [forallb] in Hplain. apply andb_true_iff in Hplain as [Hp Hrest].
  cbn [fold_left]. destruct (IH (Message.assignProp d p) Hrest) as (-> & -> & ->).
  destruct d, p; done.
Qed.

(** What [setDeliveryStatus] does to the parts of the document that the
    lifecycle depends on. *)
Lemma setDeliveryStatus_plain status additionalData now this :
  forallb plain additionalData = true →
  let this' := Message.setDeliveryStatus status additionalData now this in
  Message.status (Message.delivery this') = status
  ∧ Message.retryCount (Message.delivery this') = Message.retryCount (Message.delivery this)
  ∧ Message.maxRetries (Message.delivery this') = Message.maxRetries (Message.delivery this)
  ∧ Message.compliance this' = Message.compliance this
  ∧ Message.clientId this' = Message.clientId this
  ∧ Message.scheduling this' = Message.scheduling this.
Proof.
  intros Hplain. cbv zeta. unfold Message.setDeliveryStatus.
  cbn [Message.withDelivery Message.delivery Message.compliance Message.clientId
       Message.scheduling].
  destruct (objectAssign_plain
              (if String.eqb status "sent"
               then Message.assignProp (Message.assignProp (Message.delivery this)
                      (Message.PStatus status)) (Message.PSentAt (Some now))
               else if String.eqb status "delivered"
                    then Message.assignProp (Message.assignProp (Message.delivery this)
                           (Message.PStatus status)) (Message.PDeliveredAt (Some now))
                    else Message.assignProp (Message.delivery this) (Message.PStatus status))
              additionalData Hplain) as (-> & -> & ->).
  destruct (Message.delivery this), (String.eqb status "sent"),
    (String.eqb status "delivered"); done.
Qed.

Lemma updateDeliveryStatus_Ok status additionalData now id this db this' db' :
  Message.updateDeliveryStatus status additionalData now id this db = (this', Ok db') →
  this' = Message.setDeliveryStatus status additionalData now this
  ∧ db' = <[id := this']> db.
Proof.
  unfold Message.updateDeliveryStatus. intros [= <- Hsave].
  by apply save_Ok in Hsave as [-> _].
Qed.

Lemma canRetry_iff this :
  Message.canRetry this = true ↔
  Message.status (Message.delivery this) = "failed"
  ∧ Message.retryCount (Message.delivery this) < Message.maxRetries (Message.delivery this).
Proof.
  unfold Message.canRetry. rewrite andb_true_iff, Z.ltb_lt, eqb_true. tauto.
Qed.

End MessageFacts.

(** ** The routes *)

(** What the pipeline relies on in a stored message: both compliance
    flags are set and the retry counter is within its bound. *)
Definition sound (m : Message.t) : Prop :=
  Message.ageVerificationPassed (Message.compliance m) = true
  ∧ Message.consentVerified (Message.compliance m) = true
  ∧ 0 <= Message.retryCount (Message.delivery m) <= Message.maxRetries (Message.delivery m).

(** [m'] is [m] after status updates only. *)
Definition sameCore (m m' : Message.t) : Prop :=
  Message.compliance m' = Message.compliance m
  ∧ Message.retryCount (Message.delivery m') = Message.retryCount (Message.delivery m)
  ∧ Message.maxRetries (Message.delivery m') = Message.maxRetries (Message.delivery m)
  ∧ Message.clientId m' = Message.clientId m.

(** [m'] is a later version of the stored message [m]: the compliance
    sub-record and the bound are those of [m], and the counter is either
    the same or, when a retry was permitted, one more. *)
Definition evolves (m m' : Message.t) : Prop :=
  Message.compliance m' = Message.compliance m
  ∧ Message.maxRetries (Message.delivery m') = Message.maxRetries (Message.delivery m)
  ∧ (Message.retryCount (Message.delivery m') = Message.retryCount (Message.delivery m)
     ∨ (Message.canRetry m = true
        ∧ Message.retryCount (Message.delivery m') = Message.retryCount (Message.delivery m) + 1)).

Section RouteFacts.

Implicit Types (st : Routes.State) (env : Routes.Env) (m message : Message.t).

Lemma sameCore_set status additionalData now m :
  forallb plain additionalData = true →
  sameCore m (Message.setDeliveryStatus status additionalData now m).
Proof.
  intros Hplain.
  destruct (setDeliveryStatus_plain status additionalData now m Hplain)
    as (_ & ? & ? & ? & ? & _).
  by repeat split.
Qed.

Lemma sameCore_trans m1 m2 m3 : sameCore m1 m2 → sameCore m2 m3 → sameCore m1 m3.
Proof. unfold sameCore. intros (-> & -> & -> & ->) (-> & -> & -> & ->). done. Qed.

(** The store after [markFailed]: untouched, or the message replaced by
    a version with the same core. *)
Lemma failed_effect now id message db error :
  match Message.updateDeliveryStatus "failed" [Message.PFailureReason (Some error)]
          now id message db with
  | (_, Ok db') => ∃ m', db' = <[id := m']> db ∧ sameCore message m'
  | (_, Err _) => True
  end.
Proof.
  destruct (Message.updateDeliveryStatus _ _ _ _ _ _) as [m' [db'|e]] eqn:Hu; [|done].
  apply updateDeliveryStatus_Ok in Hu as [-> ->].
  eexists. split; [done|]. by apply sameCore_set.
Qed.

(** The dispatch that follows the first save or a permitted retry leaves
    the store as it is or replaces the message under [id] by a version
    with the same core. *)
Lemma sendNow_effect env req client id message st :
  let st' := (Routes.sendNow env req client id message st).1 in
  Routes.messages st' = Routes.messages st
  ∨ ∃ m', Routes.messages st' = <[id := m']> (Routes.messages st) ∧ sameCore message m'.
Proof.
  cbv zeta. unfold Routes.sendNow.
  destruct (MMSService.sendMessage _ _ _) as [sendResult|e].
  - destruct (Message.updateDeliveryStatus "sent" _ _ _ _ _) as [m1 [db1|e1]] eqn:Hsent.
    + apply updateDeliveryStatus_Ok in Hsent as [-> ->]. right.
      eexists. split; [done|]. by apply sameCore_set.
    + assert (sameCore message m1) as Hcore.
      { unfold Message.updateDeliveryStatus in Hsent. injection Hsent as <- _.
        by apply sameCore_set. }
      pose proof (failed_effect (Routes.now env) id m1 (Routes.messages st) e1) as Hf.
      destruct (Message.updateDeliveryStatus "failed" _ _ _ _ _) as [m2 [db2|e2]];
        [|by left].
      destruct Hf as (m' & -> & Hm'). right. exists m'. split; [done|].
      by eapply sameCore_trans.
  - pose proof (failed_effect (Routes.now env) id message (Routes.messages st) e) as Hf.
    destruct (Message.updateDeliveryStatus "failed" _ _ _ _ _) as [m2 [db2|e2]];
      [|by left].
    destruct Hf as (m' & -> & Hm'). right. by exists m'.
Qed.

(** A message as the send route first stores it. *)
Definition asCreated (m : Message.t) : Prop :=
  Message.ageVerificationPassed (Message.compliance m) = true
  ∧ Message.consentVerified (Message.compliance m) = true
  ∧ Message.retryCount (Message.delivery m) = 0
  ∧ Message.maxRetries (Message.delivery m) = 3.

(** POST /send leaves the stored messages as they are or adds one
    message under the fresh id. *)
Lemma send_effect env req st :
  let st' := (Routes.send env req st).1 in
  Routes.messages st' = Routes.messages st
  ∨ (Routes.messages st !! Routes.freshId env = None
     ∧ ∃ m', Routes.messages st' = <[Routes.freshId env := m']> (Routes.messages st)
             ∧ asCreated m').
Proof.
  cbv zeta. unfold Routes.send.
  destruct (negb (bool_decide _)); [by left|].
  destruct (Routes.clients st !! Routes.clientId req) as [client|]; [|by left].
  destruct (negb (Client.canSendMessage client)); [by left|].
  destruct (Routes.optedOut _ _); [by left|].
  destruct (Routes.resolveContent env req) as [response|messageContent]; [by left|].
  destruct (negb (ComplianceService.passed _)); [by left|].
  match goal with
  | |- context [Message.save true _ ?msg _] => set (message := msg)
  end.
  destruct (Message.save true _ message _) as [db|e] eqn:Hsave; [|by left].
  apply save_Ok in Hsave as (-> & Hhook & Hfree). specialize (Hfree eq_refl).
  pose proof (proj1 (preSave_Ok _) Hhook eq_refl) as [Hage Hconsent].
  assert (asCreated message) as Hnew by done.
  right. split; [done|].
  destruct (negb (from_option _ _ _)).
  - destruct (sendNow_effect env req client (Routes.freshId env) message
                (Routes.withMessages st (<[Routes.freshId env := message]> (Routes.messages st))))
      as [-> | (m' & -> & Hcore)]; cbn [Routes.withMessages Routes.messages].
    + by exists message.
    + exists m'. rewrite insert_insert_eq. split; [done|].
      destruct Hcore as (Hc & Hr & Hm & _), Hnew as (? & ? & ? & ?).
      unfold asCreated. rewrite Hc, Hr, Hm. done.
  - by exists message.
Qed.

Lemma findOwned_Some db req m :
  Routes.findOwned db req = Some m →
  db !! Routes.messageId req = Some m ∧ Message.clientId m = Routes.forClient req.
Proof.
  unfold Routes.findOwned. destruct (db !! _) as [m0|]; [|done].
  destruct (String.eqb _ _) eqn:Heq; [|done]. apply eqb_true in Heq.
  by intros [= <-].
Qed.

(** POST /:messageId/retry leaves the stored messages as they are or,
    when the retry was permitted, replaces the message by a version whose
    counter is one more. *)
Lemma retry_effect env req st :
  let st' := (Routes.retry env req st).1 in
  Routes.messages st' = Routes.messages st
  ∨ ∃ m m', Routes.messages st !! Routes.messageId req = Some m
            ∧ Routes.messages st' = <[Routes.messageId req := m']> (Routes.messages st)
            ∧ Message.canRetry m = true
            ∧ Message.compliance m' = Message.compliance m
            ∧ Message.maxRetries (Message.delivery m') = Message.maxRetries (Message.delivery m)
            ∧ Message.retryCount (Message.delivery m')
              = Message.retryCount (Message.delivery m) + 1.
Proof.
  cbv zeta. unfold Routes.retry.
  destruct (Routes.findOwned _ _) as [m|] eqn:Hfind; [|by left].
  apply findOwned_Some in Hfind as [Hm _].
  destruct (Message.canRetry m) eqn:Hcan; cbn [negb]; [|by left].
  destruct (Routes.clients st !! _) as [client|]; [|by left].
  destruct (negb (Client.canSendMessage client)); [by left|].
  destruct (Message.incrementRetry _ _ _) as [m1 [db1|e1]] eqn:Hinc; [|by left].
  unfold Message.incrementRetry in Hinc. injection Hinc as <- Hsave.
  apply save_Ok in Hsave as (-> & _ & _).
  match goal with
  | |- context [MMSService.sendMessage _ ?msg _] => set (m1 := msg)
  end.
  assert (Message.compliance m1 = Message.compliance m
          ∧ Message.maxRetries (Message.delivery m1) = Message.maxRetries (Message.delivery m)
          ∧ Message.retryCount (Message.delivery m1)
            = Message.retryCount (Message.delivery m) + 1) as (Hc1 & Hm1 & Hr1).
  { subst m1. destruct m as [? ? ? ? [] ? ?]. done. }
  cbn [Routes.withMessages Routes.messages Routes.clients].
  set (db1 := <[Routes.messageId req := m1]> (Routes.messages st)).
  assert (∀ m', sameCore m1 m' →
            ∃ m0 m'0, Routes.messages st !! Routes.messageId req = Some m0
              ∧ <[Routes.messageId req := m']> db1
                = <[Routes.messageId req := m'0]> (Routes.messages st)
              ∧ Message.canRetry m0 = true
              ∧ Message.compliance m'0 = Message.compliance m0
              ∧ Message.maxRetries (Message.delivery m'0) = Message.maxRetries (Message.delivery m0)
              ∧ Message.retryCount (Message.delivery m'0)
                = Message.retryCount (Message.delivery m0) + 1) as Hdone.
  { intros m' (Hc & Hr & Hx & _). exists m, m'. subst db1. rewrite insert_insert_eq.
    rewrite Hc, Hr, Hx. done. }
  destruct (MMSService.sendMessage _ _ _) as [sendResult|e].
  - destruct (Message.updateDeliveryStatus "sent" _ _ _ _ _) as [m2 [db2|e2]] eqn:Hsent.
    + apply updateDeliveryStatus_Ok in Hsent as [-> ->]. right.
      cbn [fst Routes.messages]. apply Hdone. by apply sameCore_set.
    + assert (sameCore m1 m2) as Hcore.
      { unfold Message.updateDeliveryStatus in Hsent. injection Hsent as <- _.
        by apply sameCore_set. }
      pose proof (failed_effect (Routes.now env) (Routes.messageId req) m2 db1 e2) as Hf.
      destruct (Message.updateDeliveryStatus "failed" _ _ _ _ _) as [m3 [db3|e3]].
      * destruct Hf as (m' & -> & Hm'). right. cbn [fst Routes.messages Routes.withMessages].
        apply Hdone. by eapply sameCore_trans.
      * right. cbn [fst Routes.messages]. exists m, m1. by subst db1.
  - pose proof (failed_effect (Routes.now env) (Routes.messageId req) m1 db1 e) as Hf.
    destruct (Message.updateDeliveryStatus "failed" _ _ _ _ _) as [m3 [db3|e3]].
    + destruct Hf as (m' & -> & Hm'). right. cbn [fst Routes.messages Routes.withMessages].
      by apply Hdone.
    + right. cbn [fst Routes.messages]. exists m, m1. by subst db1.
Qed.

End RouteFacts.

Section Runs.

Implicit Types (st : Routes.State) (env : Routes.Env) (m : Message.t).

(** POST /webhook on a stored message whose new status passes the save. *)
Lemma webhook_stores env req st id m :
  Routes.wh_messageId req = Some id → id ≠ "" →
  Routes.messages st !! id = Some m →
  Routes.wh_status req ∈ Message.statusEnum →
  (Routes.wh_status req = "pending" →
   Message.ageVerificationPassed (Message.compliance m) = true
   ∧ Message.consentVerified (Message.compliance m) = true) →
  Routes.webhook env req st =
  (Routes.withMessages st
     (<[id := Message.setDeliveryStatus (Routes.wh_status req)
                [Message.PFailureReason (Routes.wh_error req)] (Routes.now env) m]>
        (Routes.messages st)),
   {| Routes.code := 200;
      Routes.json := [("message", Routes.JStr "Status updated successfully")] |}).
Proof.
  intros Hid Hne Hm Henum Hflags. unfold Routes.webhook.
  rewrite Hid. cbn [Js.truthy_str from_option Datatypes.id].
  apply eqb_false in Hne. rewrite Hne. cbn [negb]. rewrite Hm.
  unfold Message.updateDeliveryStatus.
  set (m' := Message.setDeliveryStatus _ _ _ m).
  destruct (setDeliveryStatus_plain (Routes.wh_status req)
              [Message.PFailureReason (Routes.wh_error req)] (Routes.now env) m eq_refl)
    as (Hs & _ & _ & Hc & _). fold m' in Hs, Hc.
  unfold Message.save, Message.validate. rewrite Hs.
  apply arrayIncludes_elem in Henum. rewrite Henum. cbn [negb andb].
  assert (Message.preSave m' = Ok ()) as ->; [|done].
  apply preSave_Ok. rewrite Hs, Hc. done.
Qed.

Lemma webhook_effect env req st :
  let st' := (Routes.webhook env req st).1 in
  Routes.messages st' = Routes.messages st
  ∨ ∃ id m m', Routes.messages st !! id = Some m
               ∧ Routes.messages st' = <[id := m']> (Routes.messages st)
               ∧ sameCore m m'.
Proof.
  cbv zeta. unfold Routes.webhook.
  destruct (negb (Js.truthy_str _)); [by left|].
  destruct (Routes.messages st !! _) as [m|] eqn:Hm; [|by left].
  destruct (Message.updateDeliveryStatus _ _ _ _ _ _) as [m1 [db1|e1]] eqn:Hu; [|by left].
  apply updateDeliveryStatus_Ok in Hu as [-> ->]. right.
  eexists _, m, _. split; [done|]. split; [done|]. by apply sameCore_set.
Qed.

Lemma cancel_effect req st :
  let st' := (Routes.cancel req st).1 in
  Routes.messages st' = Routes.messages st
  ∨ Routes.messages st' = delete (Routes.messageId req) (Routes.messages st).
Proof.
  cbv zeta. unfold Routes.cancel.
  destruct (Routes.findOwned _ _); [|by left].
  destruct (_ && _); [by right | by left].
Qed.

(** One request: a message that is still stored afterwards is a later
    version of itself. *)
Lemma step_evolves st a id m m' :
  Routes.messages st !! id = Some m →
  Routes.messages (Routes.step st a).1 !! id = Some m' →
  evolves m m'.
Proof.
  intros Hm Hm'.
  assert (evolves m m) as Hsame by (repeat split; by left).
  destruct a as [env req | env req | req | env req]; cbn [Routes.step] in Hm'.
  - destruct (send_effect env req st) as [Heq | (Hfree & m0 & Heq & _)];
      rewrite Heq in Hm'.
    + by simplify_eq.
    + destruct (decide (Routes.freshId env = id)) as [<- | Hne]; [congruence|].
      rewrite lookup_insert_ne in Hm' by done. by simplify_eq.
  - destruct (retry_effect env req st)
      as [Heq | (m0 & m1 & Hm0 & Heq & Hcan & Hc & Hx & Hr)]; rewrite Heq in Hm'.
    + by simplify_eq.
    + destruct (decide (Routes.messageId req = id)) as [<- | Hne].
      * rewrite lookup_insert_eq in Hm'. simplify_eq. repeat split; [done..|by right].
      * rewrite lookup_insert_ne in Hm' by done. by simplify_eq.
  - destruct (cancel_effect req st) as [Heq | Heq]; rewrite Heq in Hm'.
    + by simplify_eq.
    + apply lookup_delete_Some in Hm' as [_ Hm']. by simplify_eq.
  - destruct (webhook_effect env req st)
      as [Heq | (id0 & m0 & m1 & Hm0 & Heq & Hc & Hr & Hx & _)]; rewrite Heq in Hm'.
    + by simplify_eq.
    + destruct (decide (id0 = id)) as [<- | Hne].
      * rewrite lookup_insert_eq in Hm'. simplify_eq. repeat split; [done..|by left].
      * rewrite lookup_insert_ne in Hm' by done. by simplify_eq.
Qed.

(** One request: a message that appears is as the send route creates it. *)
Lemma step_new st a id m' :
  Routes.messages st !! id = None →
  Routes.messages (Routes.step st a).1 !! id = Some m' →
  asCreated m'.
Proof.
  intros Hm Hm'.
  destruct a as [env req | env req | req | env req]; cbn [Routes.step] in Hm'.
  - destruct (send_effect env req st) as [Heq | (Hfree & m0 & Heq & Hnew)];
      rewrite Heq in Hm'; [congruence|].
    destruct (decide (Routes.freshId env = id)) as [<- | Hne].
    + rewrite lookup_insert_eq in Hm'. by simplify_eq.
    + rewrite lookup_insert_ne in Hm' by done. congruence.
  - destruct (retry_effect env req st)
      as [Heq | (m0 & m1 & Hm0 & Heq & _)]; rewrite Heq in Hm'; [congruence|].
    destruct (decide (Routes.messageId req = id)) as [<- | Hne]; [congruence|].
    rewrite lookup_insert_ne in Hm' by done. congruence.
  - destruct (cancel_effect req st) as [Heq | Heq]; rewrite Heq in Hm'; [congruence|].
    apply lookup_delete_Some in Hm' as [_ Hm']. congruence.
  - destruct (webhook_effect env req st)
      as [Heq | (id0 & m0 & m1 & Hm0 & Heq & _)]; rewrite Heq in Hm'; [congruence|].
    destruct (decide (id0 = id)) as [<- | Hne]; [congruence|].
    rewrite lookup_insert_ne in Hm' by done. congruence.
Qed.

Lemma sound_evolves m m' : sound m → evolves m m' → sound m'.
Proof.
  intros (Ha & Hc & Hlo & Hhi) (Hcomp & Hmax & Hcount). unfold sound.
  rewrite Hcomp, Hmax. repeat split; try done.
  - destruct Hcount as [-> | [_ ->]]; lia.
  - destruct Hcount as [-> | [Hcan ->]]; [done|].
    apply canRetry_iff in Hcan as [_ Hlt]. lia.
Qed.

Lemma sound_asCreated m : asCreated m → sound m.
Proof. intros (? & ? & Hr & Hm). unfold sound. rewrite Hr, Hm. repeat split; done. Qed.

Lemma step_sound st a :
  map_Forall (λ _, sound) (Routes.messages st) →
  map_Forall (λ _, sound) (Routes.messages (Routes.step st a).1).
Proof.
  intros Hall id m' Hm'.
  destruct (Routes.messages st !! id) as [m|] eqn:Hm.
  - eapply sound_evolves; [by eapply Hall | by eapply step_evolves].
  - apply sound_asCreated. by eapply step_new.
Qed.

(** Every message stored in a state the service can reach is sound. *)
Lemma run_sound actions st :
  map_Forall (λ _, sound) (Routes.messages st) →
  map_Forall (λ _, sound) (Routes.messages (Routes.run st actions)).
Proof.
  unfold Routes.run. revert st.
  induction actions as [|a actions IH]; intros st Hall; [done|].
  cbn [fold_left]. apply IH. by apply step_sound.
Qed.

Lemma reachable_sound tenants actions id m :
  Routes.messages (Routes.run (Routes.start tenants) actions) !! id = Some m → sound m.
Proof.
  intros Hm. eapply (run_sound actions (Routes.start tenants)); [|exact Hm].
  apply map_Forall_empty.
Qed.

End Runs.

Lemma update_saves status additionalData now id (this : Message.t) db :
  forallb plain additionalData = true →
  status ∈ Message.statusEnum →
  (status = "pending" →
   Message.ageVerificationPassed (Message.compliance this) = true
   ∧ Message.consentVerified (Message.compliance this) = true) →
  Message.updateDeliveryStatus status additionalData now id this db =
  (Message.setDeliveryStatus status additionalData now this,
   Ok (<[id := Message.setDeliveryStatus status additionalData now this]> db)).
Proof.
  intros Hplain Henum Hflags. unfold Message.updateDeliveryStatus. f_equal.
  destruct (setDeliveryStatus_plain status additionalData now this Hplain)
    as (Hs & _ & _ & Hc & _).
  unfold Message.save, Message.validate. rewrite Hs.
  apply arrayIncludes_elem in Henum. rewrite Henum. cbn [negb andb].
  assert (Message.preSave (Message.setDeliveryStatus status additionalData now this) = Ok ())
    as ->; [|done].
  apply preSave_Ok. rewrite Hs, Hc. done.
Qed.

(** A permitted retry of an eligible tenant is carried out: the message
    is stored again with its counter one higher, as "sent" or "failed". *)
Lemma retry_permitted env req st m client :
  Routes.findOwned (Routes.messages st) req = Some m →
  Message.canRetry m = true →
  Routes.clients st !! Routes.forClient req = Some client →
  Client.canSendMessage client = true →
  ∃ m', Routes.messages (Routes.retry env req st).1
        = <[Routes.messageId req := m']> (Routes.messages st)
        ∧ Message.retryCount (Message.delivery m') = Message.retryCount (Message.delivery m) + 1
        ∧ Message.maxRetries (Message.delivery m') = Message.maxRetries (Message.delivery m)
        ∧ (Message.status (Message.delivery m') = "sent"
           ∨ Message.status (Message.delivery m') = "failed").
Proof.
  intros Hfind Hcan Hclient Heligible. unfold Routes.retry.
  rewrite Hfind, Hcan, Hclient, Heligible. cbn [negb].
  apply canRetry_iff in Hcan as [Hfailed _].
  unfold Message.incrementRetry.
  set (m1 := Message.withDelivery m _).
  assert (Message.status (Message.delivery m1) = "failed"
          ∧ Message.maxRetries (Message.delivery m1) = Message.maxRetries (Message.delivery m)
          ∧ Message.retryCount (Message.delivery m1)
            = Message.retryCount (Message.delivery m) + 1) as (Hs1 & Hm1 & Hr1).
  { subst m1. destruct m as [? ? ? ? [] ? ?]. done. }
  rewrite save_existing;
    [| rewrite Hs1; by apply arrayIncludes_elem | rewrite Hs1; discriminate].
  cbn [Routes.withMessages Routes.messages Routes.clients].
  assert (∀ status additionalData,
            forallb plain additionalData = true →
            status = "sent" ∨ status = "failed" →
            let m' := Message.setDeliveryStatus status additionalData (Routes.now env) m1 in
            Message.updateDeliveryStatus status additionalData (Routes.now env)
              (Routes.messageId req) m1
              (<[Routes.messageId req := m1]> (Routes.messages st))
            = (m', Ok (<[Routes.messageId req := m']> (Routes.messages st)))
            ∧ Message.retryCount (Message.delivery m')
              = Message.retryCount (Message.delivery m) + 1
            ∧ Message.maxRetries (Message.delivery m') = Message.maxRetries (Message.delivery m)
            ∧ (Message.status (Message.delivery m') = "sent"
               ∨ Message.status (Message.delivery m') = "failed")) as Hmark.
  { intros status additionalData Hplain Hstatus. cbv zeta.
    destruct (setDeliveryStatus_plain status additionalData (Routes.now env) m1 Hplain)
      as (Hs & Hr & Hx & _).
    rewrite update_saves, insert_insert_eq, Hs, Hr, Hx, Hr1, Hm1; [done..| |].
    - destruct Hstatus as [-> | ->]; by apply arrayIncludes_elem.
    - destruct Hstatus as [-> | ->]; discriminate. }
  destruct (MMSService.sendMessage _ _ _) as [sendResult|e].
  - destruct (Hmark "sent"
                [Message.PProviderMessageId (Some (MMSService.messageId sendResult));
                 Message.PProviderResponse (Some (MMSService.response sendResult))]
                eq_refl (or_introl eq_refl)) as (-> & ? & ? & ?).
    eexists. by split.
  - destruct (Hmark "failed" [Message.PFailureReason (Some e)] eq_refl (or_intror eq_refl))
      as (-> & ? & ? & ?).
    eexists. by split.
Qed.

(** ** The claims about the message lifecycle *)

(** C1 (amended).  The pre-save hook rejects a save exactly when the
    status is "pending" and a compliance flag is missing; a save whose
    status is "sent" is accepted whatever the flags are.  Every message persisted
    through the routes nevertheless has both flags set (the send route
    stores it as "pending" first and no route changes the compliance
    sub-record), so in every state the service reaches, status "sent"
    implies both flags. *)
Theorem C1_guard_is_on_pending :
  (∀ this : Message.t,
     Message.preSave this = Ok () ↔
     (Message.status (Message.delivery this) = "pending" →
      Message.ageVerificationPassed (Message.compliance this) = true
      ∧ Message.consentVerified (Message.compliance this) = true))
  ∧ (∀ id (this : Message.t) db,
       Message.status (Message.delivery this) = "sent" →
       Message.save false id this db = Ok (<[id := this]> db))
  ∧ (∀ tenants actions id m,
       Routes.messages (Routes.run (Routes.start tenants) actions) !! id = Some m →
       Message.ageVerificationPassed (Message.compliance m) = true
       ∧ Message.consentVerified (Message.compliance m) = true).
Proof.
  split; [|split].
  - intros this. apply preSave_Ok.
  - intros id this db Hsent. apply save_existing; rewrite Hsent.
    + by apply arrayIncludes_elem.
    + discriminate.
  - intros tenants actions id m Hm.
    apply reachable_sound in Hm as (Hage & Hconsent & _). by split.
Qed.

Lemma C1_guard_is_on_pending_witness :
  ∃ m,
    Routes.messages
      (Routes.run Sample.service
         [Routes.Send (Sample.env 100 "m1" Sample.accept)
            (Sample.request (Sample.person true true) (Sample.say "hi"))]) !! "m1" = Some m
    ∧ Message.status (Message.delivery m) = "sent"
    ∧ Message.ageVerificationPassed (Message.compliance m) = true
    ∧ Message.consentVerified (Message.compliance m) = true.
Proof.
  eexists. split; [reflexivity|]. split; [reflexivity|].
  eapply (proj2 (proj2 C1_guard_is_on_pending) (<["c1" := Sample.tenant]> ∅)
            [Routes.Send (Sample.env 100 "m1" Sample.accept)
               (Sample.request (Sample.person true true) (Sample.say "hi"))] "m1").
  reflexivity.
Defined.

(** C1, as stated, fails: a document with neither compliance flag is
    moved to "sent" and saved; the hook looks at "pending" only. *)
Lemma C1_sent_saved_without_flags :
  let outcome := Message.updateDeliveryStatus "sent" [] 1000 "m1" Sample.draft ∅ in
  Message.ageVerificationPassed (Message.compliance Sample.draft) = false
  ∧ Message.consentVerified (Message.compliance Sample.draft) = false
  ∧ Message.status (Message.delivery outcome.1) = "sent"
  ∧ Message.ageVerificationPassed (Message.compliance outcome.1) = false
  ∧ outcome.2 = Ok {[ "m1" := outcome.1 ]}.
Proof. repeat split; reflexivity. Qed.

Definition notRetryable : Routes.Response :=
  {| Routes.code := 400;
     Routes.json :=
       [("message",
         Routes.JStr "Message cannot be retried. Max retries exceeded or not in failed status.")] |}.

(** C2.  [canRetry] holds exactly when the status is "failed" and
    retryCount < maxRetries; the retry route changes the stored messages
    only when the retry is permitted, and then the counter of that message
    grows by exactly one (which it does whenever the retry is permitted
    and the tenant may send); on a message whose counter equals its bound
    every retry request is answered by the 400 rejection and changes
    nothing, and the message stays exhausted under every later request
    that keeps it; and in every state the service reaches,
    0 <= retryCount <= maxRetries. *)
Theorem C2_retry_bounded :
  (∀ m : Message.t,
     Message.canRetry m = true ↔
     Message.status (Message.delivery m) = "failed"
     ∧ Message.retryCount (Message.delivery m) < Message.maxRetries (Message.delivery m))
  ∧ (∀ env req st,
       Routes.messages (Routes.retry env req st).1 = Routes.messages st
       ∨ ∃ m m', Routes.messages st !! Routes.messageId req = Some m
                 ∧ Routes.messages (Routes.retry env req st).1
                   = <[Routes.messageId req := m']> (Routes.messages st)
                 ∧ Message.canRetry m = true
                 ∧ Message.maxRetries (Message.delivery m') = Message.maxRetries (Message.delivery m)
                 ∧ Message.retryCount (Message.delivery m')
                   = Message.retryCount (Message.delivery m) + 1)
  ∧ (∀ env req st m client,
       Routes.findOwned (Routes.messages st) req = Some m →
       Message.canRetry m = true →
       Routes.clients st !! Routes.forClient req = Some client →
       Client.canSendMessage client = true →
       ∃ m', Routes.messages (Routes.retry env req st).1 !! Routes.messageId req = Some m'
             ∧ Message.retryCount (Message.delivery m')
               = Message.retryCount (Message.delivery m) + 1)
  ∧ (∀ env req st m,
       Routes.findOwned (Routes.messages st) req = Some m →
       Message.retryCount (Message.delivery m) = Message.maxRetries (Message.delivery m) →
       Routes.retry env req st = (st, notRetryable))
  ∧ (∀ st a id m m',
       Routes.messages st !! id = Some m →
       Message.retryCount (Message.delivery m) = Message.maxRetries (Message.delivery m) →
       Routes.messages (Routes.step st a).1 !! id = Some m' →
       Message.retryCount (Message.delivery m') = Message.maxRetries (Message.delivery m'))
  ∧ (∀ tenants actions id m,
       Routes.messages (Routes.run (Routes.start tenants) actions) !! id = Some m →
       0 <= Message.retryCount (Message.delivery m) <= Message.maxRetries (Message.delivery m)).
Proof.
  split; [exact canRetry_iff|]. split; [|split; [|split; [|split]]].
  - intros env req st.
    destruct (retry_effect env req st) as [Heq | (m & m' & ? & ? & ? & ? & ? & ?)];
      [by left | right]. by exists m, m'.
  - intros env req st m client Hfind Hcan Hclient Heligible.
    destruct (retry_permitted env req st m client Hfind Hcan Hclient Heligible)
      as (m' & -> & Hcount & _).
    exists m'. by rewrite lookup_insert_eq.
  - intros env req st m Hfind Hfull. unfold Routes.retry. rewrite Hfind.
    assert (Message.canRetry m = false) as ->; [|done].
    unfold Message.canRetry. rewrite Hfull, Z.ltb_irrefl. done.
  - intros st a id m m' Hm Hfull Hm'.
    destruct (step_evolves st a id m m' Hm Hm') as (_ & Hmax & [Hsame | [Hcan _]]).
    + by rewrite Hsame, Hmax.
    + apply canRetry_iff in Hcan as [_ Hlt]. lia.
  - intros tenants actions id m Hm.
    by apply reachable_sound in Hm as (_ & _ & Hbound).
Qed.

Lemma C2_retry_bounded_witness :
  let fail t := Routes.Retry (Sample.env t "" Sample.refuse)
                  {| Routes.messageId := "m1"; Routes.forClient := "c1" |} in
  let st := Routes.run Sample.service
              [Routes.Send (Sample.env 100 "m1" Sample.refuse)
                 (Sample.request (Sample.person true true) (Sample.say "hi"));
               fail 200; fail 300; fail 400] in
  Routes.retry (Sample.env 500 "" Sample.accept)
    {| Routes.messageId := "m1"; Routes.forClient := "c1" |} st = (st, notRetryable).
Proof.
  cbv zeta.
  eapply (proj1 (proj2 (proj2 (proj2 C2_retry_bounded)))); reflexivity.
Defined.

(** *** Replayed webhooks *)

Section Replay.

Variables (status : string) (error : option string).

Let mark (now : Z) (m : Message.t) : Message.t :=
  Message.setDeliveryStatus status [Message.PFailureReason error] now m.

(** Applying the same status again is the single application made at the
    later time. *)
Lemma mark_twice (t1 t2 : Z) (m : Message.t) : mark t2 (mark t1 m) = mark t2 m.
Proof.
  subst mark. cbv beta. unfold Message.setDeliveryStatus.
  destruct m as [? ? ? ? [] ? ?]. cbn.
  destruct (String.eqb status "sent"), (String.eqb status "delivered"); reflexivity.
Qed.

Lemma mark_stamps (t : Z) (m : Message.t) :
  (status = "sent" → Message.sentAt (Message.delivery (mark t m)) = Some t)
  ∧ (status = "delivered" → Message.deliveredAt (Message.delivery (mark t m)) = Some t).
Proof.
  subst mark. cbv beta. unfold Message.setDeliveryStatus.
  destruct m as [? ? ? ? [] ? ?]. split; intros ->; reflexivity.
Qed.

Lemma mark_without_stamp (t1 t2 : Z) (m : Message.t) :
  status ≠ "sent" → status ≠ "delivered" → mark t2 m = mark t1 m.
Proof.
  intros Hs Hd. subst mark. cbv beta. unfold Message.setDeliveryStatus.
  apply eqb_false in Hs, Hd. by rewrite Hs, Hd.
Qed.

End Replay.

(** C3 (amended).  A webhook that reports a status other than "pending"
    for a stored message is accepted, and so is its replay; after the
    replay the record is the one a single application at the time of the
    replay would have left.  The replay is therefore a no-op for "failed"
    and "undelivered", but for "sent" and "delivered" it overwrites sentAt,
    respectively deliveredAt, with the time of the replay: the record is
    unchanged only if the clock has not moved. *)
Theorem C3_replay_overwrites_timestamp
    (env1 env2 : Routes.Env) (req : Routes.WebhookRequest) (st : Routes.State)
    (id : string) (m : Message.t)
    (Hid : Routes.wh_messageId req = Some id) (Hne : id ≠ "")
    (Hm : Routes.messages st !! id = Some m)
    (Hstatus : Routes.wh_status req ∈ ["sent"; "delivered"; "failed"; "undelivered"]) :
  let first := Routes.webhook env1 req st in
  let second := Routes.webhook env2 req first.1 in
  Routes.code first.2 = 200 ∧ Routes.code second.2 = 200
  ∧ second.1 = (Routes.webhook env2 req st).1
  ∧ (∃ m1 m2,
       Routes.messages first.1 !! id = Some m1 ∧ Routes.messages second.1 !! id = Some m2
       ∧ Message.status (Message.delivery m1) = Routes.wh_status req
       ∧ Message.status (Message.delivery m2) = Routes.wh_status req
       ∧ (Routes.wh_status req = "sent" →
          Message.sentAt (Message.delivery m1) = Some (Routes.now env1)
          ∧ Message.sentAt (Message.delivery m2) = Some (Routes.now env2))
       ∧ (Routes.wh_status req = "delivered" →
          Message.deliveredAt (Message.delivery m1) = Some (Routes.now env1)
          ∧ Message.deliveredAt (Message.delivery m2) = Some (Routes.now env2)))
  ∧ (second.1 = first.1 ↔
     (Routes.wh_status req = "sent" ∨ Routes.wh_status req = "delivered" →
      Routes.now env2 = Routes.now env1)).
Proof.
  intros first second.
  assert (Routes.wh_status req ∈ Message.statusEnum
          ∧ Routes.wh_status req ≠ "pending") as [Henum Hnp].
  { rewrite !elem_of_cons, elem_of_nil in Hstatus.
    destruct Hstatus as [-> | [-> | [-> | [-> | []]]]];
      (split; [by apply arrayIncludes_elem | discriminate]). }
  pose proof (webhook_stores env1 req st id m Hid Hne Hm Henum
                (λ H, False_ind _ (Hnp H))) as H1.
  pose proof (webhook_stores env2 req st id m Hid Hne Hm Henum
                (λ H, False_ind _ (Hnp H))) as H0.
  set (mark t x := Message.setDeliveryStatus (Routes.wh_status req)
                     [Message.PFailureReason (Routes.wh_error req)] t x) in *.
  assert (Routes.messages first.1 !! id = Some (mark (Routes.now env1) m)) as Hm1.
  { subst first. rewrite H1. cbn. by rewrite lookup_insert_eq. }
  pose proof (webhook_stores env2 req first.1 id _ Hid Hne Hm1 Henum
                (λ H, False_ind _ (Hnp H))) as H2.
  fold second in H2. fold (mark (Routes.now env2) (mark (Routes.now env1) m)) in H2.
  rewrite (mark_twice (Routes.wh_status req) (Routes.wh_error req)) in H2.
  assert (second.1 = Routes.withMessages st
                       (<[id := mark (Routes.now env2) m]> (Routes.messages st))) as Hsecond.
  { rewrite H2. subst first. rewrite H1. cbn. unfold Routes.withMessages. cbn.
    by rewrite insert_insert_eq. }
  assert (first.1 = Routes.withMessages st
                      (<[id := mark (Routes.now env1) m]> (Routes.messages st))) as Hfirst.
  { subst first. by rewrite H1. }
  destruct (mark_stamps (Routes.wh_status req) (Routes.wh_error req) (Routes.now env1) m)
    as [Hs1 Hd1].
  destruct (mark_stamps (Routes.wh_status req) (Routes.wh_error req) (Routes.now env2) m)
    as [Hs2 Hd2].
  split; [subst first; by rewrite H1|]. split; [by rewrite H2|].
  split; [by rewrite Hsecond, H0|]. split.
  - exists (mark (Routes.now env1) m), (mark (Routes.now env2) m).
    split; [done|]. split; [rewrite Hsecond; cbn; by rewrite lookup_insert_eq|].
    destruct (setDeliveryStatus_plain (Routes.wh_status req)
                [Message.PFailureReason (Routes.wh_error req)] (Routes.now env1) m eq_refl)
      as (? & _).
    destruct (setDeliveryStatus_plain (Routes.wh_status req)
                [Message.PFailureReason (Routes.wh_error req)] (Routes.now env2) m eq_refl)
      as (? & _).
    repeat split; auto.
  - rewrite Hsecond, Hfirst. split.
    + intros Heq Hstamp.
      assert (mark (Routes.now env2) m = mark (Routes.now env1) m) as Hmark.
      { apply (inj Some).
        rewrite <- (lookup_insert_eq (Routes.messages st) id (mark (Routes.now env2) m)).
        rewrite <- (lookup_insert_eq (Routes.messages st) id (mark (Routes.now env1) m)).
        change (Routes.messages
                  (Routes.withMessages st
                     (<[id := mark (Routes.now env2) m]> (Routes.messages st))) !! id
                = Routes.messages
                    (Routes.withMessages st
                       (<[id := mark (Routes.now env1) m]> (Routes.messages st))) !! id).
        by rewrite Heq. }
      unfold mark in Hmark. cbv beta zeta in Hs1, Hs2, Hd1, Hd2.
      destruct Hstamp as [Hs | Hd].
      * specialize (Hs1 Hs). specialize (Hs2 Hs). rewrite Hmark in Hs2. congruence.
      * specialize (Hd1 Hd). specialize (Hd2 Hd). rewrite Hmark in Hd2. congruence.
    + intros Hclock. unfold mark.
      destruct (decide (Routes.wh_status req = "sent")) as [Hs | Hs];
        [by rewrite (Hclock (or_introl Hs))|].
      destruct (decide (Routes.wh_status req = "delivered")) as [Hd | Hd];
        [by rewrite (Hclock (or_intror Hd))|].
      by rewrite (mark_without_stamp (Routes.wh_status req) (Routes.wh_error req)
                    (Routes.now env1) (Routes.now env2) m Hs Hd).
Qed.

Lemma C3_replay_overwrites_timestamp_witness :
  let first := Routes.webhook (Sample.env 300 "" Sample.accept) (Sample.report "delivered")
                 (Sample.holding (Sample.stored "sent")) in
  let second := Routes.webhook (Sample.env 400 "" Sample.accept) (Sample.report "delivered")
                  first.1 in
  Routes.code second.2 = 200
  ∧ second.1 = (Routes.webhook (Sample.env 400 "" Sample.accept) (Sample.report "delivered")
                  (Sample.holding (Sample.stored "sent"))).1.
Proof.
  destruct (C3_replay_overwrites_timestamp
              (Sample.env 300 "" Sample.accept) (Sample.env 400 "" Sample.accept)
              (Sample.report "delivered") (Sample.holding (Sample.stored "sent"))
              "m1" (Sample.stored "sent") eq_refl)
    as (_ & Hcode & Hsame & _).
  - discriminate.
  - reflexivity.
  - apply arrayIncludes_elem. reflexivity.
  - split; [exact Hcode | exact Hsame].
Defined.

(** C3, as stated, fails: "delivered" reported at time 300 and again at
    time 400 leaves deliveredAt = 400, not the 300 recorded first. *)
Lemma C3_replay_changes_record :
  let first := (Routes.webhook (Sample.env 300 "" Sample.accept) (Sample.report "delivered")
                  (Sample.holding (Sample.stored "sent"))).1 in
  let second := (Routes.webhook (Sample.env 400 "" Sample.accept) (Sample.report "delivered")
                   first).1 in
  (Message.deliveredAt ∘ Message.delivery <$> Routes.messages first !! "m1") = Some (Some 300)
  ∧ (Message.deliveredAt ∘ Message.delivery <$> Routes.messages second !! "m1") = Some (Some 400)
  ∧ Routes.messages second !! "m1" ≠ Routes.messages first !! "m1".
Proof.
  cbv zeta. split; [reflexivity|]. split; [reflexivity|].
  intros Heq.
  apply (f_equal (fmap (Message.deliveredAt ∘ Message.delivery))) in Heq.
  vm_compute in Heq. discriminate Heq.
Qed.

(** *** Rejected sends *)

(** C4.  A send request that reaches the compliance evaluation and whose
    verdict has [passed = false] is answered by the 400 response that
    carries the verdict's list of reasons, and the state (the stored
    messages in particular) is the one before the request. *)
Theorem C4_rejection_is_not_persisted
    (env : Routes.Env) (req : Routes.SendRequest) (st : Routes.State)
    (client : Client.t) (messageContent : Content)
    (Hvalid : Routes.validationErrors req = [])
    (Hclient : Routes.clients st !! Routes.clientId req = Some client)
    (Hcan : Client.canSendMessage client = true)
    (Hopt : Routes.optedOut (Routes.messages st) (phoneNumber (Routes.recipient req)) = false)
    (Hcontent : Routes.resolveContent env req = inr messageContent)
    (Hfail : ComplianceService.passed
               (ComplianceService.checkMessageCompliance (Routes.hour env) client
                  (Routes.recipient req) messageContent) = false) :
  Routes.send env req st =
  (st, {| Routes.code := 400;
          Routes.json :=
            [("message", Routes.JStr "Message failed compliance check");
             ("details",
              Routes.JList
                (ComplianceService.details
                   (ComplianceService.checkMessageCompliance (Routes.hour env) client
                      (Routes.recipient req) messageContent)))] |}).
Proof.
  unfold Routes.send.
  rewrite Hvalid, Hclient, Hcan, Hopt, Hcontent, Hfail.
  by rewrite bool_decide_eq_true_2.
Qed.

Lemma C4_rejection_is_not_persisted_witness :
  Routes.send (Sample.env 100 "m1" Sample.accept)
    (Sample.request (Sample.person false false) (Sample.say "hi")) Sample.service
  = (Sample.service,
     {| Routes.code := 400;
        Routes.json :=
          [("message", Routes.JStr "Message failed compliance check");
           ("details",
            Routes.JList ["Age verification required"; "Consent verification required"])] |}).
Proof.
  apply (C4_rejection_is_not_persisted (Sample.env 100 "m1" Sample.accept)
           (Sample.request (Sample.person false false) (Sample.say "hi")) Sample.service
           Sample.tenant (Sample.say "hi")); reflexivity.
Defined.

(** *** Status updates *)


(** C10.  [updateDeliveryStatus(status)] sets [delivery.status] to the
    given value whatever the status was before; for a value of the
    schema's enumeration the save that follows depends on the new status
    (and, when that is "pending", on the compliance flags), never on the
    previous status; so a webhook request moves any stored message, a
    "delivered" one included, to the status it names. *)
Theorem C10_status_overwritten_unchecked :
  (∀ status now (this : Message.t),
     Message.status (Message.delivery (Message.setDeliveryStatus status [] now this)) = status)
  ∧ (∀ status now id (this : Message.t) db,
       status ∈ Message.statusEnum →
       (status = "pending" →
        Message.ageVerificationPassed (Message.compliance this) = true
        ∧ Message.consentVerified (Message.compliance this) = true) →
       (Message.updateDeliveryStatus status [] now id this db).2
       = Ok (<[id := Message.setDeliveryStatus status [] now this]> db))
  ∧ (∀ env req st id m,
       Routes.wh_messageId req = Some id → id ≠ "" →
       Routes.messages st !! id = Some m →
       Routes.wh_status req ∈ Message.statusEnum →
       (Routes.wh_status req = "pending" →
        Message.ageVerificationPassed (Message.compliance m) = true
        ∧ Message.consentVerified (Message.compliance m) = true) →
       Routes.code (Routes.webhook env req st).2 = 200
       ∧ ∃ m', Routes.messages (Routes.webhook env req st).1 !! id = Some m'
               ∧ Message.status (Message.delivery m') = Routes.wh_status req).
Proof.
  split; [|split].
  - intros status now this.
    by destruct (setDeliveryStatus_plain status [] now this eq_refl) as (? & _).
  - intros status now id this db Henum Hflags.
    by rewrite (update_saves status [] now id this db eq_refl Henum Hflags).
  - intros env req st id m Hid Hne Hm Henum Hflags.
    rewrite (webhook_stores env req st id m Hid Hne Hm Henum Hflags).
    split; [done|]. eexists. cbn. rewrite lookup_insert_eq. split; [done|].
    by destruct (setDeliveryStatus_plain (Routes.wh_status req)
                   [Message.PFailureReason (Routes.wh_error req)] (Routes.now env) m eq_refl)
      as (? & _).
Qed.

Lemma C10_status_overwritten_unchecked_witness :
  let after status :=
    (Routes.webhook (Sample.env 500 "" Sample.accept) (Sample.report status)
       (Sample.holding (Sample.stored "delivered"))).1 in
  (∃ m, Routes.messages (after "failed") !! "m1" = Some m
        ∧ Message.status (Message.delivery m) = "failed")
  ∧ (∃ m, Routes.messages (after "pending") !! "m1" = Some m
          ∧ Message.status (Message.delivery m) = "pending").
Proof.
  split.
  - apply (proj2 (proj2 C10_status_overwritten_unchecked)
             (Sample.env 500 "" Sample.accept) (Sample.report "failed")
             (Sample.holding (Sample.stored "delivered")) "m1" (Sample.stored "delivered"));
      try reflexivity; [discriminate | apply arrayIncludes_elem; reflexivity | discriminate].
  - apply (proj2 (proj2 C10_status_overwritten_unchecked)
             (Sample.env 500 "" Sample.accept) (Sample.report "pending")
             (Sample.holding (Sample.stored "delivered")) "m1" (Sample.stored "delivered"));
      try reflexivity;
      [discriminate | apply arrayIncludes_elem; reflexivity | split; reflexivity].
Defined.

(** * Further properties of the pipeline *)

(** ** Substrings and letter case *)

Section Substrings.

Lemma app_nil_r_str (s : string) : s +:+ "" = s.
Proof. induction s as [|c s IH]; [done|]. by rewrite app_cons, IH. Qed.

Lemma app_assoc_str (a b c : string) : (a +:+ b) +:+ c = a +:+ b +:+ c.
Proof. induction a as [|x a IH]; [done|]. by rewrite !app_cons, IH. Qed.

Lemma startsWith_spec (p s : string) :
  Js.startsWith p s = true ↔ ∃ post, s = p +:+ post.
Proof.
  revert s. induction p as [|a p IH]; intros s.
  - split; [intros _; by exists s | done].
  - destruct s as [|b s]; cbn [Js.startsWith].
    + split; [done | intros [post Hpost]; by rewrite app_cons in Hpost].
    + destruct (Ascii.eqb a b) eqn:Hab.
      * apply Ascii.eqb_eq in Hab as ->. rewrite IH. split.
        -- intros [post ->]. exists post. by rewrite app_cons.
        -- intros [post Hpost]. rewrite app_cons in Hpost.
           injection Hpost as ->. by exists post.
      * apply Ascii.eqb_neq in Hab. split; [done|].
        intros [post Hpost]. rewrite app_cons in Hpost. by injection Hpost as -> _.
Qed.

(** [Js.includes] is the substring test. *)
Lemma includes_spec (s sub : string) :
  Js.includes s sub = true ↔ ∃ pre post, s = pre +:+ sub +:+ post.
Proof.
  split.
  - induction s as [|c s IH]; cbn [Js.includes].
    + rewrite orb_false_r. intros [post Hpost]%startsWith_spec. by exists "", post.
    + intros [[post Hpost]%startsWith_spec | Hrest]%orb_true_iff.
      * by exists "", post.
      * destruct (IH Hrest) as (pre & post & ->). exists (String c pre), post.
        by rewrite app_cons.
  - intros (pre & post & ->). induction pre as [|c pre IH].
    + rewrite app_empty.
      assert (Js.startsWith sub (sub +:+ post) = true) as Hstart
        by (apply startsWith_spec; by exists post).
      destruct (sub +:+ post); cbn [Js.includes]; by rewrite Hstart.
    + rewrite app_cons. cbn [Js.includes]. rewrite IH. apply orb_true_r.
Qed.

Lemma lowerChar_idemp (c : ascii) : Js.lowerChar (Js.lowerChar c) = Js.lowerChar c.
Proof. destruct c as [[] [] [] [] [] [] [] []]; reflexivity. Qed.

Lemma toLowerCase_idemp (s : string) : Js.toLowerCase (Js.toLowerCase s) = Js.toLowerCase s.
Proof.
  induction s as [|c s IH]; [done|]. cbn [Js.toLowerCase].
  by rewrite lowerChar_idemp, IH.
Qed.

Lemma toLowerCase_length (s : string) : String.length (Js.toLowerCase s) = String.length s.
Proof. induction s as [|c s IH]; [done|]. cbn. by rewrite IH. Qed.

End Substrings.

(** ** More about the compliance evaluator *)

(** A media item the screening accepts: an allowed MIME type and at most
    5 MiB. *)
Definition mediaOk (item : MediaItem) : Prop :=
  mimeType item ∈ ComplianceService.allowedTypes ∧ size item <= 5242880.

Lemma mediaOk_dec (item : MediaItem) :
  (negb (ComplianceService.arrayIncludes ComplianceService.allowedTypes (mimeType item)) = false
   ∧ (ComplianceService.maxSize <? size item) = false) ↔ mediaOk item.
Proof.
  unfold mediaOk. rewrite negb_false_iff, arrayIncludes_elem, Z.ltb_ge.
  by change ComplianceService.maxSize with 5242880.
Qed.

(** X1.  The media check approves a list exactly when every item has one
    of the five allowed MIME types and a size of at most 5242880 bytes
    (the bound itself is accepted); the empty list is approved. *)
Theorem media_approved_iff (media : list MediaItem) :
  ComplianceService.approved (ComplianceService.checkMediaContent media) = true
  ↔ Forall mediaOk media.
Proof.
  induction media as [|item rest IH]; [done|].
  cbn [ComplianceService.checkMediaContent]. rewrite Forall_cons, <- IH, <- mediaOk_dec.
  destruct (negb _); [cbn; split; [done | by intros [[? _] _]]|].
  destruct (_ <? _); [cbn; split; [done | by intros [[_ ?] _]]|].
  split; [done | by intros [_ ?]].
Qed.

(** X2.  When some item is not acceptable, the reason reported is about
    the first such item of the list, and for that item the MIME type is
    looked at before the size. *)
Theorem media_first_offender (good rest : list MediaItem) (bad : MediaItem)
    (Hgood : Forall mediaOk good) (Hbad : ¬ mediaOk bad) :
  ComplianceService.checkMediaContent (good ++ bad :: rest) =
  {| ComplianceService.approved := false;
     ComplianceService.reason :=
       if ComplianceService.arrayIncludes ComplianceService.allowedTypes (mimeType bad)
       then "Media file too large: " +:+ Js.ofNumber (size bad) +:+ " bytes"
       else "Unsupported media type: " +:+ mimeType bad |}.
Proof.
  induction Hgood as [|item good Hitem _ IH]; cbn [app ComplianceService.checkMediaContent].
  - apply (not_iff_compat (mediaOk_dec bad)) in Hbad.
    destruct (ComplianceService.arrayIncludes _ (mimeType bad)); cbn [negb] in *; [|done].
    destruct (_ <? _); [done|]. by destruct Hbad.
  - apply mediaOk_dec in Hitem as [-> ->]. exact IH.
Qed.

Lemma media_first_offender_witness :
  let jpeg := {| kind := "image"; url := "u1"; filename := "a.jpg"; size := 5242880;
                 mimeType := "image/jpeg" |} in
  let huge := {| kind := "video"; url := "u2"; filename := "b.mp4"; size := 5242881;
                 mimeType := "video/mp4" |} in
  let exe := {| kind := "document"; url := "u3"; filename := "c.exe"; size := 1;
                mimeType := "application/x-msdownload" |} in
  ComplianceService.reason (ComplianceService.checkMediaContent [jpeg; huge; exe])
  = "Media file too large: 5242881 bytes".
Proof.
  intros jpeg huge exe.
  assert (Forall mediaOk [jpeg]) as Hgood.
  { apply Forall_cons. split; [|apply Forall_nil_2].
    split; [apply arrayIncludes_elem; reflexivity | cbn; lia]. }
  assert (¬ mediaOk huge) as Hbad.
  { intros [_ Hsize]. cbn in Hsize. lia. }
  exact (f_equal ComplianceService.reason (media_first_offender [jpeg] [exe] huge Hgood Hbad)).
Defined.

(** The keywords that screening reports are those it found, whatever the
    later checks do to the reason. *)
Lemma flagged_are_found (content : Content) (client : Client.t) :
  ComplianceService.flaggedKeywords (ComplianceService.screenContent content client)
  = ComplianceService.foundKeywords content client.
Proof.
  unfold ComplianceService.screenContent.
  set (keywords := ComplianceService.foundKeywords content client).
  assert ((0 <? length keywords)%nat = false → keywords = []) as Hnone.
  { by destruct keywords. }
  destruct (0 <? length keywords)%nat; [clear Hnone | rewrite (Hnone eq_refl)].
  all: destruct (ComplianceService.approved
                  (ComplianceService.checkInappropriateContent _)),
         (0 <? length (media content))%nat,
         (ComplianceService.approved (ComplianceService.checkMediaContent (media content))),
         (1600 <? String.length (ComplianceService.loweredText content))%nat;
    reflexivity.
Qed.

(** X3.  A keyword is flagged exactly when it belongs to the list in
    force (the tenant's array, or the built-in list when the tenant has
    none) and its lower-case form occurs somewhere in the lower-cased
    text. *)
Theorem keyword_flagged_iff (content : Content) (client : Client.t) (k : string) :
  k ∈ ComplianceService.flaggedKeywords (ComplianceService.screenContent content client)
  ↔ k ∈ Js.js_or (Client.restrictedKeywords (Client.complianceSettings client))
               ComplianceService.restrictedKeywords
    ∧ ∃ pre post,
        Js.toLowerCase (default "" (text content)) = pre +:+ Js.toLowerCase k +:+ post.
Proof.
  rewrite flagged_are_found. unfold ComplianceService.foundKeywords.
  rewrite (list_elem_of_In (List.filter _ _)), filter_In, <- list_elem_of_In.
  by rewrite loweredText_spec, includes_spec.
Qed.

Lemma regexTest_iff (pattern : list string) (t : string) :
  ComplianceService.regexTest pattern t = true
  ↔ ∃ w, w ∈ pattern ∧ ∃ pre post, Js.toLowerCase t = pre +:+ w +:+ post.
Proof.
  unfold ComplianceService.regexTest. rewrite existsb_exists. split.
  - intros (w & Hw & Hin). exists w. split; [by apply list_elem_of_In | by apply includes_spec].
  - intros (w & Hw & Hin). exists w. split; [by apply list_elem_of_In | by apply includes_spec].
Qed.

Lemma inappropriateLoop_iff (patterns : list (list string)) (t : string) :
  ComplianceService.approved (ComplianceService.checkInappropriateLoop patterns t) = false
  ↔ ∃ w, w ∈ concat patterns ∧ ∃ pre post, Js.toLowerCase t = pre +:+ w +:+ post.
Proof.
  induction patterns as [|pattern rest IH]; cbn [ComplianceService.checkInappropriateLoop concat].
  - split; [done | intros (w & Hw & _); by apply elem_of_nil in Hw].
  - destruct (ComplianceService.regexTest pattern t) eqn:Htest;
      cbn [ComplianceService.approved].
    + split; [intros _ | done].
      apply regexTest_iff in Htest as (w & Hw & Hin). exists w.
      split; [apply elem_of_app; by left | done].
    + rewrite IH. split.
      * intros (w & Hw & Hin). exists w. split; [apply elem_of_app; by right | done].
      * intros (w & [Hw | Hw]%elem_of_app & Hin); [|by exists w].
        assert (ComplianceService.regexTest pattern t = true) as Habs
          by (apply regexTest_iff; by exists w).
        congruence.
Qed.

(** X4.  A text is refused as inappropriate exactly when, letter case
    aside, it contains one of the seven words of the three patterns. *)
Theorem inappropriate_iff (t : string) :
  ComplianceService.approved (ComplianceService.checkInappropriateContent t) = false
  ↔ ∃ w, w ∈ ["underage"; "minor"; "child"; "illegal"; "unlawful"; "addiction"; "addict"]
         ∧ ∃ pre post, Js.toLowerCase t = pre +:+ w +:+ post.
Proof. apply (inappropriateLoop_iff ComplianceService.inappropriatePatterns). Qed.

(** The evaluator on a tenant that has no disclaimer list at all: the
    built-in list is consulted, and reading the length of the missing
    list throws unless one of its disclaimers was found. *)
Lemma verdict_of_absent
    (hour : Z) (client : Client.t) (recipient : Recipient) (content : Content) :
  Client.requiredDisclaimers (Client.complianceSettings client) = None →
  let ageOk := ComplianceService.verified (ComplianceService.verifyAge recipient client) in
  let consentOk := ComplianceService.verified (ComplianceService.verifyConsent recipient client) in
  let screening := ComplianceService.screenContent content client in
  let hoursOk := ComplianceService.checkBusinessHours hour client in
  ComplianceService.checkMessageCompliance hour client recipient content =
  if ComplianceService.included (ComplianceService.checkDisclaimers content client) then
    {| ComplianceService.passed :=
         ageOk && consentOk && ComplianceService.s_approved screening && hoursOk;
       ComplianceService.ageVerified := ageOk;
       ComplianceService.consentVerified := consentOk;
       ComplianceService.contentScreened := ComplianceService.screened screening;
       ComplianceService.disclaimersIncluded := true;
       ComplianceService.details :=
         reasonIf (negb ageOk) "Age verification required"
         ++ reasonIf (negb consentOk) "Consent verification required"
         ++ reasonIf (negb (ComplianceService.s_approved screening))
              ("Content failed screening: " +:+ ComplianceService.s_reason screening)
         ++ reasonIf (negb hoursOk) "Messages not allowed outside business hours";
       ComplianceService.screeningResults := None |}
  else
    {| ComplianceService.passed := false;
       ComplianceService.ageVerified := false;
       ComplianceService.consentVerified := false;
       ComplianceService.contentScreened := false;
       ComplianceService.disclaimersIncluded := false;
       ComplianceService.details :=
         ["Compliance check failed: " +:+ ComplianceService.lengthOfUndefined];
       ComplianceService.screeningResults := Some None |}.
Proof.
  intros Habsent ageOk consentOk screening hoursOk.
  unfold ComplianceService.checkMessageCompliance, ComplianceService.checkMessageComplianceTry.
  rewrite Habsent. fold ageOk consentOk screening hoursOk.
  destruct (ComplianceService.included _); [|reflexivity].
  destruct ageOk, consentOk, (ComplianceService.s_approved screening), hoursOk; reflexivity.
Qed.

(** X5.  A verdict that passed means: the recipient is age-verified if
    the tenant requires it and has consented if the tenant requires it,
    the content was approved by screening, the clock hour lies in
    [9, 21), the verdict's two verification flags are set and it lists no
    reason.  This holds for every tenant, with or without lists. *)
Theorem passed_verdict
    (hour : Z) (client : Client.t) (recipient : Recipient) (content : Content)
    (Hpassed : ComplianceService.passed
                 (ComplianceService.checkMessageCompliance hour client recipient content) = true) :
  let v := ComplianceService.checkMessageCompliance hour client recipient content in
  (Client.ageVerificationRequired (Client.complianceSettings client) = true →
   ageVerified recipient = true)
  ∧ (Client.consentRequired (Client.complianceSettings client) = true →
     consentGiven recipient = true)
  ∧ ComplianceService.s_approved (ComplianceService.screenContent content client) = true
  ∧ 9 <= hour < 21
  ∧ ComplianceService.ageVerified v = true
  ∧ ComplianceService.consentVerified v = true
  ∧ ComplianceService.details v = [].
Proof.
  intros v. subst v. revert Hpassed.
  assert (∀ b, ComplianceService.verified (ComplianceService.verifyAge recipient client) = b →
               b = true →
               Client.ageVerificationRequired (Client.complianceSettings client) = true →
               ageVerified recipient = true) as Hage.
  { intros b <-. unfold ComplianceService.verifyAge.
    destruct (Client.ageVerificationRequired _), (ageVerified recipient); done. }
  assert (∀ b, ComplianceService.verified (ComplianceService.verifyConsent recipient client) = b →
               b = true →
               Client.consentRequired (Client.complianceSettings client) = true →
               consentGiven recipient = true) as Hconsent.
  { intros b <-. unfold ComplianceService.verifyConsent.
    destruct (Client.consentRequired _), (consentGiven recipient); done. }
  assert (ComplianceService.checkBusinessHours hour client = true → 9 <= hour < 21) as Hhours.
  { unfold ComplianceService.checkBusinessHours, ComplianceService.businessStart,
      ComplianceService.businessEnd. rewrite andb_true_iff, Z.leb_le, Z.ltb_lt. done. }
  destruct (Client.requiredDisclaimers (Client.complianceSettings client)) as [l|] eqn:Hl.
  - rewrite (verdict_of_array hour client recipient content l Hl).
    cbn [ComplianceService.passed ComplianceService.ageVerified
         ComplianceService.consentVerified ComplianceService.details].
    specialize (Hage _ eq_refl). specialize (Hconsent _ eq_refl).
    destruct (ComplianceService.verified (ComplianceService.verifyAge _ _)),
      (ComplianceService.verified (ComplianceService.verifyConsent _ _)),
      (ComplianceService.s_approved _),
      (negb (ComplianceService.included _) && _),
      (ComplianceService.checkBusinessHours _ _); try done.
    intros _. repeat split; auto; by apply Hhours.
  - rewrite (verdict_of_absent hour client recipient content Hl).
    specialize (Hage _ eq_refl). specialize (Hconsent _ eq_refl).
    destruct (ComplianceService.included _); [|done].
    cbn [ComplianceService.passed ComplianceService.ageVerified
         ComplianceService.consentVerified ComplianceService.details].
    destruct (ComplianceService.verified (ComplianceService.verifyAge _ _)),
      (ComplianceService.verified (ComplianceService.verifyConsent _ _)),
      (ComplianceService.s_approved _),
      (ComplianceService.checkBusinessHours _ _); try done.
    intros _. repeat split; auto; by apply Hhours.
Qed.

Lemma passed_verdict_witness :
  ComplianceService.details
    (ComplianceService.checkMessageCompliance 20 Sample.tenant (Sample.person true true)
       (Sample.say "Store opens at nine")) = [].
Proof.
  apply (passed_verdict 20 Sample.tenant (Sample.person true true)
           (Sample.say "Store opens at nine")).
  reflexivity.
Defined.

(** X6.  For a tenant with no disclaimer list at all, a text in which
    none of the five built-in disclaimers occurs makes the evaluation
    throw; the verdict is then the terminal failure: not passed, every
    flag false (also for a verified recipient), and the single reason is
    the error's description. *)
Theorem absent_list_fails_evaluation
    (hour : Z) (client : Client.t) (recipient : Recipient) (content : Content)
    (Habsent : Client.requiredDisclaimers (Client.complianceSettings client) = None)
    (Hnone : ∀ d, d ∈ ComplianceService.requiredDisclaimers →
                  Js.includes (Js.toLowerCase (default "" (text content))) (Js.toLowerCase d)
                  = false) :
  ComplianceService.checkMessageCompliance hour client recipient content =
  {| ComplianceService.passed := false;
     ComplianceService.ageVerified := false;
     ComplianceService.consentVerified := false;
     ComplianceService.contentScreened := false;
     ComplianceService.disclaimersIncluded := false;
     ComplianceService.details :=
       ["Compliance check failed: " +:+ ComplianceService.lengthOfUndefined];
     ComplianceService.screeningResults := Some None |}.
Proof.
  rewrite (verdict_of_absent hour client recipient content Habsent).
  assert (ComplianceService.included (ComplianceService.checkDisclaimers content client) = false)
    as ->; [|reflexivity].
  unfold ComplianceService.checkDisclaimers. rewrite Habsent.
  cbn [Js.js_or ComplianceService.included]. rewrite loweredText_spec.
  apply filter_nil_iff in Hnone. by rewrite Hnone.
Qed.

Lemma absent_list_fails_evaluation_witness :
  ComplianceService.passed
    (ComplianceService.checkMessageCompliance 12 (Sample.tenantWith None None)
       (Sample.person true true) (Sample.say "hello")) = false.
Proof.
  rewrite (absent_list_fails_evaluation 12 (Sample.tenantWith None None)
             (Sample.person true true) (Sample.say "hello") eq_refl); [reflexivity|].
  intros d Hd. apply arrayIncludes_elem in Hd.
  unfold ComplianceService.arrayIncludes, ComplianceService.requiredDisclaimers in Hd.
  cbn [existsb] in Hd.
  repeat (apply orb_true_iff in Hd as [Hd | Hd]; [apply eqb_true in Hd as ->; reflexivity|]).
  discriminate Hd.
Defined.

(** X7.  The evaluator looks at the text through [toLowerCase] only: two
    contents with the same media whose texts agree up to letter case get
    the same verdict. *)
Theorem verdict_ignores_case
    (hour : Z) (client : Client.t) (recipient : Recipient) (c1 c2 : Content)
    (Htext : Js.toLowerCase (default "" (text c1)) = Js.toLowerCase (default "" (text c2)))
    (Hmedia : media c1 = media c2) :
  ComplianceService.checkMessageCompliance hour client recipient c1
  = ComplianceService.checkMessageCompliance hour client recipient c2.
Proof.
  rewrite <- !loweredText_spec in Htext.
  unfold ComplianceService.checkMessageCompliance, ComplianceService.checkMessageComplianceTry,
    ComplianceService.screenContent, ComplianceService.foundKeywords,
    ComplianceService.checkDisclaimers.
  by rewrite Htext, Hmedia.
Qed.

Lemma verdict_ignores_case_witness :
  ComplianceService.checkMessageCompliance 12 (Sample.tenantWith (Some ["weed"]) (Some ["21+ Only"]))
    (Sample.person true true) (Sample.say "Fresh WEED, 21+ only")
  = ComplianceService.checkMessageCompliance 12 (Sample.tenantWith (Some ["weed"]) (Some ["21+ Only"]))
      (Sample.person true true) (Sample.say "fresh weed, 21+ ONLY").
Proof.
  apply (verdict_ignores_case 12 (Sample.tenantWith (Some ["weed"]) (Some ["21+ Only"]))
           (Sample.person true true)); reflexivity.
Defined.

(** ** More about the provider adapter *)


(** X9.  A number that [formatPhoneNumber] returns starts with the plus
    sign, is itself a valid number, and is returned unchanged when it is
    formatted again. *)
Theorem formatPhoneNumber_idempotent (p provider provider' q : string)
    (Hformat : formatPhoneNumber p provider = Ok q) :
  Js.startsWith "+" q = true
  ∧ validatePhoneNumber q = true
  ∧ formatPhoneNumber q provider' = Ok q.
Proof.
  destruct (formatPhoneNumber_valid p provider q Hformat) as [Hplus Hvalid].
  split; [done|]. split; [done|].
  unfold formatPhoneNumber. by rewrite Hvalid, Hplus.
Qed.

Lemma formatPhoneNumber_idempotent_witness :
  formatPhoneNumber "+442071838750" "bandwidth" = Ok "+442071838750".
Proof.
  apply (formatPhoneNumber_idempotent "442071838750" "twilio" "bandwidth" "+442071838750").
  reflexivity.
Defined.

(** ** More about the routes *)

(** The document the send route builds (lines 104-122) from the request,
    the resolved content and the verdict. *)
Definition draftOf (req : Routes.SendRequest) (messageContent : Content)
    (complianceResult : ComplianceService.Verdict) : Message.t :=
  {| Message.clientId := Routes.clientId req;
     Message.userId := Routes.userId req;
     Message.recipient :=
       {| phoneNumber := phoneNumber (Routes.recipient req);
          name := name (Routes.recipient req);
          ageVerified := ComplianceService.ageVerified complianceResult;
          consentGiven := ComplianceService.consentVerified complianceResult;
          consentDate := consentDate (Routes.recipient req);
          optOutStatus := optOutStatus (Routes.recipient req) |};
     Message.content := messageContent;
     Message.delivery := Message.defaultDelivery;
     Message.compliance :=
       {| Message.ageVerificationPassed := ComplianceService.ageVerified complianceResult;
          Message.consentVerified := ComplianceService.consentVerified complianceResult;
          Message.contentScreened := ComplianceService.contentScreened complianceResult;
          Message.disclaimersIncluded := ComplianceService.disclaimersIncluded complianceResult |};
     Message.scheduling :=
       default {| Message.scheduledFor := None; Message.isScheduled := false |}
               (Routes.scheduling req) |}.

(** The properties of [additionalData] that the routes pass. *)
Definition benign (p : Message.DeliveryProp) : bool :=
  match p with
  | Message.PProviderMessageId _ | Message.PProviderResponse _
  | Message.PFailureReason _ => true
  | _ => false
  end.

(** The document after [this.delivery.retryCount += 1]. *)
Definition bump (m : Message.t) : Message.t :=
  Message.withDelivery m
    (Message.assignProp (Message.delivery m)
       (Message.PRetryCount (Message.retryCount (Message.delivery m) + 1))).

(** One change a route makes to a stored message: a status update with
    benign additional data, or a retry increment. *)
Inductive op : Message.t → Message.t → Prop :=
| op_mark status additionalData now m :
    forallb benign additionalData = true →
    op m (Message.setDeliveryStatus status additionalData now m)
| op_bump m : op m (bump m).

(** [m'] was written over [m] by a save that passed validation. *)
Definition rewritten (m m' : Message.t) : Prop :=
  rtc op m m' ∧ Message.validate false m' = Ok ().

Section RouteEffects.

Implicit Types (st : Routes.State) (env : Routes.Env) (m message : Message.t).

Lemma benign_plain additionalData :
  forallb benign additionalData = true → forallb plain additionalData = true.
Proof.
  induction additionalData as [|p rest IH]; [done|]. cbn [forallb].
  rewrite !andb_true_iff. intros [Hp Hrest]. split; [by destruct p | by apply IH].
Qed.

Lemma save_validated isNew id this db db' :
  Message.save isNew id this db = Ok db' → Message.validate isNew this = Ok ().
Proof.
  unfold Message.save. by destruct (Message.validate isNew this) as [[]|].
Qed.

Lemma validate_weaken this :
  Message.validate true this = Ok () → Message.validate false this = Ok ().
Proof.
  unfold Message.validate. destruct (negb _); [done|]. cbn [andb].
  by destruct (negb (validatePhoneNumber _)).
Qed.

Lemma validate_iff isNew this :
  Message.validate isNew this = Ok () ↔
  Message.status (Message.delivery this) ∈ Message.statusEnum
  ∧ (isNew = true → validatePhoneNumber (phoneNumber (Message.recipient this)) = true).
Proof.
  unfold Message.validate. rewrite <- arrayIncludes_elem.
  destruct (ComplianceService.arrayIncludes _ _); cbn [negb];
    [| split; [done | by intros [? _]]].
  destruct isNew, (validatePhoneNumber _); cbn; split; try done.
  intros [_ H]. by specialize (H eq_refl).
Qed.

Lemma update_rewrites status additionalData now id m db m' db' :
  forallb benign additionalData = true →
  Message.updateDeliveryStatus status additionalData now id m db = (m', Ok db') →
  db' = <[id := m']> db ∧ op m m' ∧ Message.validate false m' = Ok ().
Proof.
  intros Hbenign Hu. unfold Message.updateDeliveryStatus in Hu.
  injection Hu as <- Hsave. pose proof (save_validated _ _ _ _ _ Hsave) as Hv.
  apply save_Ok in Hsave as (-> & _). split; [done|]. split; [by constructor | done].
Qed.

Lemma update_fst status additionalData now id m db :
  forallb benign additionalData = true →
  op m (Message.updateDeliveryStatus status additionalData now id m db).1.
Proof. intros Hbenign. by constructor. Qed.

(** The dispatch after a save: the store is untouched or the message
    under [id] was rewritten. *)
Lemma sendNow_rewrites env req client id message st :
  let st' := (Routes.sendNow env req client id message st).1 in
  Routes.messages st' = Routes.messages st
  ∨ ∃ m', Routes.messages st' = <[id := m']> (Routes.messages st) ∧ rewritten message m'.
Proof.
  cbv zeta. unfold Routes.sendNow.
  destruct (MMSService.sendMessage _ _ _) as [sendResult|e].
  - destruct (Message.updateDeliveryStatus "sent" _ _ _ _ _) as [m1 [db1|e1]] eqn:Hsent.
    + apply update_rewrites in Hsent as (-> & Hop & Hv); [|done]. right.
      eexists. split; [done|]. split; [by apply rtc_once | done].
    + assert (op message m1) as Hop1.
      { replace m1 with (Message.updateDeliveryStatus "sent"
          [Message.PProviderMessageId (Some (MMSService.messageId sendResult));
           Message.PProviderResponse (Some (MMSService.response sendResult))]
          (Routes.now env) id message (Routes.messages st)).1 by (by rewrite Hsent).
        by apply update_fst. }
      destruct (Message.updateDeliveryStatus "failed" _ _ _ _ _) as [m2 [db2|e2]] eqn:Hfailed;
        [|by left].
      apply update_rewrites in Hfailed as (-> & Hop & Hv); [|done]. right.
      exists m2. split; [done|]. split; [|done].
      eapply rtc_l; [exact Hop1 | by apply rtc_once].
  - destruct (Message.updateDeliveryStatus "failed" _ _ _ _ _) as [m2 [db2|e2]] eqn:Hfailed;
      [|by left].
    apply update_rewrites in Hfailed as (-> & Hop & Hv); [|done]. right.
    exists m2. split; [done|]. split; [by apply rtc_once | done].
Qed.

(** The send route past its gates. *)
Lemma send_after_gates env req st client messageContent :
  Routes.validationErrors req = [] →
  Routes.clients st !! Routes.clientId req = Some client →
  Client.canSendMessage client = true →
  Routes.optedOut (Routes.messages st) (phoneNumber (Routes.recipient req)) = false →
  Routes.resolveContent env req = inr messageContent →
  let v := ComplianceService.checkMessageCompliance (Routes.hour env) client
             (Routes.recipient req) messageContent in
  ComplianceService.passed v = true →
  Routes.send env req st =
  match Message.save true (Routes.freshId env) (draftOf req messageContent v)
          (Routes.messages st) with
  | Err _ => (st, Routes.serverError)
  | Ok db =>
      if negb (from_option Message.isScheduled false (Routes.scheduling req)) then
        Routes.sendNow env req client (Routes.freshId env) (draftOf req messageContent v)
          (Routes.withMessages st db)
      else
        (Routes.withMessages st db,
         {| Routes.code := 200;
            Routes.json :=
              [("message", Routes.JStr "Message scheduled successfully");
               ("messageId", Routes.JStr (Routes.freshId env));
               ("status", Routes.JStr "scheduled");
               ("scheduledFor",
                Routes.JDate (from_option Message.scheduledFor None (Routes.scheduling req)))] |})
  end.
Proof.
  intros Hvalid Hclient Hcan Hopt Hcontent v Hpassed. unfold Routes.send.
  rewrite Hvalid, Hclient, Hcan, Hopt, Hcontent. fold v. rewrite Hpassed.
  by rewrite bool_decide_eq_true_2.
Qed.

(** A document the send route is about to store for the first time. *)
Definition asDrafted (env : Routes.Env) (req : Routes.SendRequest) (st : Routes.State)
    (m0 : Message.t) : Prop :=
  ∃ client messageContent,
    Routes.clients st !! Routes.clientId req = Some client
    ∧ Client.canSendMessage client = true
    ∧ Routes.optedOut (Routes.messages st) (phoneNumber (Routes.recipient req)) = false
    ∧ Routes.resolveContent env req = inr messageContent
    ∧ ComplianceService.passed
        (ComplianceService.checkMessageCompliance (Routes.hour env) client
           (Routes.recipient req) messageContent) = true
    ∧ m0 = draftOf req messageContent
             (ComplianceService.checkMessageCompliance (Routes.hour env) client
                (Routes.recipient req) messageContent)
    ∧ Message.validate true m0 = Ok ().

Lemma send_rewrites env req st :
  let st' := (Routes.send env req st).1 in
  Routes.messages st' = Routes.messages st
  ∨ (Routes.messages st !! Routes.freshId env = None
     ∧ ∃ m0 m', Routes.messages st' = <[Routes.freshId env := m']> (Routes.messages st)
                ∧ asDrafted env req st m0 ∧ rewritten m0 m').
Proof.
  cbv zeta.
  destruct (decide (Routes.validationErrors req = [])) as [Hvalid|Hvalid];
    [| unfold Routes.send; rewrite bool_decide_eq_false_2 by done; by left ].
  destruct (Routes.clients st !! Routes.clientId req) as [client|] eqn:Hclient;
    [| unfold Routes.send; rewrite Hvalid, Hclient; by left ].
  destruct (Client.canSendMessage client) eqn:Hcan;
    [| unfold Routes.send; rewrite Hvalid, Hclient, Hcan; by left ].
  destruct (Routes.optedOut (Routes.messages st) (phoneNumber (Routes.recipient req))) eqn:Hopt;
    [ unfold Routes.send; rewrite Hvalid, Hclient, Hcan, Hopt; by left |].
  destruct (Routes.resolveContent env req) as [response|messageContent] eqn:Hcontent;
    [ unfold Routes.send; rewrite Hvalid, Hclient, Hcan, Hopt, Hcontent; by left |].
  destruct (ComplianceService.passed
              (ComplianceService.checkMessageCompliance (Routes.hour env) client
                 (Routes.recipient req) messageContent)) eqn:Hpassed;
    [| unfold Routes.send; rewrite Hvalid, Hclient, Hcan, Hopt, Hcontent, Hpassed; by left ].
  rewrite (send_after_gates env req st client messageContent) by done.
  set (m0 := draftOf _ _ _).
  destruct (Message.save true _ m0 _) as [db|e] eqn:Hsave; [|by left].
  pose proof (save_validated _ _ _ _ _ Hsave) as Hv.
  apply save_Ok in Hsave as (-> & _ & Hfree). specialize (Hfree eq_refl).
  right. split; [done|].
  assert (asDrafted env req st m0) as Hdraft by (by exists client, messageContent).
  destruct (negb _).
  - destruct (sendNow_rewrites env req client (Routes.freshId env) m0
                (Routes.withMessages st (<[Routes.freshId env := m0]> (Routes.messages st))))
      as [-> | (m' & -> & Hrw)]; cbn [Routes.withMessages Routes.messages].
    + exists m0, m0. split; [done|]. split; [done|]. split; [done | by apply validate_weaken].
    + exists m0, m'. by rewrite insert_insert_eq.
  - exists m0, m0. split; [done|]. split; [done|]. split; [done | by apply validate_weaken].
Qed.

Lemma retry_rewrites env req st :
  let st' := (Routes.retry env req st).1 in
  Routes.messages st' = Routes.messages st
  ∨ ∃ m m', Routes.messages st !! Routes.messageId req = Some m
            ∧ Routes.messages st' = <[Routes.messageId req := m']> (Routes.messages st)
            ∧ rewritten m m'.
Proof.
  cbv zeta. unfold Routes.retry.
  destruct (Routes.findOwned _ _) as [m|] eqn:Hfind; [|by left].
  apply findOwned_Some in Hfind as [Hm _].
  destruct (negb (Message.canRetry m)); [by left|].
  destruct (Routes.clients st !! _) as [client|]; [|by left].
  destruct (negb (Client.canSendMessage client)); [by left|].
  destruct (Message.incrementRetry _ _ _) as [m1 [db1|e1]] eqn:Hinc; [|by left].
  unfold Message.incrementRetry in Hinc. injection Hinc as <- Hsave.
  fold (bump m) in Hsave |- *.
  pose proof (save_validated _ _ _ _ _ Hsave) as Hv1.
  apply save_Ok in Hsave as (-> & _ & _).
  destruct (sendNow_rewrites env
              {| Routes.validationErrors := []; Routes.userId := "";
                 Routes.clientId := Routes.forClient req;
                 Routes.recipient := Message.recipient m; Routes.content := Message.content m;
                 Routes.scheduling := None |}
              client (Routes.messageId req) (bump m)
              (Routes.withMessages st (<[Routes.messageId req := bump m]> (Routes.messages st))))
    as [Hsame | (m' & Heq & Hrw & Hv)].
  - right. exists m, (bump m). split; [done|]. split.
    + unfold Routes.sendNow in Hsame. cbn [Routes.withMessages Routes.messages] in Hsame |- *.
      destruct (MMSService.sendMessage _ _ _) as [sendResult|e].
      * destruct (Message.updateDeliveryStatus "sent" _ _ _ _ _) as [m2 [db2|e2]].
        -- exact Hsame.
        -- destruct (Message.updateDeliveryStatus "failed" _ _ _ _ _) as [m3 [db3|e3]];
             exact Hsame.
      * destruct (Message.updateDeliveryStatus "failed" _ _ _ _ _) as [m3 [db3|e3]];
          exact Hsame.
    + split; [apply rtc_once; constructor | done].
  - right. exists m, m'. split; [done|]. split.
    + unfold Routes.sendNow in Heq. cbn [Routes.withMessages Routes.messages] in Heq |- *.
      rewrite insert_insert_eq in Heq.
      destruct (MMSService.sendMessage _ _ _) as [sendResult|e].
      * destruct (Message.updateDeliveryStatus "sent" _ _ _ _ _) as [m2 [db2|e2]].
        -- exact Heq.
        -- destruct (Message.updateDeliveryStatus "failed" _ _ _ _ _) as [m3 [db3|e3]];
             exact Heq.
      * destruct (Message.updateDeliveryStatus "failed" _ _ _ _ _) as [m3 [db3|e3]];
          exact Heq.
    + split; [|done]. eapply rtc_l; [apply op_bump | done].
Qed.

Lemma webhook_rewrites env req st :
  let st' := (Routes.webhook env req st).1 in
  Routes.messages st' = Routes.messages st
  ∨ ∃ id m m', Routes.messages st !! id = Some m
               ∧ Routes.messages st' = <[id := m']> (Routes.messages st)
               ∧ rewritten m m'.
Proof.
  cbv zeta. unfold Routes.webhook.
  destruct (negb (Js.truthy_str _)); [by left|].
  destruct (Routes.messages st !! _) as [m|] eqn:Hm; [|by left].
  destruct (Message.updateDeliveryStatus _ _ _ _ _ _) as [m1 [db1|e1]] eqn:Hu; [|by left].
  apply update_rewrites in Hu as (-> & Hop & Hv); [|done]. right.
  eexists _, m, _. split; [done|]. split; [done|]. split; [by apply rtc_once | done].
Qed.

(** One request and a message that is stored before and after it. *)
Lemma step_rewrites st a id m m' :
  Routes.messages st !! id = Some m →
  Routes.messages (Routes.step st a).1 !! id = Some m' →
  m' = m ∨ rewritten m m'.
Proof.
  intros Hm Hm'.
  destruct a as [env req | env req | req | env req]; cbn [Routes.step] in Hm'.
  - destruct (send_rewrites env req st) as [Heq | (Hfree & m0 & m1 & Heq & _)];
      rewrite Heq in Hm'.
    + left. by simplify_eq.
    + destruct (decide (Routes.freshId env = id)) as [<- | Hne]; [congruence|].
      rewrite lookup_insert_ne in Hm' by done. left. by simplify_eq.
  - destruct (retry_rewrites env req st) as [Heq | (m0 & m1 & Hm0 & Heq & Hrw)];
      rewrite Heq in Hm'.
    + left. by simplify_eq.
    + destruct (decide (Routes.messageId req = id)) as [<- | Hne].
      * rewrite lookup_insert_eq in Hm'. right. by simplify_eq.
      * rewrite lookup_insert_ne in Hm' by done. left. by simplify_eq.
  - destruct (cancel_effect req st) as [Heq | Heq]; rewrite Heq in Hm'.
    + left. by simplify_eq.
    + apply lookup_delete_Some in Hm' as [_ Hm']. left. by simplify_eq.
  - destruct (webhook_rewrites env req st) as [Heq | (id0 & m0 & m1 & Hm0 & Heq & Hrw)];
      rewrite Heq in Hm'.
    + left. by simplify_eq.
    + destruct (decide (id0 = id)) as [<- | Hne].
      * rewrite lookup_insert_eq in Hm'. right. by simplify_eq.
      * rewrite lookup_insert_ne in Hm' by done. left. by simplify_eq.
Qed.

(** One request and a message that is stored only after it. *)
Lemma step_creates st a id m' :
  Routes.messages st !! id = None →
  Routes.messages (Routes.step st a).1 !! id = Some m' →
  ∃ env req m0, a = Routes.Send env req ∧ id = Routes.freshId env
                ∧ asDrafted env req st m0 ∧ rewritten m0 m'.
Proof.
  intros Hm Hm'.
  destruct a as [env req | env req | req | env req]; cbn [Routes.step] in Hm'.
  - destruct (send_rewrites env req st) as [Heq | (Hfree & m0 & m1 & Heq & Hdraft & Hrtc)];
      rewrite Heq in Hm'; [congruence|].
    destruct (decide (Routes.freshId env = id)) as [<- | Hne].
    + rewrite lookup_insert_eq in Hm'. simplify_eq. by exists env, req, m0.
    + rewrite lookup_insert_ne in Hm' by done. congruence.
  - destruct (retry_rewrites env req st) as [Heq | (m0 & m1 & Hm0 & Heq & _)];
      rewrite Heq in Hm'; [congruence|].
    destruct (decide (Routes.messageId req = id)) as [<- | Hne]; [congruence|].
    rewrite lookup_insert_ne in Hm' by done. congruence.
  - destruct (cancel_effect req st) as [Heq | Heq]; rewrite Heq in Hm'; [congruence|].
    apply lookup_delete_Some in Hm' as [_ Hm']. congruence.
  - destruct (webhook_rewrites env req st) as [Heq | (id0 & m0 & m1 & Hm0 & Heq & _)];
      rewrite Heq in Hm'; [congruence|].
    destruct (decide (id0 = id)) as [<- | Hne]; [congruence|].
    rewrite lookup_insert_ne in Hm' by done. congruence.
Qed.

End RouteEffects.

(** The time stamp that belongs to the status is there. *)
Definition stamped (m : Message.t) : Prop :=
  (Message.status (Message.delivery m) = "sent" → is_Some (Message.sentAt (Message.delivery m)))
  ∧ (Message.status (Message.delivery m) = "delivered" →
     is_Some (Message.deliveredAt (Message.delivery m))).

Definition wellFormed (m : Message.t) : Prop :=
  Message.status (Message.delivery m) ∈ Message.statusEnum
  ∧ validatePhoneNumber (phoneNumber (Message.recipient m)) = true
  ∧ stamped m.

Section Rewrites.

Implicit Types (m : Message.t) (d : Message.Delivery).

Lemma objectAssign_benign d additionalData :
  forallb benign additionalData = true →
  let d' := Message.objectAssign d additionalData in
  Message.status d' = Message.status d
  ∧ Message.sentAt d' = Message.sentAt d
  ∧ Message.deliveredAt d' = Message.deliveredAt d
  ∧ Message.retryCount d' = Message.retryCount d
  ∧ Message.maxRetries d' = Message.maxRetries d.
Proof.
  cbv zeta. unfold Message.objectAssign. revert d.
  induction additionalData as [|p rest IH]; intros d Hb; [done|].
  cbn [forallb] in Hb. apply andb_true_iff in Hb as [Hp Hrest].
  cbn [fold_left]. destruct (IH (Message.assignProp d p) Hrest) as (-> & -> & -> & -> & ->).
  destruct d, p; done.
Qed.

(** A status update with benign data: the new status, the stamp of the
    new status, and nothing else of what the lifecycle reads. *)
Lemma mark_delivery status additionalData now m :
  forallb benign additionalData = true →
  let d' := Message.delivery (Message.setDeliveryStatus status additionalData now m) in
  Message.status d' = status
  ∧ Message.sentAt d'
    = (if String.eqb status "sent" then Some now else Message.sentAt (Message.delivery m))
  ∧ Message.deliveredAt d'
    = (if String.eqb status "sent" then Message.deliveredAt (Message.delivery m)
       else if String.eqb status "delivered" then Some now
            else Message.deliveredAt (Message.delivery m))
  ∧ Message.retryCount d' = Message.retryCount (Message.delivery m)
  ∧ Message.maxRetries d' = Message.maxRetries (Message.delivery m).
Proof.
  intros Hb. cbv zeta. unfold Message.setDeliveryStatus.
  cbn [Message.withDelivery Message.delivery].
  match goal with
  | |- context [Message.objectAssign ?d additionalData] =>
      destruct (objectAssign_benign d additionalData Hb) as (-> & -> & -> & -> & ->)
  end.
  destruct (Message.delivery m), (String.eqb status "sent"),
    (String.eqb status "delivered"); done.
Qed.

Lemma op_shape m m' : op m m' → m' = Message.withDelivery m (Message.delivery m').
Proof. intros [status additionalData now m0 _ | m0]; by destruct m0. Qed.

Lemma op_counters m m' :
  op m m' →
  Message.maxRetries (Message.delivery m') = Message.maxRetries (Message.delivery m)
  ∧ Message.retryCount (Message.delivery m) <= Message.retryCount (Message.delivery m').
Proof.
  intros [status additionalData now m0 Hb | m0].
  - destruct (mark_delivery status additionalData now m0 Hb) as (_ & _ & _ & -> & ->). lia.
  - destruct m0 as [? ? ? ? [] ? ?]. cbn. lia.
Qed.

Lemma op_stamped m m' : op m m' → stamped m → stamped m'.
Proof.
  intros [status additionalData now m0 Hb | m0] [Hsent Hdelivered]; unfold stamped.
  - destruct (mark_delivery status additionalData now m0 Hb) as (-> & -> & -> & _).
    split; intros ->; cbn; done.
  - destruct m0 as [? ? ? ? [] ? ?]. by split.
Qed.

Lemma rtc_op_shape m m' : rtc op m m' → m' = Message.withDelivery m (Message.delivery m').
Proof.
  induction 1 as [m | m1 m2 m3 Hop _ IH]; [by destruct m|].
  rewrite IH. apply op_shape in Hop. rewrite Hop. by destruct m1.
Qed.

Lemma rtc_op_counters m m' :
  rtc op m m' →
  Message.maxRetries (Message.delivery m') = Message.maxRetries (Message.delivery m)
  ∧ Message.retryCount (Message.delivery m) <= Message.retryCount (Message.delivery m').
Proof.
  induction 1 as [m | m1 m2 m3 Hop _ [IHmax IHcount]]; [split; [done | lia]|].
  apply op_counters in Hop as [Hmax Hcount]. split; [congruence | lia].
Qed.

Lemma rtc_op_stamped m m' : rtc op m m' → stamped m → stamped m'.
Proof. induction 1 as [|m1 m2 m3 Hop _ IH]; [done|]. intros H. eauto using op_stamped. Qed.

End Rewrites.

(** X10.  No request changes anything of a stored message but its
    delivery sub-record: recipient, content, compliance sub-record,
    scheduling, owner and author of a message that is stored before and
    after a request are the same, its retry bound is the same and its
    retry counter has not gone down. *)
Theorem stored_message_keeps_its_body
    (st : Routes.State) (a : Routes.Action) (id : string) (m m' : Message.t)
    (Hbefore : Routes.messages st !! id = Some m)
    (Hafter : Routes.messages (Routes.step st a).1 !! id = Some m') :
  Message.recipient m' = Message.recipient m
  ∧ Message.content m' = Message.content m
  ∧ Message.compliance m' = Message.compliance m
  ∧ Message.scheduling m' = Message.scheduling m
  ∧ Message.clientId m' = Message.clientId m
  ∧ Message.userId m' = Message.userId m
  ∧ Message.maxRetries (Message.delivery m') = Message.maxRetries (Message.delivery m)
  ∧ Message.retryCount (Message.delivery m) <= Message.retryCount (Message.delivery m').
Proof.
  destruct (step_rewrites st a id m m' Hbefore Hafter) as [-> | [Hrtc _]].
  - repeat split; [done..|lia].
  - destruct (rtc_op_counters _ _ Hrtc) as [Hmax Hcount].
    apply rtc_op_shape in Hrtc. rewrite Hrtc at 1 2 3 4 5 6.
    by destruct m.
Qed.

Lemma stored_message_keeps_its_body_witness :
  let st := Sample.holding (Sample.stored "sent") in
  let st' := (Routes.step st (Routes.Webhook (Sample.env 300 "" Sample.accept)
                                (Sample.report "delivered"))).1 in
  ∃ m', Routes.messages st' !! "m1" = Some m'
        ∧ Message.status (Message.delivery m') = "delivered"
        ∧ Message.recipient m' = Message.recipient (Sample.stored "sent")
        ∧ Message.content m' = Message.content (Sample.stored "sent").
Proof.
  eexists. split; [reflexivity|]. split; [reflexivity|].
  destruct (stored_message_keeps_its_body (Sample.holding (Sample.stored "sent"))
              (Routes.Webhook (Sample.env 300 "" Sample.accept) (Sample.report "delivered"))
              "m1" (Sample.stored "sent") _ eq_refl eq_refl) as (Hr & Hc & _).
  split; [exact Hr | exact Hc].
Defined.

Section WellFormed.

Lemma drafted_wellFormed env req st m0 m' :
  asDrafted env req st m0 → rewritten m0 m' → wellFormed m'.
Proof.
  intros (client & messageContent & _ & _ & _ & _ & _ & -> & Hv) [Hrtc Hv'].
  apply validate_iff in Hv as [_ Hphone]. specialize (Hphone eq_refl).
  apply validate_iff in Hv' as [Henum _].
  split; [done|]. split.
  - apply rtc_op_shape in Hrtc. rewrite Hrtc. exact Hphone.
  - apply (rtc_op_stamped _ _ Hrtc). split; discriminate.
Qed.

Lemma rewritten_wellFormed m m' : wellFormed m → rewritten m m' → wellFormed m'.
Proof.
  intros (_ & Hphone & Hstamped) [Hrtc Hv'].
  apply validate_iff in Hv' as [Henum _].
  split; [done|]. split.
  - apply rtc_op_shape in Hrtc. rewrite Hrtc. by destruct m.
  - by apply (rtc_op_stamped _ _ Hrtc).
Qed.

Lemma step_wellFormed st a :
  map_Forall (λ _, wellFormed) (Routes.messages st) →
  map_Forall (λ _, wellFormed) (Routes.messages (Routes.step st a).1).
Proof.
  intros Hall id m' Hm'.
  destruct (Routes.messages st !! id) as [m|] eqn:Hm.
  - destruct (step_rewrites st a id m m' Hm Hm') as [-> | Hrw].
    + by eapply Hall.
    + eapply rewritten_wellFormed; [by eapply Hall | done].
  - destruct (step_creates st a id m' Hm Hm') as (env & req & m0 & _ & _ & Hdraft & Hrw).
    by eapply drafted_wellFormed.
Qed.

Lemma run_wellFormed actions st :
  map_Forall (λ _, wellFormed) (Routes.messages st) →
  map_Forall (λ _, wellFormed) (Routes.messages (Routes.run st actions)).
Proof.
  unfold Routes.run. revert st.
  induction actions as [|a actions IH]; intros st Hall; [done|].
  cbn [fold_left]. apply IH. by apply step_wellFormed.
Qed.

End WellFormed.



(** *** Responses and what they leave behind *)

Section Responses.

Implicit Types (st : Routes.State) (env : Routes.Env).

(** Every request leaves the state as it was, or answers 200 or 500. *)
Lemma step_unchanged_or_code st a :
  (Routes.step st a).1 = st
  ∨ Routes.code (Routes.step st a).2 = 200
  ∨ Routes.code (Routes.step st a).2 = 500.
Proof.
  assert (∀ env req client id message st0,
            Routes.code (Routes.sendNow env req client id message st0).2 = 200
            ∨ Routes.code (Routes.sendNow env req client id message st0).2 = 500) as Hnow.
  { intros env req client id message st0. unfold Routes.sendNow.
    destruct (MMSService.sendMessage _ _ _) as [sendResult|e].
    - destruct (Message.updateDeliveryStatus "sent" _ _ _ _ _) as [m1 [db1|e1]]; [by left|].
      destruct (Message.updateDeliveryStatus "failed" _ _ _ _ _) as [m2 [db2|e2]]; by right.
    - destruct (Message.updateDeliveryStatus "failed" _ _ _ _ _) as [m2 [db2|e2]]; by right. }
  destruct a as [env req | env req | req | env req]; cbn [Routes.step].
  - unfold Routes.send.
    destruct (negb (bool_decide _)); [by left|].
    destruct (Routes.clients st !! Routes.clientId req) as [client|]; [|by left].
    destruct (negb (Client.canSendMessage client)); [by left|].
    destruct (Routes.optedOut _ _); [by left|].
    destruct (Routes.resolveContent env req) as [response|messageContent]; [by left|].
    destruct (negb (ComplianceService.passed _)); [by left|].
    destruct (Message.save true _ _ _) as [db|e]; [|by left].
    destruct (negb (from_option _ _ _)); [right; apply Hnow | right; by left].
  - unfold Routes.retry.
    destruct (Routes.findOwned _ _) as [m|]; [|by left].
    destruct (negb (Message.canRetry m)); [by left|].
    destruct (Routes.clients st !! _) as [client|]; [|by left].
    destruct (negb (Client.canSendMessage client)); [by left|].
    destruct (Message.incrementRetry _ _ _) as [m1 [db1|e1]]; [|by left].
    right.
    destruct (MMSService.sendMessage _ _ _) as [sendResult|e].
    + destruct (Message.updateDeliveryStatus "sent" _ _ _ _ _) as [m2 [db2|e2]]; [by left|].
      destruct (Message.updateDeliveryStatus "failed" _ _ _ _ _) as [m3 [db3|e3]]; by right.
    + destruct (Message.updateDeliveryStatus "failed" _ _ _ _ _) as [m3 [db3|e3]]; by right.
  - unfold Routes.cancel.
    destruct (Routes.findOwned _ _); [|by left].
    destruct (_ && _); [right; by left | by left].
  - unfold Routes.webhook.
    destruct (negb (Js.truthy_str _)); [by left|].
    destruct (Routes.messages st !! _) as [m|]; [|by left].
    destruct (Message.updateDeliveryStatus _ _ _ _ _ _) as [m1 [db1|e1]];
      [right; by left | by left].
Qed.

End Responses.

(** X12.  A request that is answered with a 4xx status (validation,
    eligibility, opt-out, template, compliance, not found, not retryable)
    leaves the whole state, messages and tenants, exactly as it was. *)
Theorem rejection_changes_nothing (st : Routes.State) (a : Routes.Action)
    (Hrejected : 400 <= Routes.code (Routes.step st a).2 < 500) :
  (Routes.step st a).1 = st.
Proof.
  destruct (step_unchanged_or_code st a) as [Hsame | [Hcode | Hcode]]; [done | lia | lia].
Qed.

Lemma rejection_changes_nothing_witness :
  (Routes.step (Sample.holding (Sample.stored "sent"))
     (Routes.Retry (Sample.env 200 "" Sample.accept)
        {| Routes.messageId := "m1"; Routes.forClient := "c1" |})).1
  = Sample.holding (Sample.stored "sent").
Proof.
  apply (rejection_changes_nothing (Sample.holding (Sample.stored "sent"))
           (Routes.Retry (Sample.env 200 "" Sample.accept)
              {| Routes.messageId := "m1"; Routes.forClient := "c1" |})).
  replace (Routes.code _) with 400 by reflexivity. lia.
Defined.

(** X13.  Retry and cancel are confined to the caller's tenant: for a
    message that is stored but owned by another client, both answer 404
    and change nothing. *)
Theorem foreign_message_is_not_found
    (env : Routes.Env) (req : Routes.MessageRequest) (st : Routes.State) (m : Message.t)
    (Hstored : Routes.messages st !! Routes.messageId req = Some m)
    (Hforeign : Message.clientId m ≠ Routes.forClient req) :
  Routes.retry env req st
  = (st, {| Routes.code := 404; Routes.json := [("message", Routes.JStr "Message not found")] |})
  ∧ Routes.cancel req st
    = (st, {| Routes.code := 404;
              Routes.json := [("message", Routes.JStr "Scheduled message not found")] |}).
Proof.
  assert (Routes.findOwned (Routes.messages st) req = None) as Hnone.
  { unfold Routes.findOwned. rewrite Hstored. apply eqb_false in Hforeign.
    by rewrite Hforeign. }
  unfold Routes.retry, Routes.cancel. by rewrite Hnone.
Qed.

Lemma foreign_message_is_not_found_witness :
  Routes.cancel {| Routes.messageId := "m1"; Routes.forClient := "c2" |}
    (Sample.holding (Sample.stored "pending"))
  = (Sample.holding (Sample.stored "pending"),
     {| Routes.code := 404;
        Routes.json := [("message", Routes.JStr "Scheduled message not found")] |}).
Proof.
  apply (foreign_message_is_not_found (Sample.env 0 "" Sample.accept)
           {| Routes.messageId := "m1"; Routes.forClient := "c2" |}
           (Sample.holding (Sample.stored "pending")) (Sample.stored "pending")).
  - reflexivity.
  - discriminate.
Defined.

(** *** Opt-out *)

Lemma optedOut_iff (db : gmap string Message.t) (p : string) :
  Routes.optedOut db p = true ↔
  ∃ id m, db !! id = Some m ∧ phoneNumber (Message.recipient m) = p
          ∧ optOutStatus (Message.recipient m) = true.
Proof.
  unfold Routes.optedOut. rewrite existsb_exists. split.
  - intros ([id m] & Hin & Hm). apply list_elem_of_In, elem_of_map_to_list in Hin.
    apply andb_true_iff in Hm as [Hp Ho]. apply eqb_true in Hp. by exists id, m.
  - intros (id & m & Hin & Hp & Ho). exists (id, m). split.
    + by apply list_elem_of_In, elem_of_map_to_list.
    + apply andb_true_iff. split; [by apply eqb_true | done].
Qed.

(** X14.  Once any stored message, of whatever tenant, records an
    opt-out for a number, every well-formed send request of an eligible
    tenant to that number is answered 400 "Recipient has opted out of
    messages" and changes nothing; compliance is not even evaluated. *)
Theorem opted_out_recipient_is_refused
    (env : Routes.Env) (req : Routes.SendRequest) (st : Routes.State)
    (client : Client.t) (id : string) (m : Message.t)
    (Hvalid : Routes.validationErrors req = [])
    (Hclient : Routes.clients st !! Routes.clientId req = Some client)
    (Hcan : Client.canSendMessage client = true)
    (Hstored : Routes.messages st !! id = Some m)
    (Hnumber : phoneNumber (Message.recipient m) = phoneNumber (Routes.recipient req))
    (Hopt : optOutStatus (Message.recipient m) = true) :
  Routes.send env req st =
  (st, {| Routes.code := 400;
          Routes.json := [("message", Routes.JStr "Recipient has opted out of messages")] |}).
Proof.
  assert (Routes.optedOut (Routes.messages st) (phoneNumber (Routes.recipient req)) = true)
    as Hout by (apply optedOut_iff; by exists id, m).
  unfold Routes.send. rewrite Hvalid, Hclient, Hcan, Hout.
  by rewrite bool_decide_eq_true_2.
Qed.

Lemma opted_out_recipient_is_refused_witness :
  let gone :=
    Message.Build_t "c2" "u9"
      {| phoneNumber := "5551234567"; name := None; ageVerified := true;
         consentGiven := true; consentDate := None; optOutStatus := true |}
      (Sample.say "bye") (Message.delivery (Sample.stored "delivered"))
      (Message.compliance (Sample.stored "delivered"))
      (Message.scheduling (Sample.stored "delivered")) in
  Routes.code
    (Routes.send (Sample.env 100 "m2" Sample.accept)
       (Sample.request (Sample.person true true) (Sample.say "hi"))
       (Sample.holding gone)).2 = 400.
Proof.
  intros gone.
  rewrite (opted_out_recipient_is_refused (Sample.env 100 "m2" Sample.accept)
             (Sample.request (Sample.person true true) (Sample.say "hi"))
             (Sample.holding gone) Sample.tenant "m1" gone); reflexivity.
Defined.

(** *** Cancelling *)

(** X15.  Cancelling a message of the caller's tenant that is scheduled
    and still "pending" removes exactly that message and answers 200; the
    same request once more is answered 404 and changes nothing. *)
Theorem cancel_once
    (req : Routes.MessageRequest) (st : Routes.State) (m : Message.t)
    (Hstored : Routes.messages st !! Routes.messageId req = Some m)
    (Hown : Message.clientId m = Routes.forClient req)
    (Hscheduled : Message.isScheduled (Message.scheduling m) = true)
    (Hpending : Message.status (Message.delivery m) = "pending") :
  let first := Routes.cancel req st in
  first = (Routes.withMessages st (delete (Routes.messageId req) (Routes.messages st)),
           {| Routes.code := 200;
              Routes.json :=
                [("message", Routes.JStr "Scheduled message cancelled successfully")] |})
  ∧ Routes.messages first.1 !! Routes.messageId req = None
  ∧ (∀ id, id ≠ Routes.messageId req →
           Routes.messages first.1 !! id = Routes.messages st !! id)
  ∧ Routes.cancel req first.1
    = (first.1, {| Routes.code := 404;
                   Routes.json := [("message", Routes.JStr "Scheduled message not found")] |}).
Proof.
  intros first.
  assert (first = (Routes.withMessages st (delete (Routes.messageId req) (Routes.messages st)),
                   {| Routes.code := 200;
                      Routes.json :=
                        [("message", Routes.JStr "Scheduled message cancelled successfully")] |}))
    as Hfirst.
  { subst first. unfold Routes.cancel, Routes.findOwned. rewrite Hstored.
    apply eqb_true in Hown. rewrite Hown, Hscheduled, Hpending. reflexivity. }
  rewrite Hfirst. cbn [fst Routes.withMessages Routes.messages].
  split; [done|]. split; [apply lookup_delete_eq|]. split.
  - intros id Hid. by apply lookup_delete_ne.
  - unfold Routes.cancel, Routes.findOwned.
    change (Routes.messages (Routes.withMessages st ?db)) with db.
    by rewrite lookup_delete_eq.
Qed.

Lemma cancel_once_witness :
  let planned :=
    Message.Build_t "c1" "u1" (Sample.person true true) (Sample.say "sale at noon")
      Message.defaultDelivery (Message.compliance (Sample.stored "pending"))
      {| Message.scheduledFor := Some 5000; Message.isScheduled := true |} in
  Routes.messages
    (Routes.cancel {| Routes.messageId := "m1"; Routes.forClient := "c1" |}
       (Sample.holding planned)).1 !! "m1" = None.
Proof.
  intros planned.
  apply (cancel_once {| Routes.messageId := "m1"; Routes.forClient := "c1" |}
           (Sample.holding planned) planned); reflexivity.
Defined.

(** *** Sending *)

(** A verdict that passed has set both verification flags. *)
Lemma passed_flags (hour : Z) (client : Client.t) (recipient : Recipient) (content : Content) :
  let v := ComplianceService.checkMessageCompliance hour client recipient content in
  ComplianceService.passed v = true →
  ComplianceService.ageVerified v = true ∧ ComplianceService.consentVerified v = true.
Proof.
  cbv zeta.
  destruct (Client.requiredDisclaimers (Client.complianceSettings client)) as [l|] eqn:Hl.
  - rewrite (verdict_of_array hour client recipient content l Hl).
    cbn [ComplianceService.passed ComplianceService.ageVerified
         ComplianceService.consentVerified].
    by destruct (ComplianceService.verified (ComplianceService.verifyAge _ _)),
      (ComplianceService.verified (ComplianceService.verifyConsent _ _)).
  - rewrite (verdict_of_absent hour client recipient content Hl).
    destruct (ComplianceService.included _); [|done].
    cbn [ComplianceService.passed ComplianceService.ageVerified
         ComplianceService.consentVerified].
    by destruct (ComplianceService.verified (ComplianceService.verifyAge _ _)),
      (ComplianceService.verified (ComplianceService.verifyConsent _ _)).
Qed.

(** A send request that passes every gate of the route: well-formed, of
    an eligible tenant, to a number without opt-out and matching the
    phone pattern, with content that resolved and passed compliance, and
    with an id that is not in use. *)
Definition admitted (env : Routes.Env) (req : Routes.SendRequest) (st : Routes.State)
    (client : Client.t) (messageContent : Content) : Prop :=
  Routes.validationErrors req = []
  ∧ Routes.clients st !! Routes.clientId req = Some client
  ∧ Client.canSendMessage client = true
  ∧ Routes.optedOut (Routes.messages st) (phoneNumber (Routes.recipient req)) = false
  ∧ Routes.resolveContent env req = inr messageContent
  ∧ ComplianceService.passed
      (ComplianceService.checkMessageCompliance (Routes.hour env) client
         (Routes.recipient req) messageContent) = true
  ∧ validatePhoneNumber (phoneNumber (Routes.recipient req)) = true
  ∧ Routes.messages st !! Routes.freshId env = None.

(** The document of an admitted request. *)
Definition admittedDraft (env : Routes.Env) (req : Routes.SendRequest)
    (client : Client.t) (messageContent : Content) : Message.t :=
  draftOf req messageContent
    (ComplianceService.checkMessageCompliance (Routes.hour env) client
       (Routes.recipient req) messageContent).

Section Sending.

Variables (env : Routes.Env) (req : Routes.SendRequest) (st : Routes.State)
          (client : Client.t) (messageContent : Content).
Hypothesis Hadmitted : admitted env req st client messageContent.

Let draft := admittedDraft env req client messageContent.

Lemma draft_saved :
  Message.save true (Routes.freshId env) draft (Routes.messages st)
  = Ok (<[Routes.freshId env := draft]> (Routes.messages st)).
Proof.
  destruct Hadmitted as (_ & _ & _ & _ & _ & Hpassed & Hphone & Hfree).
  apply passed_flags in Hpassed as [Hage Hconsent].
  unfold Message.save.
  assert (Message.validate true draft = Ok ()) as ->.
  { apply validate_iff. split; [by apply arrayIncludes_elem | done]. }
  assert (Message.preSave draft = Ok ()) as -> by (by apply preSave_Ok).
  rewrite Hfree. by rewrite bool_decide_eq_false_2 by (by intros [? ?]).
Qed.

Lemma admitted_send :
  Routes.send env req st =
  if negb (from_option Message.isScheduled false (Routes.scheduling req)) then
    Routes.sendNow env req client (Routes.freshId env) draft
      (Routes.withMessages st (<[Routes.freshId env := draft]> (Routes.messages st)))
  else
    (Routes.withMessages st (<[Routes.freshId env := draft]> (Routes.messages st)),
     {| Routes.code := 200;
        Routes.json :=
          [("message", Routes.JStr "Message scheduled successfully");
           ("messageId", Routes.JStr (Routes.freshId env));
           ("status", Routes.JStr "scheduled");
           ("scheduledFor",
            Routes.JDate (from_option Message.scheduledFor None (Routes.scheduling req)))] |}).
Proof.
  pose proof Hadmitted as (? & ? & ? & ? & ? & ? & _).
  rewrite (send_after_gates env req st client messageContent) by done.
  fold (admittedDraft env req client messageContent). fold draft.
  by rewrite draft_saved.
Qed.

End Sending.







(** X22.  A permitted retry of an eligible tenant that the provider
    accepts: the answer is 200, the tenant is charged once, and the
    message is stored as "sent" with the current time as sentAt, the new
    provider id and a counter one higher.  The failure reason of the
    earlier attempt is still on the record. *)
Theorem retry_accepted
    (env : Routes.Env) (req : Routes.MessageRequest) (st : Routes.State)
    (m : Message.t) (client : Client.t) (r : MMSService.SendResult)
    (Hfind : Routes.findOwned (Routes.messages st) req = Some m)
    (Hcan : Message.canRetry m = true)
    (Hclient : Routes.clients st !! Routes.forClient req = Some client)
    (Heligible : Client.canSendMessage client = true)
    (Hnet : MMSService.sendMessage (Routes.net env) (bump m) client = Ok r) :
  let again := Routes.retry env req st in
  Routes.code again.2 = 200
  ∧ Routes.clients again.1
    = <[Routes.forClient req := Client.incrementMessageCount client]> (Routes.clients st)
  ∧ ∃ m', Routes.messages again.1 = <[Routes.messageId req := m']> (Routes.messages st)
          ∧ Message.status (Message.delivery m') = "sent"
          ∧ Message.sentAt (Message.delivery m') = Some (Routes.now env)
          ∧ Message.providerMessageId (Message.delivery m') = Some (MMSService.messageId r)
          ∧ Message.retryCount (Message.delivery m')
            = Message.retryCount (Message.delivery m) + 1
          ∧ Message.failureReason (Message.delivery m')
            = Message.failureReason (Message.delivery m).
Proof.
  intros again. subst again. unfold Routes.retry.
  rewrite Hfind, Hcan, Hclient, Heligible. cbn [negb].
  apply canRetry_iff in Hcan as [Hfailed _].
  unfold Message.incrementRetry. fold (bump m).
  assert (Message.status (Message.delivery (bump m)) = "failed") as Hs1.
  { unfold bump. destruct m as [? ? ? ? [] ? ?]. exact Hfailed. }
  rewrite save_existing;
    [| rewrite Hs1; by apply arrayIncludes_elem | rewrite Hs1; discriminate].
  cbn [Routes.withMessages Routes.messages Routes.clients]. rewrite Hnet.
  rewrite update_saves; [| done | by apply arrayIncludes_elem | discriminate].
  cbn [fst snd Routes.messages Routes.clients Routes.code].
  rewrite insert_insert_eq. split; [done|]. split; [done|].
  eexists. split; [done|].
  unfold bump. destruct m as [? ? ? ? [] ? ?]. repeat split; reflexivity.
Qed.

Lemma retry_accepted_witness :
  let failed :=
    Message.withDelivery (Sample.stored "failed")
      {| Message.status := "failed"; Message.providerMessageId := None;
         Message.providerResponse := None; Message.sentAt := None;
         Message.deliveredAt := None; Message.failureReason := Some "Twilio error: timeout";
         Message.retryCount := 0; Message.maxRetries := 3 |} in
  let again := Routes.retry (Sample.env 200 "" Sample.accept)
                 {| Routes.messageId := "m1"; Routes.forClient := "c1" |}
                 (Sample.holding failed) in
  ∃ m', Routes.messages again.1 = <["m1" := m']> (Routes.messages (Sample.holding failed))
        ∧ Message.status (Message.delivery m') = "sent"
        ∧ Message.failureReason (Message.delivery m') = Some "Twilio error: timeout".
Proof.
  intros failed again.
  destruct (retry_accepted (Sample.env 200 "" Sample.accept)
              {| Routes.messageId := "m1"; Routes.forClient := "c1" |}
              (Sample.holding failed) failed Sample.tenant
              {| MMSService.messageId := "SM1"; MMSService.response := "queued";
                 MMSService.provider := "twilio" |}
              eq_refl eq_refl eq_refl eq_refl eq_refl)
    as (_ & _ & m' & Hstore & Hstatus & _ & _ & _ & Hreason).
  exists m'. split; [exact Hstore|]. split; [exact Hstatus | exact Hreason].
Defined.

(** X21.  A message whose status is "undelivered" counts as failed
    ([isFailed]) but is not retryable: the retry route answers the 400
    rejection whatever its counter is.  Whatever is retryable is failed. *)
Theorem undelivered_is_failed_but_final (m : Message.t) :
  (Message.canRetry m = true → Message.isFailed m = true)
  ∧ (Message.status (Message.delivery m) = "undelivered" →
     Message.isFailed m = true
     ∧ Message.canRetry m = false
     ∧ ∀ env req st,
         Routes.findOwned (Routes.messages st) req = Some m →
         Routes.retry env req st = (st, notRetryable)).
Proof.
  split.
  - intros [Hs _]%canRetry_iff. unfold Message.isFailed. by rewrite Hs.
  - intros Hs.
    assert (Message.canRetry m = false) as Hno.
    { unfold Message.canRetry. rewrite Hs. apply andb_false_r. }
    split; [unfold Message.isFailed; by rewrite Hs|]. split; [done|].
    intros env req st Hfind. unfold Routes.retry. by rewrite Hfind, Hno.
Qed.

(** X23.  A webhook that names a status outside the schema's enumeration
    (a provider's own "queued", say) is not applied: the state stays as
    it was, and the answer is 400, 404 or 500. *)
Theorem unknown_status_is_not_applied
    (env : Routes.Env) (req : Routes.WebhookRequest) (st : Routes.State)
    (Hunknown : Routes.wh_status req ∉ Message.statusEnum) :
  (Routes.webhook env req st).1 = st
  ∧ Routes.code (Routes.webhook env req st).2 ∈ [400; 404; 500].
Proof.
  unfold Routes.webhook.
  destruct (negb (Js.truthy_str _)); [split; [done | set_solver]|].
  destruct (Routes.messages st !! _) as [m|]; [|split; [done | set_solver]].
  unfold Message.updateDeliveryStatus, Message.save, Message.validate.
  destruct (setDeliveryStatus_plain (Routes.wh_status req)
              [Message.PFailureReason (Routes.wh_error req)] (Routes.now env) m eq_refl)
    as (-> & _).
  rewrite <- arrayIncludes_elem in Hunknown. apply not_true_is_false in Hunknown.
  rewrite Hunknown. cbn [negb fst snd]. split; [done | set_solver].
Qed.

Lemma unknown_status_is_not_applied_witness :
  (Routes.webhook (Sample.env 300 "" Sample.accept) (Sample.report "queued")
     (Sample.holding (Sample.stored "sent"))).1
  = Sample.holding (Sample.stored "sent").
Proof.
  apply (unknown_status_is_not_applied (Sample.env 300 "" Sample.accept)
           (Sample.report "queued") (Sample.holding (Sample.stored "sent"))).
  intros Hin%arrayIncludes_elem. discriminate Hin.
Defined.

(** *** The tenant's usage counter *)

Section Usage.

Implicit Types (st : Routes.State) (env : Routes.Env).

Definition reportsSent (response : Routes.Response) : Prop :=
  Routes.code response = 200 ∧ ("status", Routes.JStr "sent") ∈ Routes.json response.

(** One request leaves the tenants as they are, or charges one eligible
    tenant once and reports "sent". *)
Lemma step_clients st a :
  Routes.clients (Routes.step st a).1 = Routes.clients st
  ∨ ∃ c client, Routes.clients st !! c = Some client
                ∧ Client.canSendMessage client = true
                ∧ Routes.clients (Routes.step st a).1
                  = <[c := Client.incrementMessageCount client]> (Routes.clients st)
                ∧ reportsSent (Routes.step st a).2.
Proof.
  destruct a as [env req | env req | req | env req]; cbn [Routes.step].
  - unfold Routes.send.
    destruct (negb (bool_decide _)); [by left|].
    destruct (Routes.clients st !! Routes.clientId req) as [client|] eqn:Hclient; [|by left].
    destruct (Client.canSendMessage client) eqn:Hcan; cbn [negb]; [|by left].
    destruct (Routes.optedOut _ _); [by left|].
    destruct (Routes.resolveContent env req) as [response|messageContent]; [by left|].
    destruct (negb (ComplianceService.passed _)); [by left|].
    destruct (Message.save true _ _ _) as [db|e]; [|by left].
    destruct (negb (from_option _ _ _)); [|by left].
    unfold Routes.sendNow.
    destruct (MMSService.sendMessage _ _ _) as [sendResult|e].
    + destruct (Message.updateDeliveryStatus "sent" _ _ _ _ _) as [m1 [db1|e1]].
      * right. exists (Routes.clientId req), client. repeat split; [done..|].
        cbn. set_solver.
      * destruct (Message.updateDeliveryStatus "failed" _ _ _ _ _) as [m2 [db2|e2]]; by left.
    + destruct (Message.updateDeliveryStatus "failed" _ _ _ _ _) as [m2 [db2|e2]]; by left.
  - unfold Routes.retry.
    destruct (Routes.findOwned _ _) as [m|]; [|by left].
    destruct (negb (Message.canRetry m)); [by left|].
    destruct (Routes.clients st !! _) as [client|] eqn:Hclient; [|by left].
    destruct (Client.canSendMessage client) eqn:Hcan; cbn [negb]; [|by left].
    destruct (Message.incrementRetry _ _ _) as [m1 [db1|e1]]; [|by left].
    destruct (MMSService.sendMessage _ _ _) as [sendResult|e].
    + destruct (Message.updateDeliveryStatus "sent" _ _ _ _ _) as [m2 [db2|e2]].
      * right. exists (Routes.forClient req), client. repeat split; [done..|].
        cbn. set_solver.
      * destruct (Message.updateDeliveryStatus "failed" _ _ _ _ _) as [m3 [db3|e3]]; by left.
    + destruct (Message.updateDeliveryStatus "failed" _ _ _ _ _) as [m3 [db3|e3]]; by left.
  - unfold Routes.cancel.
    destruct (Routes.findOwned _ _); [|by left]. destruct (_ && _); by left.
  - unfold Routes.webhook.
    destruct (negb (Js.truthy_str _)); [by left|].
    destruct (Routes.messages st !! _) as [m|]; [|by left].
    destruct (Message.updateDeliveryStatus _ _ _ _ _ _) as [m1 [db1|e1]]; by left.
Qed.

End Usage.



(** X20.  The quota is kept: if no tenant has used more messages than
    its limit, the same holds after any sequence of requests, and no
    limit has changed. *)
Theorem quota_is_kept
    (st : Routes.State) (actions : list Routes.Action)
    (Hquota : ∀ c client, Routes.clients st !! c = Some client →
                Client.messagesUsed (Client.subscription client)
                <= Client.messagesLimit (Client.subscription client))
    (c : string) (client' : Client.t)
    (Hafter : Routes.clients (Routes.run st actions) !! c = Some client') :
  Client.messagesUsed (Client.subscription client')
  <= Client.messagesLimit (Client.subscription client')
  ∧ ∃ client, Routes.clients st !! c = Some client
              ∧ Client.messagesLimit (Client.subscription client')
                = Client.messagesLimit (Client.subscription client)
              ∧ Client.messagesUsed (Client.subscription client)
                <= Client.messagesUsed (Client.subscription client').
Proof.
  revert st Hquota c client' Hafter. unfold Routes.run.
  induction actions as [|a actions IH]; intros st Hquota c client' Hafter; cbn [fold_left] in *.
  - split; [by eapply Hquota|]. exists client'. split; [done|]. split; [done | lia].
  - assert (∀ c1 client1,
              Routes.clients (Routes.step st a).1 !! c1 = Some client1 →
              ∃ client0, Routes.clients st !! c1 = Some client0
                ∧ Client.messagesLimit (Client.subscription client1)
                  = Client.messagesLimit (Client.subscription client0)
                ∧ Client.messagesUsed (Client.subscription client0)
                  <= Client.messagesUsed (Client.subscription client1)
                ∧ Client.messagesUsed (Client.subscription client1)
                  <= Client.messagesLimit (Client.subscription client1)) as Hstep.
    { intros c1 client1 H1.
      destruct (step_clients st a) as [Heq | (c0 & client0 & Hc0 & Hcan & Heq & _)];
        rewrite Heq in H1.
      - exists client1. repeat split; [done.. | lia | by eapply Hquota].
      - destruct (decide (c0 = c1)) as [<- | Hne].
        + rewrite lookup_insert_eq in H1. simplify_eq. exists client0.
          unfold Client.canSendMessage in Hcan.
          apply andb_true_iff in Hcan as [[_ Hlt%Z.ltb_lt]%andb_true_iff _].
          cbn. repeat split; [done.. | lia | lia].
        + rewrite lookup_insert_ne in H1 by done.
          exists client1. repeat split; [done.. | lia | by eapply Hquota]. }
    destruct (IH (Routes.step st a).1) with (c := c) (client' := client')
      as (Hle & client1 & Hc1 & Hlimit & Hused); [|done|].
    { intros c1 client1 H1. by destruct (Hstep c1 client1 H1) as (_ & _ & _ & _ & ?). }
    split; [done|].
    destruct (Hstep c client1 Hc1) as (client0 & Hc0 & Hlimit0 & Hused0 & _).
    exists client0. split; [done|]. split; [congruence | lia].
Qed.

Lemma quota_is_kept_witness :
  let busy :=
    {| Client.complianceSettings := Client.complianceSettings Sample.tenant;
       Client.mmsSettings := Client.mmsSettings Sample.tenant;
       Client.subscription :=
         {| Client.status := "active"; Client.messagesUsed := 0; Client.messagesLimit := 1 |};
       Client.isActive := true; Client.complianceStatus := "compliant" |} in
  let st :=
    Routes.run (Routes.start {[ "c1" := busy ]})
      [Routes.Send (Sample.env 100 "m1" Sample.accept)
         (Sample.request (Sample.person true true) (Sample.say "hi"));
       Routes.Send (Sample.env 200 "m2" Sample.accept)
         (Sample.request (Sample.person true true) (Sample.say "hi again"))] in
  ∃ client', Routes.clients st !! "c1" = Some client'
             ∧ Client.messagesUsed (Client.subscription client') <= 1.
Proof.
  intros busy st. eexists. split; [reflexivity|].
  eapply (quota_is_kept (Routes.start {[ "c1" := busy ]})
            [Routes.Send (Sample.env 100 "m1" Sample.accept)
               (Sample.request (Sample.person true true) (Sample.say "hi"));
             Routes.Send (Sample.env 200 "m2" Sample.accept)
               (Sample.request (Sample.person true true) (Sample.say "hi again"))]
            ltac:(intros c client Hc; unfold Routes.start in Hc;
                  cbn [Routes.clients] in Hc;
                  apply lookup_singleton_Some in Hc as [<- <-]; cbn; lia) "c1").
  reflexivity.
Defined.

(** ** The template document: [server/models/Template.js] *)

Module Template.

Record Var := {
  name : string;
  required : bool;
  defaultValue : option string
}.

Record Usage := { totalSent : Z; lastUsed : option Z }.

(** The parts of the document that its methods and its hook read. *)
Record t := {
  clientId : string;
  text : string;
  media : list MediaItem;
  variables : list Var;
  restrictedKeywords : list string;
  usage : Usage
}.

Record Validation := { isValid : bool; errors : list string }.

(** [validateVariables(variables)], lines 118-131.  The argument is the
    request's object of supplied values, read through its own
    properties; its values are strings. *)
Definition validateVariables (this : t) (supplied : gmap string string) : Validation :=
  let errors :=
    fold_left
      (fun errors variable =>
         if required variable && negb (Js.truthy_str (supplied !! name variable)) then
           errors ++ ["Required variable '" +:+ name variable +:+ "' is missing"]
         else errors)
      (variables this) [] in
  {| isValid := (length errors =? 0)%nat; errors := errors |}.

(** [templateSchema.pre("save", ...)], lines 151-165 *)
Definition preSave (this : t) : Result unit :=
  if (0 <? length (restrictedKeywords this))%nat then
    let text := Js.toLowerCase (text this) in
    let hasRestrictedKeyword :=
      existsb (fun keyword => Js.includes text (Js.toLowerCase keyword))
              (restrictedKeywords this) in
    if hasRestrictedKeyword then Err "Template contains restricted keywords"
    else Ok ()
  else Ok ().

(** [incrementUsage()], lines 134-138: the document after the two
    assignments and the outcome of its save.  The paths it modifies carry
    no validator, so the save comes down to the hook and the write. *)
Definition incrementUsage (now : Z) (id : string) (this : t) (db : gmap string t)
    : t * Result (gmap string t) :=
  let this :=
    {| clientId := clientId this; text := text this; media := media this;
       variables := variables this; restrictedKeywords := restrictedKeywords this;
       usage := {| totalSent := totalSent (usage this) + 1; lastUsed := Some now |} |} in
  (this,
   match preSave this with
   | Err e => Err e
   | Ok _ => Ok (<[id := this]> db)
   end).

End Template.

Section TemplateFacts.

Implicit Types (this : Template.t) (supplied : gmap string string).

(** A declared variable that is required and has no non-empty supplied
    value. *)
Definition unsupplied supplied (variable : Template.Var) : bool :=
  Template.required variable && negb (Js.truthy_str (supplied !! Template.name variable)).

Lemma validation_errors_fold supplied (vars : list Template.Var) (acc : list string) :
  fold_left
    (fun errors variable =>
       if Template.required variable
          && negb (Js.truthy_str (supplied !! Template.name variable)) then
         errors ++ ["Required variable '" +:+ Template.name variable +:+ "' is missing"]
       else errors)
    vars acc
  = acc ++ map (fun variable => "Required variable '" +:+ Template.name variable +:+ "' is missing")
             (List.filter (unsupplied supplied) vars).
Proof.
  revert acc. induction vars as [|v vars IH]; intros acc; cbn [fold_left List.filter map].
  - by rewrite app_nil_r.
  - rewrite IH. unfold unsupplied at 2.
    destruct (Template.required v && _); [|done].
    cbn [map]. by rewrite <- app_assoc.
Qed.

Lemma truthy_str_iff (o : option string) :
  Js.truthy_str o = true ↔ ∃ s, o = Some s ∧ s ≠ "".
Proof.
  destruct o as [s|]; cbn.
  - rewrite negb_true_iff, eqb_false. split; [intros ?; by exists s | by intros (? & [= <-] & ?)].
  - split; [done | by intros (? & ? & _)].
Qed.

End TemplateFacts.


(** X25.  [incrementUsage] adds one to [totalSent] and records the time,
    and its save succeeds exactly when no restricted keyword of the
    template occurs, letter case aside, in the template's own text;
    otherwise it fails with "Template contains restricted keywords".  The
    outcome does not depend on the usage itself, so such a template fails
    at every use. *)
Theorem incrementUsage_outcome (now : Z) (id : string) (this : Template.t)
    (db : gmap string Template.t) :
  let result := Template.incrementUsage now id this db in
  Template.totalSent (Template.usage result.1) = Template.totalSent (Template.usage this) + 1
  ∧ Template.lastUsed (Template.usage result.1) = Some now
  ∧ Template.text result.1 = Template.text this
  ∧ Template.variables result.1 = Template.variables this
  ∧ ((∀ keyword, keyword ∈ Template.restrictedKeywords this →
                 ¬ ∃ pre post,
                     Js.toLowerCase (Template.text this) = pre +:+ Js.toLowerCase keyword +:+ post)
     → result.2 = Ok (<[id := result.1]> db))
  ∧ ((∃ keyword, keyword ∈ Template.restrictedKeywords this
                 ∧ ∃ pre post,
                     Js.toLowerCase (Template.text this) = pre +:+ Js.toLowerCase keyword +:+ post)
     → result.2 = Err "Template contains restricted keywords"
       ∧ ∀ now' id' db', (Template.incrementUsage now' id' result.1 db').2
                         = Err "Template contains restricted keywords").
Proof.
  cbv zeta. unfold Template.incrementUsage, Template.preSave.
  cbn [fst snd Template.usage Template.totalSent Template.lastUsed Template.text
       Template.variables Template.restrictedKeywords].
  do 4 (split; [done|]).
  set (found := existsb _ (Template.restrictedKeywords this)).
  assert (found = true ↔
          ∃ keyword, keyword ∈ Template.restrictedKeywords this
                     ∧ ∃ pre post, Js.toLowerCase (Template.text this)
                                   = pre +:+ Js.toLowerCase keyword +:+ post) as Hfound.
  { subst found. rewrite existsb_exists. split.
    - intros (k & Hk & Hin). exists k. split; [by apply list_elem_of_In | by apply includes_spec].
    - intros (k & Hk & Hin). exists k. split; [by apply list_elem_of_In | by apply includes_spec]. }
  split.
  - intros Hnone.
    assert (found = false) as ->.
    { apply not_true_is_false. intros (k & Hk & Hin)%Hfound. by apply (Hnone k). }
    by destruct (0 <? _)%nat.
  - intros Hsome. pose proof Hsome as (k & Hk & _).
    apply Hfound in Hsome. rewrite Hsome.
    assert ((0 <? length (Template.restrictedKeywords this))%nat = true) as ->.
    { destruct (Template.restrictedKeywords this); [by apply elem_of_nil in Hk | done]. }
    done.
Qed.
